(** * quickconfig: the configuration resolution and lifecycle engine

    A shallow embedding of [quickconfig/base_config.py] (class [BaseConfig]),
    [quickconfig/main_base.py] (class [MainBase]) and
    [quickconfig/session_saver.py] (class [SessionSaver]), with the example
    schema of [example/], and the properties of the resolution pipeline,
    of the lock/freeze gate, of the export functions and of the allocation
    of run directories.

    Python objects are modelled by their instance dictionary (an
    association list in insertion order, as Python dicts are ordered)
    together with the attributes of their class; exceptions by an error
    type with one constructor per [raise] site of the source; [print] by a
    log of lines; the file system and [json.load] by a function from paths
    to decoded JSON values.  A float is carried by its [repr], the text
    that round-trips it; arithmetic on floats is not modelled. *)

From Stdlib Require Import String Ascii List ZArith Bool Arith Lia.
From Stdlib Require Import DecimalString DecimalPos.
Import ListNotations.
Open Scope string_scope.
Set Warnings "-register-all".
Set Default Proof Using "Type".

(** ** Strings as the source uses them *)

Module Str.

(** [sub in s] *)
Fixpoint contains (sub s : string) : bool :=
  String.prefix sub s ||
  match s with
  | EmptyString => false
  | String _ s' => contains sub s'
  end.

(** [s.split(c, 1)]: [None] when [c] does not occur (the list has one
    element), otherwise the text before and after the first [c]. *)
Fixpoint split_once (c : ascii) (s : string) : option (string * string) :=
  match s with
  | EmptyString => None
  | String a s' =>
      if Ascii.eqb a c then Some (EmptyString, s')
      else match split_once c s' with
           | Some (l, r) => Some (String a l, r)
           | None => None
           end
  end.

(** [s.split(c)] *)
Fixpoint split (c : ascii) (s : string) : list string :=
  match s with
  | EmptyString => [EmptyString]
  | String a s' =>
      if Ascii.eqb a c then EmptyString :: split c s'
      else match split c s' with
           | h :: t => String a h :: t
           | [] => [String a EmptyString]
           end
  end.

(** [s.rsplit(c, 1)[-1]]: the text after the last [c], all of [s] when
    [c] does not occur. *)
Fixpoint after_last (c : ascii) (s : string) : string :=
  match s with
  | EmptyString => EmptyString
  | String a s' =>
      if Ascii.eqb a c
      then (if contains (String c EmptyString) s' then after_last c s' else s')
      else (if contains (String c EmptyString) s' then after_last c s'
            else String a s')
  end.

(** [s.rsplit(c, 1)[0]]: the text before the last [c], all of [s] when
    [c] does not occur. *)
Fixpoint before_last (c : ascii) (s : string) : string :=
  match s with
  | EmptyString => EmptyString
  | String a s' =>
      if contains (String c EmptyString) s' then String a (before_last c s')
      else if Ascii.eqb a c then EmptyString
      else String a s'
  end.

(** [s.split(sep)[-1]] for a non-empty separator: the text after the last
    of the occurrences found scanning from the left, all of [s] when there
    is none. *)
Fixpoint after_last_sub_aux (fuel : nat) (sep s : string) : string :=
  match fuel with
  | O => s
  | S fuel' =>
      match String.index 0 sep s with
      | None => s
      | Some i =>
          after_last_sub_aux fuel' sep
            (String.substring (i + String.length sep)
               (String.length s - (i + String.length sep)) s)
      end
  end.

Definition after_last_sub (sep s : string) : string :=
  after_last_sub_aux (S (String.length s)) sep s.

(** [s[-n:]] *)
Definition last_n (n : nat) (s : string) : string :=
  String.substring (String.length s - n) n s.

(** [c * n] for a one-character string; a negative count gives the empty
    string. *)
Definition repeat_str (c : string) (n : Z) : string :=
  String.concat EmptyString (List.repeat c (Z.to_nat n)).

(** [os.path.join(a, b)] on a POSIX system, for a relative [b]. *)
Definition path_join (a b : string) : string :=
  match a with
  | EmptyString => b
  | _ => if String.eqb (last_n 1 a) "/" then a ++ b else a ++ "/" ++ b
  end.

(** Insertion sort by code points, the order of [dir()]. *)
Fixpoint insert_sorted (x : string) (l : list string) : list string :=
  match l with
  | [] => [x]
  | y :: l' => if String.leb x y then x :: l else y :: insert_sorted x l'
  end.

Definition sort (l : list string) : list string :=
  fold_right insert_sorted [] l.

Definition mem (x : string) (l : list string) : bool :=
  existsb (String.eqb x) l.

Fixpoint dedup (l : list string) : list string :=
  match l with
  | [] => []
  | x :: l' => if mem x l' then dedup l' else x :: dedup l'
  end.

(** [l.remove(x)]: drops the first occurrence; [None] is the
    [ValueError] of a missing element. *)
Fixpoint remove_first (x : string) (l : list string) : option (list string) :=
  match l with
  | [] => None
  | y :: l' =>
      if String.eqb y x then Some l'
      else option_map (cons y) (remove_first x l')
  end.

End Str.

(** ** Values, exceptions and results *)

(** Python values as [json.load] and the command line produce them. *)
Inductive value : Type :=
| VNone
| VBool (b : bool)
| VInt (z : Z)
| VFloat (repr : string)
| VStr (s : string)
| VList (l : list value)
| VDict (d : list (string * value)).

(** Truth value of an object, as [if x:] and [bool(x)] compute it. *)
Definition truthy (v : value) : bool :=
  match v with
  | VNone => false
  | VBool b => b
  | VInt z => negb (Z.eqb z 0)
  | VFloat x => negb (String.eqb x "0.0" || String.eqb x "-0.0")
  | VStr s => negb (String.eqb s "")
  | VList l => match l with [] => false | _ => true end
  | VDict d => match d with [] => false | _ => true end
  end.

(** One constructor per [raise] statement of the two classes, and one per
    class of exception the Python runtime raises on the modelled paths. *)
Inductive exn : Type :=
| DeclTypeError        (* add_argument: default is not of the declared type *)
| DeclValueError       (* add_argument: default fails the validation *)
| ReservedName         (* BaseConfig.__setattr__: reserved attribute *)
| FrozenConfig         (* BaseConfig.__setattr__: frozen *)
| LockedConfig         (* BaseConfig.__setattr__: new attribute when locked *)
| RootFrozen           (* MainBase.__setattr__: frozen *)
| UnknownSubconfig     (* __assure_no_additional_keys *)
| UnknownArgument      (* argument not in dir(subcfg) *)
| InvalidArgumentName  (* undotted key that names no subconfig *)
| TypeCoercion         (* __validate_arg: the type constructor raised *)
| ValidationFailed     (* __validate_arg: the validation rejected *)
| PyAttributeError
| PyKeyError
| PyTypeError
| PyValueError
| PyOSError.

(** The Python class of each exception. *)
Definition py_class (e : exn) : string :=
  match e with
  | DeclTypeError | FrozenConfig | LockedConfig | RootFrozen
  | TypeCoercion | PyTypeError => "TypeError"
  | DeclValueError | UnknownSubconfig | UnknownArgument
  | ValidationFailed | PyValueError => "ValueError"
  | ReservedName | InvalidArgumentName => "Exception"
  | PyAttributeError => "AttributeError"
  | PyKeyError => "KeyError"
  | PyOSError => "OSError"
  end.

Inductive res (A : Type) : Type :=
| Ok (a : A)
| Err (e : exn).
Arguments Ok {A} a.
Arguments Err {A} e.

Definition bind {A B : Type} (m : res A) (f : A -> res B) : res B :=
  match m with
  | Ok a => f a
  | Err e => Err e
  end.

Notation "'let*' x ':=' m 'in' k" := (bind m (fun x => k))
  (at level 10, x pattern, m at level 100, k at level 200).

Definition is_ok {A : Type} (m : res A) : bool :=
  match m with Ok _ => true | Err _ => false end.

(** ** [str()] and [repr()] of a value *)

Definition dquote : ascii := ascii_of_nat 34.
Definition squote : ascii := ascii_of_nat 39.
Definition backslash : ascii := ascii_of_nat 92.

Definition hex_digit (n : nat) : ascii :=
  nth n ["0"; "1"; "2"; "3"; "4"; "5"; "6"; "7"; "8"; "9";
         "a"; "b"; "c"; "d"; "e"; "f"]%char "0"%char.

(** One character inside the quotes [q] of a [repr]. *)
Definition escape_char (q c : ascii) : string :=
  let n := nat_of_ascii c in
  if Ascii.eqb c backslash then String backslash (String backslash "")
  else if Ascii.eqb c q then String backslash (String q "")
  else if Nat.eqb n 10 then String backslash "n"
  else if Nat.eqb n 13 then String backslash "r"
  else if Nat.eqb n 9 then String backslash "t"
  else if Nat.ltb n 32 || Nat.eqb n 127
  then String backslash
         (String "x" (String (hex_digit (n / 16))
                        (String (hex_digit (n mod 16)) "")))
  else String c "".

Fixpoint escape (q : ascii) (s : string) : string :=
  match s with
  | EmptyString => EmptyString
  | String c s' => escape_char q c ++ escape q s'
  end.

(** [repr(s)]: single quotes, unless the text has a single quote and no
    double quote. *)
Definition repr_str (s : string) : string :=
  let q := if Str.contains (String squote "") s
              && negb (Str.contains (String dquote "") s)
           then dquote else squote in
  String q (escape q s ++ String q "").

Definition Z_to_string (z : Z) : string :=
  NilZero.string_of_int (Z.to_int z).

Fixpoint py_repr (v : value) : string :=
  match v with
  | VNone => "None"
  | VBool b => if b then "True" else "False"
  | VInt z => Z_to_string z
  | VFloat x => x
  | VStr s => repr_str s
  | VList l => "[" ++ String.concat ", " (map py_repr l) ++ "]"
  | VDict d =>
      "{" ++ String.concat ", "
               (map (fun kv => match kv with
                               | (k, x) => repr_str k ++ ": " ++ py_repr x
                               end) d) ++ "}"
  end.

(** [str(v)] *)
Definition py_str_of (v : value) : string :=
  match v with
  | VStr s => s
  | _ => py_repr v
  end.

(** ** Dictionaries: association lists in insertion order *)

Section Dict.
Context {V : Type}.

Fixpoint dict_get (k : string) (d : list (string * V)) : option V :=
  match d with
  | [] => None
  | (k', v) :: d' => if String.eqb k' k then Some v else dict_get k d'
  end.

(** [d[k] = v]: an existing key keeps its position. *)
Fixpoint dict_set (k : string) (v : V) (d : list (string * V))
  : list (string * V) :=
  match d with
  | [] => [(k, v)]
  | (k', v') :: d' =>
      if String.eqb k' k then (k, v) :: d' else (k', v') :: dict_set k v d'
  end.

Definition dict_keys (d : list (string * V)) : list string := map fst d.

Definition dict_has (k : string) (d : list (string * V)) : bool :=
  Str.mem k (dict_keys d).
End Dict.

(** ** Argument descriptors *)

(** The [type] argument of [add_argument]: a class used both for
    [isinstance] and, called on a raw value, as a converter.  [construct]
    answers [None] where the call raises. *)
Record ptype : Type := {
  tname : string;                       (* type.__name__ *)
  trepr : string;                       (* str(type) *)
  isinstance : value -> bool;
  construct : value -> option value
}.

(** [bool]: every object has a truth value, the call never raises. *)
Definition py_bool : ptype := {|
  tname := "bool";
  trepr := "<class 'bool'>";
  isinstance := fun v => match v with VBool _ => true | _ => false end;
  construct := fun v => Some (VBool (truthy v))
|}.

(** [str]: the identity on text, the printed form of anything else; the
    call never raises. *)
Definition py_str : ptype := {|
  tname := "str";
  trepr := "<class 'str'>";
  isinstance := fun v => match v with VStr _ => true | _ => false end;
  construct := fun v => Some (VStr (py_str_of v))
|}.

(** An entry of [arg_dict]: the descriptor that [add_argument] stores, or
    a plain value ([None] on the checkpoint path). *)
Inductive entry : Type :=
| EDesc (t : ptype) (validation : option (value -> bool))
| EVal (v : value).

(** What an attribute of a subconfig holds. *)
Inductive attr : Type :=
| AVal (v : value)
| AArgs (d : list (string * entry))   (* a dict that holds descriptors *)
| AOpaque.                            (* a method or a slot of the runtime *)

Definition attr_truthy (a : attr) : bool :=
  match a with
  | AVal v => truthy v
  | AArgs d => match d with [] => false | _ => true end
  | AOpaque => true
  end.

(** [key in a] *)
Definition attr_contains (a : attr) (key : string) : res bool :=
  match a with
  | AVal (VList l) =>
      Ok (existsb (fun v => match v with
                            | VStr s => String.eqb s key
                            | _ => false
                            end) l)
  | AVal (VStr s) => Ok (Str.contains key s)
  | AVal (VDict d) => Ok (dict_has key d)
  | AArgs d => Ok (dict_has key d)
  | _ => Err PyTypeError
  end.

(** [a.keys()] *)
Definition attr_keys (a : attr) : res (list string) :=
  match a with
  | AVal (VDict d) => Ok (dict_keys d)
  | AArgs d => Ok (dict_keys d)
  | _ => Err PyAttributeError
  end.

(** [a[k] = e] *)
Definition attr_setitem (a : attr) (k : string) (e : entry) : res attr :=
  match a, e with
  | AArgs d, _ => Ok (AArgs (dict_set k e d))
  | AVal (VDict d), EVal v => Ok (AVal (VDict (dict_set k v d)))
  | AVal (VDict d), _ =>
      Ok (AArgs (dict_set k e (map (fun kv => (fst kv, EVal (snd kv))) d)))
  | _, _ => Err PyTypeError
  end.

(** The attribute names every instance of a class defined in Python
    answers to besides those of its class body: [dir(object())] of
    CPython 3 and the three slots of a class instance. *)
Definition object_names : list string :=
  ["__class__"; "__delattr__"; "__dict__"; "__dir__"; "__doc__"; "__eq__";
   "__format__"; "__ge__"; "__getattribute__"; "__getstate__"; "__gt__";
   "__hash__"; "__init__"; "__init_subclass__"; "__le__"; "__lt__";
   "__module__"; "__ne__"; "__new__"; "__reduce__"; "__reduce_ex__";
   "__repr__"; "__setattr__"; "__sizeof__"; "__str__"; "__subclasshook__";
   "__weakref__"].

(** ** [BaseConfig]: a subconfig *)

(** An instance is its [__dict__]. *)
Definition obj : Type := list (string * attr).

Module BaseConfig.

(** [BaseConfig.reserved_attributes] *)
Definition reserved_attributes : list string :=
  ["arg_dict"; "help_dict"; "locked"; "frozen"; "add_argument"; "to_dict";
   "reserved_attributes"].

(** The names defined in the body of [class BaseConfig]. *)
Definition class_names : list string :=
  ["locked"; "frozen"; "reserved_attributes"; "add_argument"; "to_dict"].

(** Attributes found on the class when the instance has none. *)
Definition class_attr (k : string) : option attr :=
  if String.eqb k "locked" then Some (AVal (VBool false))
  else if String.eqb k "frozen" then Some (AVal (VBool false))
  else if String.eqb k "reserved_attributes"
  then Some (AVal (VList (map VStr reserved_attributes)))
  else if Str.mem k class_names then Some AOpaque
  else if Str.mem k object_names then Some AOpaque
  else None.

(** [getattr(o, k)]; [None] is [AttributeError]. *)
Definition getattr (o : obj) (k : string) : option attr :=
  match dict_get k o with
  | Some a => Some a
  | None => class_attr k
  end.

Definition hasattr (o : obj) (k : string) : bool :=
  match getattr o k with Some _ => true | None => false end.

(** [dir(o)] *)
Definition dir_obj (o : obj) : list string :=
  Str.sort (Str.dedup (dict_keys o ++ class_names ++ object_names)%list).

Definition get_or_raise (o : obj) (k : string) : res attr :=
  match getattr o k with
  | Some a => Ok a
  | None => Err PyAttributeError
  end.

(** [object.__setattr__(o, key, v)]: three names are slots of the
    runtime, every other name is stored in the instance dictionary. *)
Definition object_setattr (o : obj) (key : string) (v : value) : res obj :=
  if String.eqb key "__class__" then Err PyTypeError
  else if String.eqb key "__weakref__" then Err PyAttributeError
  else if String.eqb key "__dict__" then
    match v with
    | VDict d => Ok (map (fun kv => (fst kv, AVal (snd kv))) d)
    | _ => Err PyTypeError
    end
  else Ok (dict_set key (AVal v) o).

(** [BaseConfig.__setattr__] *)
Definition setattr (o : obj) (key : string) (v : value) : res obj :=
  let* reserved := get_or_raise o "reserved_attributes" in
  let* is_res := attr_contains reserved key in
  let* locked := get_or_raise o "locked" in
  if is_res && attr_truthy locked && negb (String.eqb key "frozen")
  then Err ReservedName
  else
    let* frozen := get_or_raise o "frozen" in
    if attr_truthy frozen then Err FrozenConfig
    else if attr_truthy locked && negb (hasattr o key) then Err LockedConfig
    else object_setattr o key v.

(** [BaseConfig.__init__] *)
Definition init : res obj :=
  let* o := setattr [] "arg_dict" (VDict []) in
  setattr o "help_dict" (VDict []).

(** [default is not None and default != "none"] *)
Definition not_sentinel (default : value) : bool :=
  match default with
  | VNone => false
  | VStr s => negb (String.eqb s "none")
  | _ => true
  end.

(** [o.k[name] = e]: the dictionary held by attribute [k] is updated in
    place. *)
Definition setitem_in (o : obj) (k name : string) (e : entry) : res obj :=
  let* d := get_or_raise o k in
  let* d' := attr_setitem d name e in
  Ok (dict_set k d' o).

(** [BaseConfig.add_argument] *)
Definition add_argument (o : obj) (name : string) (type : ptype)
    (default : value) (help : string)
    (validation : option (value -> bool)) : res obj :=
  if negb (isinstance type default) && not_sentinel default
  then Err DeclTypeError
  else
    let rejected :=
      match validation with
      | Some p => not_sentinel default && negb (p default)
      | None => false
      end in
    if rejected then Err DeclValueError
    else
      let* o1 := setattr o name default in
      let* o2 := setitem_in o1 "arg_dict" name (EDesc type validation) in
      setitem_in o2 "help_dict" name (EVal (VStr help)).

(** [BaseConfig.to_dict] *)
Fixpoint collect (o : obj) (ks : list string) (acc : list (string * attr))
  : res (list (string * attr)) :=
  match ks with
  | [] => Ok acc
  | k :: ks' =>
      let* v := get_or_raise o k in
      collect o ks' (dict_set k v acc)
  end.

Definition to_dict (o : obj) : res (list (string * attr)) :=
  let* ad := get_or_raise o "arg_dict" in
  let* ks := attr_keys ad in
  collect o ks [].

(** A subconfig class: the [add_argument] calls of its [__init__],
    after [super().__init__()]. *)
Record decl : Type := {
  d_name : string;
  d_type : ptype;
  d_default : value;
  d_help : string;
  d_validation : option (value -> bool)
}.

Definition cls : Type := list decl.

Fixpoint declare_all (o : obj) (ds : cls) : res obj :=
  match ds with
  | [] => Ok o
  | d :: ds' =>
      let* o' := add_argument o (d_name d) (d_type d) (d_default d)
                   (d_help d) (d_validation d) in
      declare_all o' ds'
  end.

(** Calling the class. *)
Definition instantiate (c : cls) : res obj :=
  let* o := init in
  declare_all o c.

(** The three tests of the gate, as [__setattr__] evaluates them:
    [self.locked], [self.frozen], [key in self.reserved_attributes]. *)
Definition is_locked (o : obj) : bool :=
  match getattr o "locked" with
  | Some a => attr_truthy a
  | None => false
  end.

Definition is_frozen (o : obj) : bool :=
  match getattr o "frozen" with
  | Some a => attr_truthy a
  | None => false
  end.

Definition is_reserved (o : obj) (key : string) : res bool :=
  let* reserved := get_or_raise o "reserved_attributes" in
  attr_contains reserved key.

(** The names [object.__setattr__] does not store in the instance
    dictionary. *)
Definition runtime_slot (key : string) : bool :=
  String.eqb key "__class__" || String.eqb key "__weakref__"
  || String.eqb key "__dict__".

(** [o.arg_dict[name]] and [o.help_dict[name]], read from outside. *)
Definition descriptor (o : obj) (name : string) : option entry :=
  match getattr o "arg_dict" with
  | Some (AArgs d) => dict_get name d
  | Some (AVal (VDict d)) => option_map EVal (dict_get name d)
  | _ => None
  end.

Definition help_text (o : obj) (name : string) : option value :=
  match getattr o "help_dict" with
  | Some (AVal (VDict d)) => dict_get name d
  | _ => None
  end.

(** An instance whose two dictionaries are dictionaries and whose
    reserved list is the one of the class: what [__init__] builds and
    [add_argument] keeps for names that are not reserved. *)
Definition regular (o : obj) : Prop :=
  ((exists d, getattr o "arg_dict" = Some (AArgs d))
   \/ (exists d, getattr o "arg_dict" = Some (AVal (VDict d)))) /\
  (exists d, getattr o "help_dict" = Some (AVal (VDict d))) /\
  dict_get "reserved_attributes" o = None.

(** *** Vocabulary of the declaration properties *)

(** The exceptions of the declaration checks come from nowhere else. *)
Definition not_decl (e : exn) : Prop :=
  e <> DeclTypeError /\ e <> DeclValueError.

(** Whether the validation rejects a default that is not the sentinel. *)
Definition rejected (default : value) (validation : option (value -> bool))
  : bool :=
  match validation with
  | Some p => not_sentinel default && negb (p default)
  | None => false
  end.

(** The part of [add_argument] after the two checks. *)
Definition store (o : obj) (name : string) (type : ptype) (default : value)
    (help : string) (validation : option (value -> bool)) : res obj :=
  let* o1 := setattr o name default in
  let* o2 := setitem_in o1 "arg_dict" name (EDesc type validation) in
  setitem_in o2 "help_dict" name (EVal (VStr help)).

End BaseConfig.

(** ** [MainBase]: the root configuration *)

(** What an attribute of the root holds: a subconfig class (before the
    defaults are realised), a subconfig instance, a plain value, the list
    of subconfig names, or a method. *)
Inductive rattr : Type :=
| RClass (c : BaseConfig.cls)
| RObj (o : obj)
| RVal (v : value)
| RNames (l : list string)
| ROpaque.

Definition root : Type := list (string * rattr).

(** The nested export: subconfig name -> (argument name -> value). *)
Definition export : Type := list (string * list (string * attr)).

(** What the run leaves behind: printed lines and the persisted file. *)
Inductive event : Type :=
| Print (line : string)
| SaveJson (path : string) (content : export).

(** A computation that prints: the events up to the result or the
    exception. *)
Definition io (A : Type) : Type := list event * res A.

Definition io_bind {A B : Type} (m : io A) (f : A -> io B) : io B :=
  match m with
  | (ev, Ok a) => let (ev', b) := f a in ((ev ++ ev')%list, b)
  | (ev, Err e) => (ev, Err e)
  end.

Definition lift {A : Type} (m : res A) : io A := ([], m).

Definition print (line : string) : io unit := ([Print line], Ok tt).

Notation "'do*' x ':=' m 'in' k" := (io_bind m (fun x => k))
  (at level 10, x pattern, m at level 100, k at level 200).

Module MainBase.

(** [MainBase.reserved_attributes] *)
Definition reserved_attributes : list string :=
  ["reserved_attributes"; "build"; "to_dict"; "prog"; "description"].

(** The names defined in the body of [class MainBase]; the private ones
    are mangled as Python does it. *)
Definition class_names : list string :=
  ["_MainBase__frozen"; "_MainBase__dont_save"; "_MainBase__eval";
   "reserved_attributes"; "build";
   "_MainBase__load_checkpoint_config_if_indicated"; "to_dict";
   "_MainBase__create_save_dir"; "_MainBase__save_configs";
   "_MainBase__set_save_dir_experiment_name"; "_MainBase__display_help";
   "_MainBase__set_defaults"; "_MainBase__override_defaults";
   "_MainBase__load_subconfigs_from_filepath";
   "_MainBase__determine_config_path"; "_MainBase__load_json";
   "_MainBase__assure_no_additional_keys";
   "_MainBase__override_individual_subconfig";
   "_MainBase__override_with_filebased_args";
   "_MainBase__override_with_cmdline_args"; "_MainBase__validate_arg";
   "_MainBase__freeze_configs"].

Definition class_attr (k : string) : option rattr :=
  if String.eqb k "_MainBase__frozen" then Some (RVal (VBool false))
  else if String.eqb k "_MainBase__dont_save" then Some (RVal (VBool false))
  else if String.eqb k "_MainBase__eval" then Some (RVal (VBool false))
  else if String.eqb k "reserved_attributes"
  then Some (RNames reserved_attributes)
  else if Str.mem k class_names then Some ROpaque
  else if Str.mem k object_names then Some ROpaque
  else None.

Definition getattr (r : root) (k : string) : option rattr :=
  match dict_get k r with
  | Some a => Some a
  | None => class_attr k
  end.

Definition get_or_raise (r : root) (k : string) : res rattr :=
  match getattr r k with
  | Some a => Ok a
  | None => Err PyAttributeError
  end.

Definition rattr_truthy (a : rattr) : bool :=
  match a with
  | RVal v => truthy v
  | RNames l => match l with [] => false | _ => true end
  | _ => true
  end.

(** [key in a] *)
Definition rattr_contains (a : rattr) (key : string) : res bool :=
  match a with
  | RNames l => Ok (Str.mem key l)
  | RVal v => attr_contains (AVal v) key
  | _ => Err PyTypeError
  end.

(** [dir(self)] *)
Definition dir_root (r : root) : list string :=
  Str.sort (Str.dedup (dict_keys r ++ class_names ++ object_names)%list).

Definition object_setattr (r : root) (key : string) (v : rattr) : res root :=
  if String.eqb key "__class__" then Err PyTypeError
  else if String.eqb key "__weakref__" then Err PyAttributeError
  else if String.eqb key "__dict__" then
    match v with
    | RVal (VDict d) => Ok (map (fun kv => (fst kv, RVal (snd kv))) d)
    | _ => Err PyTypeError
    end
  else Ok (dict_set key v r).

(** [MainBase.__setattr__]: the gate reads the private [__frozen]. *)
Definition setattr (r : root) (key : string) (v : rattr) : res root :=
  let* fz := get_or_raise r "_MainBase__frozen" in
  if rattr_truthy fz then Err RootFrozen
  else object_setattr r key v.

(** [MainBase.__init__] *)
Definition init (prog description : string) : res root :=
  let* r := setattr [] "prog" (RVal (VStr prog)) in
  setattr r "description" (RVal (VStr description)).

(** The subconfig instance behind an attribute; anything else has none
    of the attributes of a [BaseConfig]. *)
Definition as_obj (a : rattr) : res obj :=
  match a with
  | RObj o => Ok o
  | _ => Err PyAttributeError
  end.

(** An instance reached through attribute [cfg] was mutated in place. *)
Definition update_obj (r : root) (cfg : string) (o : obj) : root :=
  dict_set cfg (RObj o) r.

(** [self.__subconfigs] *)
Definition subconfigs (r : root) : res (list string) :=
  let* a := get_or_raise r "_MainBase__subconfigs" in
  match a with
  | RNames l => Ok l
  | _ => Err PyTypeError
  end.

(** [self.<cfg>.<arg>], read from outside; [None] is [AttributeError]. *)
Definition resolved (r : root) (cfg arg : string) : option attr :=
  match getattr r cfg with
  | Some (RObj o) => BaseConfig.getattr o arg
  | _ => None
  end.

(** *** Step 1: [__set_save_dir_experiment_name] *)

Fixpoint scan_tokens (cmd_args : list string) (save_dir experiment_name : string)
    (new_args : list string) : list string * string * string :=
  match cmd_args with
  | [] => (new_args, save_dir, experiment_name)
  | arg :: rest =>
      if Str.contains "save_dir" arg
      then scan_tokens rest arg experiment_name new_args
      else if Str.contains "experiment_name" arg
      then scan_tokens rest save_dir arg new_args
      else scan_tokens rest save_dir experiment_name (new_args ++ [arg])%list
  end.

Definition set_save_dir_experiment_name (today : string)
    (cmd_args : list string) : list string * string * string :=
  match scan_tokens cmd_args "results" today [] with
  | (new_args, save_dir, experiment_name) =>
      (new_args, Str.after_last "=" save_dir,
       Str.after_last "=" experiment_name)
  end.

(** *** Step 2: [__set_defaults] *)

(** The call [val()]: a subconfig class gives an instance; an instance, a
    plain value and a list are not callable.  [ROpaque] stands for the
    methods of [MainBase] and of [object], whose names are reserved or
    hold a double underscore, so that [__set_defaults] does not call them;
    a callable of another kind that a subclass stores on the root is
    outside the model. *)
Definition call (a : rattr) : res obj :=
  match a with
  | RClass c => BaseConfig.instantiate c
  | _ => Err PyTypeError
  end.

Fixpoint filter_names (reserved : rattr) (attrs : list string)
  : res (list string) :=
  match attrs with
  | [] => Ok []
  | a :: rest =>
      if Str.contains "__" a then filter_names reserved rest
      else
        let* r := rattr_contains reserved a in
        let* rest' := filter_names reserved rest in
        Ok (if r then rest' else a :: rest')
  end.

Fixpoint realize (r : root) (cfgs : list string) : res root :=
  match cfgs with
  | [] => Ok r
  | cfg :: rest =>
      let* val := get_or_raise r cfg in
      let* o := call val in
      let* r1 := setattr r cfg (RObj o) in
      let* val := get_or_raise r1 cfg in
      let* o1 := as_obj val in
      let* o2 := BaseConfig.setattr o1 "locked" (VBool true) in
      realize (update_obj r1 cfg o2) rest
  end.

Definition set_defaults (r : root) : res root :=
  let* reserved := get_or_raise r "reserved_attributes" in
  let* names := filter_names reserved (dir_root r) in
  let* r1 := setattr r "_MainBase__subconfigs" (RNames names) in
  let* cfgs := subconfigs r1 in
  realize r1 cfgs.

(** *** Step 3: [__display_help] *)

(** [a[k]] *)
Definition attr_getitem (a : attr) (k : string) : res entry :=
  match a with
  | AArgs d =>
      match dict_get k d with Some e => Ok e | None => Err PyKeyError end
  | AVal (VDict d) =>
      match dict_get k d with Some v => Ok (EVal v) | None => Err PyKeyError end
  | _ => Err PyTypeError
  end.

(** [v[k]] for a text key *)
Definition value_getitem (v : value) (k : string) : res value :=
  match v with
  | VDict d =>
      match dict_get k d with Some x => Ok x | None => Err PyKeyError end
  | _ => Err PyTypeError
  end.

(** [a.items()] *)
Definition attr_items (a : attr) : res (list (string * entry)) :=
  match a with
  | AVal (VDict d) => Ok (map (fun kv => (fst kv, EVal (snd kv))) d)
  | AArgs d => Ok d
  | _ => Err PyAttributeError
  end.

(** The text an f-string shows for an object that is not a plain value
    carries a memory address; a fixed text stands for it. *)
Definition opaque_text : string := "<object>".

Definition entry_str (e : entry) : string :=
  match e with
  | EVal v => py_str_of v
  | EDesc _ _ => opaque_text
  end.

Definition rattr_str (a : rattr) : string :=
  match a with
  | RVal v => py_str_of v
  | _ => opaque_text
  end.

(** [str(e["type"])] *)
Definition entry_type_str (e : entry) : res string :=
  match e with
  | EDesc t _ => Ok (trepr t)
  | EVal v => let* x := value_getitem v "type" in Ok (py_str_of x)
  end.

Definition space : string := " ".

(** One line of the argument listing; [print] joins its three arguments
    with a blank. *)
Definition arg_line (cfg k type v : string) : string :=
  let k := cfg ++ "." ++ k in
  ("arg: " ++ k) ++ " " ++
  (Str.repeat_str space (35 - Z.of_nat (String.length k)) ++ "type: " ++ type)
  ++ " " ++
  (Str.repeat_str space (20 - Z.of_nat (String.length type))
     ++ "description: " ++ v).

Fixpoint help_args (ad : attr) (cfg : string) (items : list (string * entry))
  : io unit :=
  match items with
  | [] => lift (Ok tt)
  | (k, v) :: rest =>
      do* e := lift (attr_getitem ad k) in
      do* type := lift (entry_type_str e) in
      do* _ := print (arg_line cfg k type (entry_str v)) in
      help_args ad cfg rest
  end.

Fixpoint help_subconfigs (r : root) (cfgs : list string) : io unit :=
  match cfgs with
  | [] => lift (Ok tt)
  | cfg :: rest =>
      do* val := lift (get_or_raise r cfg) in
      do* o := lift (as_obj val) in
      do* hd := lift (BaseConfig.get_or_raise o "help_dict") in
      do* items := lift (attr_items hd) in
      do* _ := match items with
               | [] => lift (Ok tt)
               | _ => do* ad := lift (BaseConfig.get_or_raise o "arg_dict") in
                      help_args ad cfg items
               end in
      help_subconfigs r rest
  end.

Definition usage (prog : string) : list event :=
  map Print
    ["Usage:  " ++ prog ++ "  [OPTIONS] [OVERRIDE ARGS]";
     "";
     "Provide options in the form: {option}={value}";
     "";
     "Options:";
     "option: config                  description: Path to a filebased config (will override defaults)";
     "option: save_dir                description: Parent directory for which to store experimental results";
     "option: experiment_name         description: The name of the experiment. Results will be saved in directory save_dir/experiment_name";
     "";
     "";
     "";
     "To override a value use form {arg}={val}. For example, 'model.model_type=transformer'";
     "Values provided in the command line will override defaults and file-based values";
     "";
     "Args:"].

(** The token list after [try: remove("--h") except: remove("--help")]. *)
Definition remove_help (cmd_args : list string) : res (list string) :=
  match Str.remove_first "--h" cmd_args with
  | Some l => Ok l
  | None =>
      match Str.remove_first "--help" cmd_args with
      | Some l => Ok l
      | None => Err PyValueError
      end
  end.

(** The printing part of [__display_help]. *)
Definition listing (r : root) : io unit :=
  do* prog := lift (get_or_raise r "prog") in
  do* _ := (usage (rattr_str prog), Ok tt) in
  do* cfgs := lift (subconfigs r) in
  help_subconfigs r cfgs.

Definition display_help (r : root) (cmd_args : list string)
  : io (list string) :=
  if Str.mem "--h" cmd_args || Str.mem "--help" cmd_args then
    do* cmd_args := lift (remove_help cmd_args) in
    do* _ := listing r in
    lift (Ok cmd_args)
  else lift (Ok cmd_args).

(** *** Vocabulary of the pipeline properties *)

(** A name [object.__setattr__] stores in the instance dictionary. *)
Definition storable (key : string) : bool :=
  negb (String.eqb key "__class__" || String.eqb key "__weakref__"
        || String.eqb key "__dict__").

Definition names_key : string := "_MainBase__subconfigs".

(** A step that mutates one subconfig instance in place. *)
Definition touches (r r' : root) : Prop :=
  r' = r \/
  exists cfg o o', getattr r cfg = Some (RObj o) /\ r' = update_obj r cfg o'.

(** A property of the root that in-place mutation of a subconfig keeps. *)
Definition stable (P : root -> Prop) : Prop :=
  forall r r', touches r r' -> P r -> P r'.

(** The token [subconfig.argument=value]. *)
Definition dotted (sc arg val : string) : string :=
  sc ++ "." ++ arg ++ "=" ++ val.

(** Names as the schema author writes them: no ["="], no ["."]. *)
Definition ident (s : string) : Prop :=
  Str.contains "=" s = false /\ Str.contains "." s = false.

(** The subconfig a token of the working list assigns into, as
    [__override_with_cmdline_args] reads the token. *)
Definition target (arg : string) : option string :=
  match Str.split_once "=" arg with
  | None => None
  | Some (name, _) =>
      if String.eqb name "config" then None
      else if negb (Str.contains "." name) then Some name
      else match Str.split "." name with
           | [subcfg_name; _] => Some subcfg_name
           | _ => None
           end
  end.

(** What [__validate_arg] does once the type has produced a value. *)
Definition check (validation : option (value -> bool)) (v : value)
  : res value :=
  match validation with
  | Some p => if p v then Ok v else Err ValidationFailed
  | None => Ok v
  end.

(** A token that step 1 leaves in the list. *)
Definition keep (arg : string) : bool :=
  negb (Str.contains "save_dir" arg)
  && negb (Str.contains "experiment_name" arg).

(** The tokens step 1 retains as directory and as experiment name. *)
Fixpoint picked (l : list string) (sd en : string) : string * string :=
  match l with
  | [] => (sd, en)
  | arg :: rest =>
      if Str.contains "save_dir" arg then picked rest arg en
      else if Str.contains "experiment_name" arg then picked rest sd arg
      else picked rest sd en
  end.

Section Pipeline.

(** The file system seen through [open] and [json.load]: the decoded
    content of the file at a path, [None] where [open] raises [OSError]
    (no such file, no permission).  Every file that opens is taken to
    hold JSON: the [json.JSONDecodeError] of a malformed file is outside
    the model. *)
Variable fs : string -> option value.

(** [dir()] of an object that is not a subconfig instance. *)
Variable foreign_dir : rattr -> list string.

(** [__load_json] *)
Definition load_json (config_path : string) : res value :=
  match fs config_path with
  | Some v => Ok v
  | None => Err PyOSError
  end.

(** The body of the loop of [__load_subconfigs_from_filepath]: the bare
    [except] keeps the value whenever the test or the load raises. *)
Definition resolve_path (v : value) : value :=
  match v with
  | VStr s =>
      if Str.contains ".json" (Str.last_n 5 s)
      then match load_json s with
           | Ok j => j
           | Err _ => v
           end
      else v
  | _ => v
  end.

(** [__load_subconfigs_from_filepath] *)
Definition load_subconfigs_from_filepath (config : value)
  : res (list (string * value)) :=
  match config with
  | VDict d =>
      Ok (fold_left (fun new_config kv =>
                       dict_set (fst kv) (resolve_path (snd kv)) new_config)
            d [])
  | _ => Err PyAttributeError
  end.

(** [__determine_config_path] *)
Definition determine_config_path (cmd_args : list string) : string :=
  fold_left (fun config_path arg =>
               if Str.contains "config=" arg
               then Str.after_last_sub "config=" arg
               else config_path)
    cmd_args "".

(** [__assure_no_additional_keys] *)
Fixpoint assure_keys (subs : rattr) (keys : list string) : res unit :=
  match keys with
  | [] => Ok tt
  | key :: rest =>
      let* known := rattr_contains subs key in
      if known then assure_keys subs rest else Err UnknownSubconfig
  end.

Definition assure_no_additional_keys (r : root)
    (config : list (string * value)) : res unit :=
  match dict_keys config with
  | [] => Ok tt
  | keys =>
      let* subs := get_or_raise r "_MainBase__subconfigs" in
      assure_keys subs keys
  end.

(** [__validate_arg] *)
Definition validate_arg (subcfg : rattr) (arg_name : string) (val : value)
  : res value :=
  let* o := as_obj subcfg in
  let* ad := BaseConfig.get_or_raise o "arg_dict" in
  let* e := attr_getitem ad arg_name in
  match e with
  | EDesc desired_type validation =>
      match construct desired_type val with
      | None => Err TypeCoercion
      | Some val' =>
          match validation with
          | Some p => if p val' then Ok val' else Err ValidationFailed
          | None => Ok val'
          end
      end
  | EVal v =>
      (* a plain value is not callable, and reading its [__name__] inside
         the handler raises *)
      let* _ := value_getitem v "type" in Err PyAttributeError
  end.

(** [dir(subcfg)] *)
Definition dir_of (subcfg : rattr) : list string :=
  match subcfg with
  | RObj o => BaseConfig.dir_obj o
  | _ => foreign_dir subcfg
  end.

(** The body of the loop of [__override_individual_subconfig]. *)
Definition override_one (r : root) (subcfg_name : string)
    (assure_in_dir : bool) (arg_name : string) (val : value) : res root :=
  let* subcfg := get_or_raise r subcfg_name in
  if assure_in_dir then
    if negb (Str.mem arg_name (dir_of subcfg)) then Err UnknownArgument
    else
      let* val := validate_arg subcfg arg_name val in
      let* o := as_obj subcfg in
      let* o' := BaseConfig.setattr o arg_name val in
      Ok (update_obj r subcfg_name o')
  else
    let* o := as_obj subcfg in
    let* o1 := BaseConfig.setitem_in o "arg_dict" arg_name (EVal VNone) in
    let* o' := BaseConfig.setattr o1 arg_name val in
    Ok (update_obj r subcfg_name o').

Fixpoint override_items (r : root) (subcfg_name : string)
    (assure_in_dir : bool) (items : list (string * value)) : res root :=
  match items with
  | [] => Ok r
  | (arg_name, val) :: rest =>
      let* r' := override_one r subcfg_name assure_in_dir arg_name val in
      override_items r' subcfg_name assure_in_dir rest
  end.

(** [__override_individual_subconfig] *)
Definition override_individual_subconfig (r : root) (subcfg_name : string)
    (subconfig : value) (assure_in_dir : bool) : res root :=
  match subconfig with
  | VDict items => override_items r subcfg_name assure_in_dir items
  | _ => Err PyAttributeError
  end.

(** [__override_with_filebased_args] *)
Fixpoint override_with_filebased_args (r : root)
    (config : list (string * value)) (assure_in_dir : bool) : res root :=
  match config with
  | [] => Ok r
  | (subcfg_name, subconfig) :: rest =>
      let* r' := override_individual_subconfig r subcfg_name subconfig
                   assure_in_dir in
      override_with_filebased_args r' rest assure_in_dir
  end.

(** The body of the loop of [__override_with_cmdline_args]. *)
Definition override_token (r : root) (arg : string) : res root :=
  match Str.split_once "=" arg with
  | None => Err PyValueError
  | Some (name, val) =>
      if String.eqb name "config" then Ok r
      else if negb (Str.contains "." name) then
        let* subs := get_or_raise r "_MainBase__subconfigs" in
        let* known := rattr_contains subs name in
        if known then
          let* subconfig := load_json val in
          override_individual_subconfig r name subconfig true
        else Err InvalidArgumentName
      else
        match Str.split "." name with
        | [subcfg_name; arg_name] =>
            let* subcfg := get_or_raise r subcfg_name in
            if negb (Str.mem arg_name (dir_of subcfg)) then Err UnknownArgument
            else
              let* val := validate_arg subcfg arg_name (VStr val) in
              let* o := as_obj subcfg in
              let* o' := BaseConfig.setattr o arg_name val in
              Ok (update_obj r subcfg_name o')
        | _ => Err PyValueError
        end
  end.

(** [__override_with_cmdline_args] *)
Fixpoint override_with_cmdline_args (r : root) (cmd_args : list string)
  : res root :=
  match cmd_args with
  | [] => Ok r
  | arg :: rest =>
      let* r' := override_token r arg in
      override_with_cmdline_args r' rest
  end.

Definition no_file_message : string :=
  "No filebased config was defined. Only code-based defaults will be used instead.".

(** Step 4 and the command-line override: [__override_defaults] *)
Definition override_defaults (r : root) (cmd_args : list string) : io root :=
  let config_path := determine_config_path cmd_args in
  do* r1 :=
    (if String.eqb config_path "" then
       do* _ := print no_file_message in lift (Ok r)
     else
       lift (let* config := load_json config_path in
             let* config := load_subconfigs_from_filepath config in
             let* _ := assure_no_additional_keys r config in
             override_with_filebased_args r config true)) in
  lift (override_with_cmdline_args r1 cmd_args).

(** *** Checkpoint-config indirection *)

(** [setattr(self, k, BaseConfig()); self.__subconfigs.append(k)] for
    every top-level key. *)
Fixpoint attach_subconfigs (r : root) (keys : list string) : res root :=
  match keys with
  | [] => Ok r
  | k :: rest =>
      let* o := BaseConfig.init in
      let* r1 := setattr r k (RObj o) in
      let* subs := get_or_raise r1 "_MainBase__subconfigs" in
      match subs with
      | RNames l =>
          attach_subconfigs
            (dict_set "_MainBase__subconfigs" (RNames (l ++ [k])%list) r1) rest
      | _ => Err PyAttributeError
      end
  end.

(** The path of the persisted configuration next to a checkpoint. *)
Definition checkpoint_config_path (checkpoint : string) : string :=
  Str.path_join (Str.before_last "/" checkpoint) "config.json".

(** The test that guards the indirection. *)
Definition indicated (subs : list string) : bool :=
  Nat.eqb (List.length subs) 1 &&
  match subs with
  | s :: _ => String.eqb s "evaluation"
  | [] => false
  end.

(** [__load_checkpoint_config_if_indicated] *)
Definition load_checkpoint_config_if_indicated (r : root) : res root :=
  let* subs := subconfigs r in
  if indicated subs then
    let* subcfg := get_or_raise r (hd "" subs) in
    let* o := as_obj subcfg in
    let* config_path := BaseConfig.get_or_raise o "checkpoint" in
    match config_path with
    | AVal (VStr checkpoint) =>
        let* config := load_json (checkpoint_config_path checkpoint) in
        let* config := load_subconfigs_from_filepath config in
        let* r1 := attach_subconfigs r (dict_keys config) in
        let* _ := assure_no_additional_keys r1 config in
        let* r2 := override_with_filebased_args r1 config false in
        setattr r2 "_MainBase__eval" (RVal (VBool true))
    | _ => Err PyAttributeError
    end
  else Ok r.

(** *** Export and freeze *)

Fixpoint export_args (o : obj) (ks : list string) (acc : list (string * attr))
  : res (list (string * attr)) :=
  match ks with
  | [] => Ok acc
  | k :: rest =>
      let* arg_val := BaseConfig.get_or_raise o k in
      export_args o rest (dict_set k arg_val acc)
  end.

Fixpoint export_subconfigs (r : root) (cfgs : list string) (acc : export)
  : res export :=
  match cfgs with
  | [] => Ok acc
  | cfg :: rest =>
      let* val := get_or_raise r cfg in
      let* o := as_obj val in
      let* hd := BaseConfig.get_or_raise o "help_dict" in
      let* ks := attr_keys hd in
      let* d := export_args o ks [] in
      export_subconfigs r rest (dict_set cfg d acc)
  end.

(** [MainBase.to_dict] *)
Definition to_dict (r : root) : res export :=
  let* cfgs := subconfigs r in
  export_subconfigs r cfgs [].

(** [__freeze_configs] *)
Fixpoint freeze_each (r : root) (cfgs : list string) : res root :=
  match cfgs with
  | [] => Ok r
  | cfg :: rest =>
      let* val := get_or_raise r cfg in
      let* o := as_obj val in
      let* o' := BaseConfig.setattr o "frozen" (VBool true) in
      freeze_each (update_obj r cfg o') rest
  end.

Definition freeze_configs (r : root) : res root :=
  let* cfgs := subconfigs r in
  freeze_each r cfgs.

(** *** Persistence *)

(** The date of the run, as [datetime.today().strftime] prints it. *)
Variable today : string.

(** [SessionSaver.configure_save_dir_and_run_id]: the run directory it
    creates for a base directory and an experiment name. *)
Variable allocate : string -> string -> string.

(** What [json.dump] accepts. *)
Definition serialisable (a : attr) : bool :=
  match a with
  | AVal _ => true
  | AArgs d => forallb (fun kv => match snd kv with
                                  | EVal _ => true
                                  | EDesc _ _ => false
                                  end) d
  | AOpaque => false
  end.

(** [__save_configs] *)
Definition save_configs (r : root) (save_dir : string) : io unit :=
  do* config_to_save := lift (to_dict r) in
  if forallb (fun c => forallb (fun kv => serialisable (snd kv)) (snd c))
       config_to_save
  then ([SaveJson (Str.path_join save_dir "config.json") config_to_save],
        Ok tt)
  else lift (Err PyTypeError).

(** *** [build] *)

Definition build (r : root) (argv : list string) (dont_save : bool)
  : io root :=
  do* r := lift (setattr r "_MainBase__dont_save" (RVal (VBool dont_save))) in
  match set_save_dir_experiment_name today argv with
  | (cmd_args, save_dir, experiment_name) =>
      do* r := lift (set_defaults r) in
      do* cmd_args := display_help r cmd_args in
      do* r := override_defaults r cmd_args in
      do* r := lift (load_checkpoint_config_if_indicated r) in
      do* eval := lift (get_or_raise r "_MainBase__eval") in
      let save_dir :=
        if rattr_truthy eval && String.eqb save_dir "results"
        then "eval_results" else save_dir in
      do* r := lift (freeze_configs r) in
      do* flag := lift (get_or_raise r "_MainBase__dont_save") in
      do* r :=
        (if negb (rattr_truthy flag) then
           let save_dir := allocate save_dir experiment_name in
           do* _ := save_configs r save_dir in
           lift (setattr r "save_dir" (RVal (VStr save_dir)))
         else lift (setattr r "save_dir" (RVal VNone))) in
      lift (setattr r "frozen" (RVal (VBool true)))
  end.

(** *** The stages of [build], named *)

(** The tokens left after step 1. *)
Definition remaining (argv : list string) : list string :=
  fst (fst (set_save_dir_experiment_name today argv)).

(** The file-based part of [__override_defaults]. *)
Definition file_stage (r : root) (cmd_args : list string) : res root :=
  let config_path := determine_config_path cmd_args in
  if String.eqb config_path "" then Ok r
  else
    let* config := load_json config_path in
    let* config := load_subconfigs_from_filepath config in
    let* _ := assure_no_additional_keys r config in
    override_with_filebased_args r config true.

(** [build] from the overrides on. *)
Definition finish (r : root) (cmd_args : list string)
    (save_dir experiment_name : string) : io root :=
  do* r := override_defaults r cmd_args in
  do* r := lift (load_checkpoint_config_if_indicated r) in
  do* eval := lift (get_or_raise r "_MainBase__eval") in
  let save_dir :=
    if rattr_truthy eval && String.eqb save_dir "results"
    then "eval_results" else save_dir in
  do* r := lift (freeze_configs r) in
  do* flag := lift (get_or_raise r "_MainBase__dont_save") in
  do* r :=
    (if negb (rattr_truthy flag) then
       let save_dir := allocate save_dir experiment_name in
       do* _ := save_configs r save_dir in
       lift (setattr r "save_dir" (RVal (VStr save_dir)))
     else lift (setattr r "save_dir" (RVal VNone))) in
  lift (setattr r "frozen" (RVal (VBool true))).

End Pipeline.

End MainBase.

(** ** [SessionSaver]: the directory of a run

    [quickconfig/session_saver.py].  A character of a name is a code
    point below 256.  The operating system is seen through the three
    calls the function makes: [os.path.exists], [os.makedirs] and
    [os.walk]; the state of the file system is threaded through them.
    The pause [time.sleep(random.random())] reads and writes nothing. *)

Module SessionSaver.

(** [os.path.join(a, b)] on a POSIX system. *)
Definition join (a b : string) : string :=
  if String.prefix "/" b then b
  else match a with
       | EmptyString => b
       | _ => if String.eqb (Str.last_n 1 a) "/" then a ++ b
              else a ++ "/" ++ b
       end.

(** [d.split("/")[-1]] *)
Definition leaf (d : string) : string :=
  List.last (Str.split "/" d) EmptyString.

Definition is_digit (c : ascii) : bool :=
  let n := nat_of_ascii c in Nat.leb 48 n && Nat.leb n 57.

(** The characters with a numeric value: the ten digits, the
    superscripts one, two and three, and the three vulgar fractions. *)
Definition numeric_char (c : ascii) : bool :=
  let n := nat_of_ascii c in
  is_digit c || Nat.eqb n 178 || Nat.eqb n 179 || Nat.eqb n 185
  || Nat.eqb n 188 || Nat.eqb n 189 || Nat.eqb n 190.

(** [s.isnumeric()] *)
Definition isnumeric (s : string) : bool :=
  match s with
  | EmptyString => false
  | _ => forallb numeric_char (list_ascii_of_string s)
  end.

(** [sys.get_int_max_str_digits()], the default of CPython 3.11. *)
Definition int_max_str_digits : nat := 4300.

(** The value of a text of decimal digits. *)
Definition digits_value (s : string) : Z :=
  fold_left (fun acc c => (10 * acc + (Z.of_nat (nat_of_ascii c) - 48))%Z)
    (list_ascii_of_string s) 0%Z.

(** [int(s)] for a text that [isnumeric()] accepts: a superscript or a
    fraction is no decimal digit, and a text longer than the limit is
    refused. *)
Definition int_of_numeric (s : string) : res Z :=
  if forallb is_digit (list_ascii_of_string s)
     && Nat.leb (String.length s) int_max_str_digits
  then Ok (digits_value s)
  else Err PyValueError.

(** [str(n)]; the digits of the number are counted against the limit. *)
Definition str_int (n : Z) : res string :=
  if Nat.leb (String.length (Z_to_string (Z.abs n))) int_max_str_digits
  then Ok (Z_to_string n)
  else Err PyValueError.

(** [[int(d.split("/")[-1]) for d in dirs if d.split("/")[-1].isnumeric()]] *)
Fixpoint run_ids (dirs : list string) : res (list Z) :=
  match dirs with
  | [] => Ok []
  | d :: rest =>
      if isnumeric (leaf d) then
        let* n := int_of_numeric (leaf d) in
        let* ns := run_ids rest in
        Ok (n :: ns)
      else run_ids rest
  end.

(** [max(l)] *)
Definition py_max (l : list Z) : res Z :=
  match l with
  | [] => Err PyValueError
  | x :: l' => Ok (fold_left Z.max l' x)
  end.

Definition stars : string := "***********************************".

Section World.

(** The state of the file system. *)
Variable world : Type.

(** [os.path.exists(p)] *)
Variable path_exists : world -> string -> bool.

(** [os.makedirs(p)]: the file system with the directory, or [OSError]. *)
Variable makedirs : world -> string -> res world.

(** [[x[0] for x in os.walk(p)]]: the directories found from [p] down,
    [p] itself first. *)
Variable walk : world -> string -> list string.

(** [SessionSaver.configure_save_dir_and_run_id] *)
Definition configure_save_dir_and_run_id (w : world)
    (model_save_dir experiment_name : string) : io (world * (string * Z)) :=
  let save_dir := join model_save_dir experiment_name in
  do* w := lift (if negb (path_exists w save_dir) then makedirs w save_dir
                 else Ok w) in
  let current_dirs := walk w save_dir in
  if Nat.eqb (List.length current_dirs) 1 then
    let save_dir := join save_dir "1" in
    do* w := lift (makedirs w save_dir) in
    do* _ := print "Experiment directory empty, starting run_id 1" in
    lift (Ok (w, (save_dir, 1%Z)))
  else
    let current_dirs := walk w save_dir in
    do* current_dirs := lift (run_ids current_dirs) in
    do* m := lift (py_max current_dirs) in
    let run_id := (m + 1)%Z in
    do* name := lift (str_int run_id) in
    let save_dir := join save_dir name in
    do* _ := print stars in
    do* _ := print ("Setting save path for run " ++ name) in
    do* _ := print stars in
    do* _ := print ("Save path = " ++ save_dir) in
    do* _ := print stars in
    do* w := lift (makedirs w save_dir) in
    lift (Ok (w, (save_dir, run_id))).

(** [MainBase.__create_save_dir] *)
Definition create_save_dir (w : world) (save_dir experiment_name : string)
  : io (world * string) :=
  do* x := configure_save_dir_and_run_id w save_dir experiment_name in
  match x with
  | (w, (save_dir, run_id)) => lift (Ok (w, save_dir))
  end.

End World.

End SessionSaver.

(** ** [build] on a file system *)

(** [MainBase.build] with [__create_save_dir] run by [SessionSaver] on the
    file system: what [SessionSaver] prints is printed by [build], and its
    exceptions are those of [build].  [MainBase.build] above is this
    function with the call of [__create_save_dir] replaced by the
    directory it returns. *)
Module Persist.

Section World.
Variable world : Type.
Variable path_exists : world -> string -> bool.
Variable makedirs : world -> string -> res world.
Variable walk : world -> string -> list string.
Variable fs : string -> option value.
Variable foreign_dir : rattr -> list string.
Variable today : string.

(** [MainBase.build] *)
Definition build (w : world) (r : root) (argv : list string)
    (dont_save : bool) : io (world * root) :=
  do* r := lift (MainBase.setattr r "_MainBase__dont_save"
                   (RVal (VBool dont_save))) in
  match MainBase.set_save_dir_experiment_name today argv with
  | (cmd_args, save_dir, experiment_name) =>
      do* r := lift (MainBase.set_defaults r) in
      do* cmd_args := MainBase.display_help r cmd_args in
      do* r := MainBase.override_defaults fs foreign_dir r cmd_args in
      do* r := lift (MainBase.load_checkpoint_config_if_indicated fs
                       foreign_dir r) in
      do* eval := lift (MainBase.get_or_raise r "_MainBase__eval") in
      let save_dir :=
        if MainBase.rattr_truthy eval && String.eqb save_dir "results"
        then "eval_results" else save_dir in
      do* r := lift (MainBase.freeze_configs r) in
      do* flag := lift (MainBase.get_or_raise r "_MainBase__dont_save") in
      do* wr :=
        (if negb (MainBase.rattr_truthy flag) then
           do* ws := SessionSaver.create_save_dir world path_exists makedirs
                       walk w save_dir experiment_name in
           match ws with
           | (w, save_dir) =>
               do* _ := MainBase.save_configs r save_dir in
               do* r := lift (MainBase.setattr r "save_dir"
                                (RVal (VStr save_dir))) in
               lift (Ok (w, r))
           end
         else
           do* r := lift (MainBase.setattr r "save_dir" (RVal VNone)) in
           lift (Ok (w, r))) in
      match wr with
      | (w, r) =>
          do* r := lift (MainBase.setattr r "frozen" (RVal (VBool true))) in
          lift (Ok (w, r))
      end
  end.

(** The directory [__create_save_dir] returns on a file system, for the
    directory and the experiment name it is called with. *)
Definition allocated (w : world) (save_dir experiment_name : string)
  : string :=
  match snd (SessionSaver.create_save_dir world path_exists makedirs walk w
               save_dir experiment_name) with
  | Ok (_, p) => p
  | Err _ => ""
  end.

End World.

End Persist.

(** ** Vocabulary of the properties of a whole [build] *)

Module Observe.
(** A log that holds printed lines only. *)
Definition prints (ev : list event) : Prop :=
  exists lines, ev = map Print lines.

(** An attribute of the root that is set and true. *)
Definition truthy_at (k : string) (r : root) : Prop :=
  exists a, MainBase.getattr r k = Some a /\ MainBase.rattr_truthy a = true.

(** The names whose assignment on a subconfig can change what argument
    [arg] resolves to, or its descriptor: the argument itself, the table
    [arg_dict] and the instance dictionary. *)
Definition unsafe (arg k : string) : bool :=
  String.eqb k arg || String.eqb k "arg_dict" || String.eqb k "__dict__".

(** What an assignment on a subconfig keeps when it leaves argument
    [arg] alone: the value of the argument and the table of descriptors. *)
Definition keeps (arg : string) (o o' : obj) : Prop :=
  BaseConfig.getattr o' arg = BaseConfig.getattr o arg /\
  BaseConfig.getattr o' "arg_dict" = BaseConfig.getattr o "arg_dict".

(** Whether a token of the working list can change argument [arg] of
    subconfig [sc], as [__override_with_cmdline_args] reads the token: it
    assigns one of these names on [sc], by itself
    ([sc.name=value]) or through the file it names ([sc=path]). *)
Definition rival (fs : string -> option value) (sc arg tok : string)
  : bool :=
  match Str.split_once "=" tok with
  | None => false
  | Some (name, val) =>
      if String.eqb name "config" then false
      else if negb (Str.contains "." name) then
        String.eqb name sc &&
        match fs val with
        | Some (VDict items) => existsb (unsafe arg) (dict_keys items)
        | _ => false
        end
      else match Str.split "." name with
           | [subcfg_name; arg_name] =>
               String.eqb subcfg_name sc && unsafe arg arg_name
           | _ => false
           end
  end.
End Observe.

(** ** The example schema of [example/] *)

Module Example.

(** [lambda x: x in ["retinanet", "patch"]] *)
Definition model_type_ok (x : value) : bool :=
  match x with
  | VStr s => String.eqb s "retinanet" || String.eqb s "patch"
  | _ => false
  end.

(** [ModelConfig.__init__] *)
Definition ModelConfig : BaseConfig.cls :=
  [ {| BaseConfig.d_name := "model_type";
       BaseConfig.d_type := py_str;
       BaseConfig.d_default := VStr "retinanet";
       BaseConfig.d_help := "The type of model to use";
       BaseConfig.d_validation := Some model_type_ok |} ].

Section Training.

(** [float] called on a raw value, and the test
    [lambda x: x >= 1e-9 and x <= 1e-2] on a float. *)
Variable float_of : value -> option value.
Variable lr_ok : value -> bool.

Definition py_float : ptype := {|
  tname := "float";
  trepr := "<class 'float'>";
  isinstance := fun v => match v with VFloat _ => true | _ => false end;
  construct := float_of
|}.

(** [TrainingConfig.__init__] *)
Definition TrainingConfig : BaseConfig.cls :=
  [ {| BaseConfig.d_name := "dataset_to_use";
       BaseConfig.d_type := py_str;
       BaseConfig.d_default := VStr "default";
       BaseConfig.d_help := "Which dataset do we want to use?";
       BaseConfig.d_validation := None |};
    {| BaseConfig.d_name := "use_mlflow_logger";
       BaseConfig.d_type := py_bool;
       BaseConfig.d_default := VBool false;
       BaseConfig.d_help := "Should we log with mlflow?";
       BaseConfig.d_validation := None |};
    {| BaseConfig.d_name := "lr";
       BaseConfig.d_type := py_float;
       BaseConfig.d_default := VFloat "0.001";
       BaseConfig.d_help := "This is a mock integer arg";
       BaseConfig.d_validation := Some lr_ok |} ].

(** [MainConfig.__init__] *)
Definition MainConfig : res root :=
  let* r := MainBase.init "train.sh" "Train a model" in
  let* r := MainBase.setattr r "model" (RClass ModelConfig) in
  MainBase.setattr r "training" (RClass TrainingConfig).

End Training.

(** A root with the single subconfig [evaluation], whose [checkpoint]
    names a file of an earlier run. *)
Definition EvaluationConfig : BaseConfig.cls :=
  [ {| BaseConfig.d_name := "checkpoint";
       BaseConfig.d_type := py_str;
       BaseConfig.d_default := VStr "results/run/1/model.pt";
       BaseConfig.d_help := "The checkpoint to evaluate";
       BaseConfig.d_validation := None |} ].

Definition EvalMain : res root :=
  let* r := MainBase.init "eval.sh" "Evaluate a model" in
  MainBase.setattr r "evaluation" (RClass EvaluationConfig).

(** A root with the subconfig [model] alone. *)
Definition ModelMain : res root :=
  let* r := MainBase.init "train.sh" "Train a model" in
  MainBase.setattr r "model" (RClass ModelConfig).

(** An instance of [ModelConfig] after [__set_defaults] has locked it. *)
Definition lock_model : res obj :=
  let* o := BaseConfig.instantiate ModelConfig in
  BaseConfig.setattr o "locked" (VBool true).

Definition locked_model : obj :=
  match lock_model with
  | Ok o => o
  | Err _ => []
  end.

(** An instance of [TrainingConfig] after [__set_defaults] has locked
    it, for a [float] that accepts no text. *)
Definition lock_training : res obj :=
  let* o := BaseConfig.instantiate
              (TrainingConfig (fun _ => None) (fun _ => true)) in
  BaseConfig.setattr o "locked" (VBool true).

Definition locked_training : obj :=
  match lock_training with
  | Ok o => o
  | Err _ => []
  end.

(** An empty file system, no foreign object, a date and an allocator. *)
Definition no_file (_ : string) : option value := None.
Definition no_dir (_ : rattr) : list string := [].
Definition a_day : string := "2024-01-31".
Definition run_dir (base name : string) : string := base ++ "/" ++ name ++ "/1".

Definition model_root : root :=
  match ModelMain with
  | Ok r => r
  | Err _ => []
  end.

(** The first two states of a [build] of that root. *)
Definition model_r0 : root :=
  match MainBase.setattr model_root "_MainBase__dont_save" (RVal (VBool true))
  with
  | Ok r => r
  | Err _ => []
  end.

Definition model_r1 : root :=
  match MainBase.set_defaults model_r0 with
  | Ok r => r
  | Err _ => []
  end.

(** The subconfig [model] once the defaults are realised. *)
Definition model_obj1 : obj :=
  match MainBase.getattr model_r1 "model" with
  | Some (RObj o) => o
  | _ => []
  end.

(** [MainConfig().build(dont_save=True)] with no token, for the root
    with the subconfig [model]. *)
Definition build_model : io root :=
  MainBase.build no_file no_dir a_day run_dir model_root [] true.

Definition built_model : root :=
  match snd build_model with
  | Ok r => r
  | Err _ => []
  end.

(** The configuration an earlier training run persisted. *)
Definition persisted : value :=
  VDict [("model", VDict [("model_type", VStr "patch")])].

(** A file system with that file next to the default checkpoint. *)
Definition ckpt_fs (p : string) : option value :=
  if String.eqb p "results/run/1/config.json" then Some persisted else None.

(** A file system with that file in the working directory. *)
Definition cwd_fs (p : string) : option value :=
  if String.eqb p "config.json" then Some persisted else None.

Definition eval_root : root :=
  match EvalMain with
  | Ok r => r
  | Err _ => []
  end.



(** An evaluation run with no token: the checkpoint config is merged. *)
Definition build_eval : io root :=
  MainBase.build ckpt_fs no_dir a_day run_dir eval_root [] true.

Definition built_eval : root :=
  match snd build_eval with
  | Ok r => r
  | Err _ => []
  end.

Definition built_eval_model : obj :=
  match MainBase.getattr built_eval "model" with
  | Some (RObj o) => o
  | _ => []
  end.

(** The root of [example/main_config.py], for a [float] that accepts no
    text and a learning-rate test that accepts the default. *)
Definition main_root : root :=
  match MainConfig (fun _ => None) (fun _ => true) with
  | Ok r => r
  | Err _ => []
  end.

Definition main_r0 : root :=
  match MainBase.setattr main_root "_MainBase__dont_save" (RVal (VBool true))
  with
  | Ok r => r
  | Err _ => []
  end.

Definition main_r1 : root :=
  match MainBase.set_defaults main_r0 with
  | Ok r => r
  | Err _ => []
  end.

(** A file-based config that disagrees with a default. *)
Definition file_fs (p : string) : option value :=
  if String.eqb p "f.json"
  then Some (VDict [("training",
                     VDict [("dataset_to_use", VStr "rayleigh_dataset")])])
  else None.

Definition main_argv : list string :=
  ["config=f.json"; "training.dataset_to_use=cli_dataset";
   "model.model_type=patch"; "save_dir=out"].

Definition build_main : io root :=
  MainBase.build file_fs no_dir a_day run_dir main_root main_argv true.

Definition built_main : root :=
  match snd build_main with
  | Ok r => r
  | Err _ => []
  end.

(** A subconfig right after [BaseConfig.__init__]. *)
Definition fresh : obj :=
  match BaseConfig.init with
  | Ok o => o
  | Err _ => []
  end.

(** A type whose call always raises, as [float] does on text without a
    number. *)
Definition py_never : ptype := {|
  tname := "never";
  trepr := "<class 'never'>";
  isinstance := fun _ => false;
  construct := fun _ => None
|}.

(** The root a [build] of [main_root] returns with the file-based config
    and no token for [training]. *)
Definition built_file : root :=
  match snd (MainBase.build file_fs no_dir a_day run_dir main_root
               ["config=f.json"; "model.model_type=patch"] true) with
  | Ok r => r
  | Err _ => []
  end.

(** The root a saved [build] of [model_root] returns. *)
Definition saved_model : root :=
  match snd (MainBase.build no_file no_dir a_day run_dir model_root
               ["save_dir=out"] false) with
  | Ok r => r
  | Err _ => []
  end.

(** The root a saved [build] of [eval_root] returns, with the persisted
    configuration next to the checkpoint. *)
Definition saved_eval : root :=
  match snd (MainBase.build ckpt_fs no_dir a_day run_dir eval_root []
               false) with
  | Ok r => r
  | Err _ => []
  end.

(** The file-based config, and a file that holds values for the
    subconfig [training] alone. *)
Definition two_files (p : string) : option value :=
  if String.eqb p "t.json"
  then Some (VDict [("use_mlflow_logger", VBool true)])
  else file_fs p.

(** A command line with tokens for [training] behind the token for
    [training.dataset_to_use]: one for another argument, one that names
    the file. *)
Definition later_argv : list string :=
  ["config=f.json"; "training.dataset_to_use=cli_dataset";
   "training.use_mlflow_logger=yes"; "training=t.json";
   "model.model_type=patch"; "save_dir=out"].

Definition build_later : io root :=
  MainBase.build two_files no_dir a_day run_dir main_root later_argv true.

Definition built_later : root :=
  match snd build_later with
  | Ok r => r
  | Err _ => []
  end.



(** A file system that holds directories only, given by the paths that
    exist, for the scenarios of [SessionSaver]. *)
Definition dirs : Type := list string.

Definition dir_exists (w : dirs) (p : string) : bool := Str.mem p w.

Definition make_dir (w : dirs) (p : string) : res dirs :=
  if Str.mem p w then Err PyOSError else Ok (w ++ [p])%list.

Definition walk_dirs (w : dirs) (p : string) : list string :=
  filter (fun d => String.eqb d p || String.prefix (p ++ "/") d) w.

Definition configure_run
  : dirs -> string -> string -> io (dirs * (string * Z)) :=
  SessionSaver.configure_save_dir_and_run_id dirs dir_exists make_dir
    walk_dirs.

(** [build] on such a file system. *)
Definition build_on
  : (string -> option value) -> dirs -> root -> list string -> bool ->
    io (dirs * root) :=
  fun fs => Persist.build dirs dir_exists make_dir walk_dirs fs no_dir a_day.

(** The root a saved [build] of [model_root] returns on an empty file
    system. *)
Definition saved_on_empty : root :=
  match snd (build_on no_file [] model_root ["save_dir=out"] false) with
  | Ok (_, r) => r
  | Err _ => []
  end.

(** An experiment with two numbered runs, one of them holding a
    numbered directory of its own. *)
Definition two_runs : dirs :=
  ["results/exp"; "results/exp/1"; "results/exp/2"; "results/exp/2/7"].

(** An experiment whose only subdirectory carries a name. *)
Definition named_only : dirs := ["results/exp"; "results/exp/logs"].

(** An experiment with a directory named by a superscript two. *)
Definition superscript : dirs :=
  ["results/exp"; "results/exp/1";
   "results/exp/" ++ String (ascii_of_nat 178) ""].

End Example.

(** * Properties *)

(** ** The gate of a subconfig *)

Module GateFacts.
Import BaseConfig.

Lemma class_attr_locked : class_attr "locked" = Some (AVal (VBool false)).
Proof. reflexivity. Qed.

Lemma class_attr_frozen : class_attr "frozen" = Some (AVal (VBool false)).
Proof. reflexivity. Qed.

(** [__setattr__] as a decision on the three tests. *)
Lemma setattr_gate (o : obj) (key : string) (v : value) :
  setattr o key v =
  match is_reserved o key with
  | Err e => Err e
  | Ok b =>
      if b && is_locked o && negb (String.eqb key "frozen")
      then Err ReservedName
      else if is_frozen o then Err FrozenConfig
      else if is_locked o && negb (hasattr o key) then Err LockedConfig
      else object_setattr o key v
  end.
Proof.
  unfold setattr, is_reserved, is_locked, is_frozen, get_or_raise, getattr.
  rewrite class_attr_locked, class_attr_frozen.
  destruct (match dict_get "reserved_attributes" o with
            | Some a => Some a
            | None => class_attr "reserved_attributes"
            end) as [a|]; cbv beta iota delta [bind]; [|reflexivity].
  destruct (attr_contains a key) as [b|e]; [|reflexivity].
  destruct (dict_get "locked" o), (dict_get "frozen" o); reflexivity.
Qed.

Lemma object_setattr_plain (o : obj) (key : string) (v : value) :
  runtime_slot key = false ->
  object_setattr o key v = Ok (dict_set key (AVal v) o).
Proof.
  unfold runtime_slot, object_setattr. intros H.
  apply orb_false_elim in H as [H H3].
  apply orb_false_elim in H as [H1 H2].
  now rewrite H1, H2, H3.
Qed.

End GateFacts.

(** ** Dictionaries *)

Module DictFacts.

Lemma get_set_same {V : Type} (k : string) (v : V) (d : list (string * V)) :
  dict_get k (dict_set k v d) = Some v.
Proof.
  induction d as [|[k' v'] d IH]; simpl.
  - now rewrite String.eqb_refl.
  - destruct (String.eqb k' k) eqn:E; simpl.
    + now rewrite String.eqb_refl.
    + now rewrite E.
Qed.

Lemma get_set_other {V : Type} (k k' : string) (v : V)
    (d : list (string * V)) :
  k <> k' -> dict_get k (dict_set k' v d) = dict_get k d.
Proof.
  intros Hk. induction d as [|[k0 v0] d IH]; simpl.
  - apply String.eqb_neq in Hk. rewrite String.eqb_sym in Hk. now rewrite Hk.
  - destruct (String.eqb k0 k') eqn:E; simpl.
    + apply String.eqb_eq in E; subst k0.
      apply String.eqb_neq in Hk. rewrite String.eqb_sym in Hk.
      now rewrite Hk.
    + destruct (String.eqb k0 k); [reflexivity | exact IH].
Qed.

Lemma mem_true (x : string) (l : list string) :
  Str.mem x l = true <-> In x l.
Proof.
  unfold Str.mem. rewrite existsb_exists. split.
  - intros [y [Hy E]]. apply String.eqb_eq in E. now subst.
  - intros H. exists x. split; [exact H | apply String.eqb_refl].
Qed.

Lemma mem_false (x : string) (l : list string) :
  Str.mem x l = false <-> ~ In x l.
Proof.
  rewrite <- mem_true. destruct (Str.mem x l); split; intros; congruence.
Qed.

Lemma keys_dict_set {V : Type} (k k' : string) (v : V)
    (d : list (string * V)) :
  In k (dict_keys (dict_set k' v d)) <-> k = k' \/ In k (dict_keys d).
Proof.
  induction d as [|[k0 v0] d IH]; simpl.
  - intuition congruence.
  - destruct (String.eqb k0 k') eqn:E; simpl.
    + apply String.eqb_eq in E. subst k0. intuition congruence.
    + unfold dict_keys in IH. rewrite IH. intuition congruence.
Qed.

End DictFacts.

(** ** Declaration *)

Module DeclFacts.
Import BaseConfig.

Lemma attr_contains_not_decl (a : attr) (k : string) (e : exn) :
  attr_contains a k = Err e -> not_decl e.
Proof.
  unfold attr_contains. destruct a as [[]| |];
    intros H; inversion H; split; discriminate.
Qed.

Lemma get_or_raise_not_decl (o : obj) (k : string) (e : exn) :
  get_or_raise o k = Err e -> not_decl e.
Proof.
  unfold get_or_raise. destruct (getattr o k);
    intros H; inversion H; split; discriminate.
Qed.

Lemma object_setattr_not_decl (o : obj) (k : string) (v : value) (e : exn) :
  object_setattr o k v = Err e -> not_decl e.
Proof.
  unfold object_setattr.
  destruct (String.eqb k "__class__"); [intros H; inversion H; split; discriminate|].
  destruct (String.eqb k "__weakref__"); [intros H; inversion H; split; discriminate|].
  destruct (String.eqb k "__dict__"); [|discriminate].
  destruct v; intros H; inversion H; split; discriminate.
Qed.

Lemma setattr_not_decl (o : obj) (k : string) (v : value) (e : exn) :
  setattr o k v = Err e -> not_decl e.
Proof.
  rewrite GateFacts.setattr_gate. unfold is_reserved.
  destruct (get_or_raise o "reserved_attributes") as [a|e0] eqn:Hg;
    cbv beta iota delta [bind].
  - destruct (attr_contains a k) as [b|e1] eqn:Hc.
    + destruct (_ && _ && _); [intros H; inversion H; split; discriminate|].
      destruct (is_frozen o); [intros H; inversion H; split; discriminate|].
      destruct (_ && _); [intros H; inversion H; split; discriminate|].
      apply object_setattr_not_decl.
    + intros H; inversion H; subst. eapply attr_contains_not_decl; eauto.
  - intros H; inversion H; subst. eapply get_or_raise_not_decl; eauto.
Qed.

Lemma attr_setitem_not_decl (a : attr) (k : string) (x : entry) (e : exn) :
  attr_setitem a k x = Err e -> not_decl e.
Proof.
  unfold attr_setitem. destruct a as [[]| |], x;
    intros H; inversion H; split; discriminate.
Qed.

Lemma setitem_in_not_decl (o : obj) (k n : string) (x : entry) (e : exn) :
  setitem_in o k n x = Err e -> not_decl e.
Proof.
  unfold setitem_in.
  destruct (get_or_raise o k) as [a|e0] eqn:Hg; cbv beta iota delta [bind].
  - destruct (attr_setitem a n x) as [a'|e1] eqn:Hs; [discriminate|].
    intros H; inversion H; subst. eapply attr_setitem_not_decl; eauto.
  - intros H; inversion H; subst. eapply get_or_raise_not_decl; eauto.
Qed.

Lemma store_not_decl o name type default help validation e :
  store o name type default help validation = Err e -> not_decl e.
Proof.
  unfold store.
  destruct (setattr o name default) as [o1|e1] eqn:H1;
    cbv beta iota delta [bind].
  - destruct (setitem_in o1 "arg_dict" name _) as [o2|e2] eqn:H2.
    + apply setitem_in_not_decl.
    + intros H; inversion H; subst. eapply setitem_in_not_decl; eauto.
  - intros H; inversion H; subst. eapply setattr_not_decl; eauto.
Qed.

Lemma add_argument_cases o name type default help validation :
  add_argument o name type default help validation =
  if negb (isinstance type default) && not_sentinel default
  then Err DeclTypeError
  else if rejected default validation then Err DeclValueError
  else store o name type default help validation.
Proof. reflexivity. Qed.

End DeclFacts.

Module StoreFacts.
Import BaseConfig.

Lemma getattr_set_same (o : obj) (k : string) (a : attr) :
  getattr (dict_set k a o) k = Some a.
Proof. unfold getattr. now rewrite DictFacts.get_set_same. Qed.

Lemma getattr_set_other (o : obj) (k k' : string) (a : attr) :
  k <> k' -> getattr (dict_set k' a o) k = getattr o k.
Proof. intros H. unfold getattr. now rewrite DictFacts.get_set_other. Qed.

Lemma contains_reserved (key : string) :
  attr_contains (AVal (VList (map VStr reserved_attributes))) key
  = Ok (Str.mem key reserved_attributes).
Proof.
  unfold attr_contains, Str.mem. f_equal.
  induction reserved_attributes as [|x l IH]; [reflexivity|].
  cbn [map existsb]. rewrite IH. now rewrite (String.eqb_sym x key).
Qed.

Lemma is_reserved_regular (o : obj) (key : string) :
  dict_get "reserved_attributes" o = None ->
  is_reserved o key = Ok (Str.mem key reserved_attributes).
Proof.
  intros H. unfold is_reserved, get_or_raise, getattr. rewrite H.
  change (class_attr "reserved_attributes")
    with (Some (AVal (VList (map VStr reserved_attributes)))).
  cbv beta iota delta [bind]. apply contains_reserved.
Qed.

Lemma not_reserved_neq (name k : string) :
  Str.mem name reserved_attributes = false ->
  In k reserved_attributes -> k <> name.
Proof.
  intros H Hin E. subst k. apply DictFacts.mem_false in H. contradiction.
Qed.

(** Declaring an argument under a free name on a regular instance in
    the declaration phase. *)
Lemma store_regular o name type default help validation :
  regular o -> is_locked o = false -> is_frozen o = false ->
  Str.mem name reserved_attributes = false ->
  runtime_slot name = false ->
  exists o',
    BaseConfig.store o name type default help validation = Ok o' /\
    getattr o' name = Some (AVal default) /\
    descriptor o' name = Some (EDesc type validation) /\
    help_text o' name = Some (VStr help) /\
    regular o' /\ is_locked o' = false /\ is_frozen o' = false /\
    (forall k, k <> name -> k <> "arg_dict" -> k <> "help_dict" ->
               getattr o' k = getattr o k).
Proof.
  intros [Had [[hd Hhd] Hres]] Hl Hf Hn Hs.
  assert (Na : "arg_dict" <> name)
    by (apply not_reserved_neq; [exact Hn | simpl; tauto]).
  assert (Nh : "help_dict" <> name)
    by (apply not_reserved_neq; [exact Hn | simpl; tauto]).
  assert (Nl : "locked" <> name)
    by (apply not_reserved_neq; [exact Hn | simpl; tauto]).
  assert (Nf : "frozen" <> name)
    by (apply not_reserved_neq; [exact Hn | simpl; tauto]).
  assert (Nr : "reserved_attributes" <> name)
    by (apply not_reserved_neq; [exact Hn | simpl; tauto]).
  assert (Hset : setattr o name default = Ok (dict_set name (AVal default) o)).
  { rewrite GateFacts.setattr_gate, (is_reserved_regular o name Hres).
    rewrite Hn, Hl, Hf. simpl.
    now apply GateFacts.object_setattr_plain. }
  unfold BaseConfig.store. rewrite Hset. cbv beta iota delta [bind].
  set (o1 := dict_set name (AVal default) o).
  assert (exists d', setitem_in o1 "arg_dict" name (EDesc type validation)
                     = Ok (dict_set "arg_dict" (AArgs d') o1)
                     /\ dict_get name d' = Some (EDesc type validation))
    as [d' [Hs1 Hd']].
  { unfold setitem_in, get_or_raise, o1.
    rewrite (getattr_set_other o "arg_dict" name _ Na).
    destruct Had as [[d Hd] | [d Hd]]; rewrite Hd;
      cbv beta iota delta [bind attr_setitem];
      eexists; (split; [reflexivity | apply DictFacts.get_set_same]). }
  rewrite Hs1.
  set (o2 := dict_set "arg_dict" (AArgs d') o1).
  assert (Hs2 : setitem_in o2 "help_dict" name (EVal (VStr help))
                = Ok (dict_set "help_dict"
                        (AVal (VDict (dict_set name (VStr help) hd))) o2)).
  { unfold setitem_in, get_or_raise, o2, o1.
    rewrite getattr_set_other by discriminate.
    rewrite (getattr_set_other o "help_dict" name _ Nh), Hhd.
    reflexivity. }
  rewrite Hs2. eexists. split; [reflexivity|].
  assert (Hother : forall k, k <> name -> k <> "arg_dict" -> k <> "help_dict" ->
            getattr (dict_set "help_dict"
                       (AVal (VDict (dict_set name (VStr help) hd))) o2) k
            = getattr o k).
  { intros k K1 K2 K3. unfold o2, o1.
    now rewrite !getattr_set_other by assumption. }
  repeat split.
  - unfold o2, o1. rewrite !getattr_set_other by congruence.
    apply getattr_set_same.
  - unfold descriptor, o2.
    rewrite getattr_set_other by discriminate.
    now rewrite getattr_set_same.
  - unfold help_text. rewrite getattr_set_same.
    apply DictFacts.get_set_same.
  - left. exists d'. unfold o2.
    rewrite getattr_set_other by discriminate. apply getattr_set_same.
  - eexists. apply getattr_set_same.
  - unfold o2, o1. rewrite !DictFacts.get_set_other by congruence.
    exact Hres.
  - unfold is_locked. rewrite Hother by congruence. exact Hl.
  - unfold is_frozen. rewrite Hother by congruence. exact Hf.
  - exact Hother.
Qed.

End StoreFacts.

Module DeclCases.
Import BaseConfig.

Lemma type_error o name type default help validation :
  add_argument o name type default help validation = Err DeclTypeError
  <-> not_sentinel default = true /\ isinstance type default = false.
Proof.
  rewrite DeclFacts.add_argument_cases.
  destruct (isinstance type default), (not_sentinel default);
    cbn [negb andb];
    try (destruct (BaseConfig.rejected default validation));
    (split;
     [ intros H; try discriminate;
       try (apply DeclFacts.store_not_decl in H; destruct H; congruence);
       auto
     | intros [H1 H2]; try discriminate; reflexivity ]).
Qed.

Lemma value_error o name type default help validation :
  add_argument o name type default help validation = Err DeclValueError
  <-> (not_sentinel default = false \/ isinstance type default = true)
      /\ exists p, validation = Some p /\ not_sentinel default = true
                   /\ p default = false.
Proof.
  rewrite DeclFacts.add_argument_cases. unfold BaseConfig.rejected.
  destruct (isinstance type default) eqn:Hi,
           (not_sentinel default) eqn:Hn; cbn [negb andb];
    try (destruct validation as [p|]; [destruct (p default) eqn:Hp|];
         cbn [negb andb]);
    (split;
     [ intros H; try discriminate;
       try (apply DeclFacts.store_not_decl in H; destruct H; congruence);
       try (split; [right; reflexivity | exists p; auto])
     | intros [[H1 | H1] [q [Hq [Hn' Hq']]]]; try discriminate;
       try (inversion Hq; subst q; congruence); reflexivity ]).
Qed.

Lemma success o name type default help validation :
  regular o -> is_locked o = false -> is_frozen o = false ->
  Str.mem name reserved_attributes = false ->
  runtime_slot name = false ->
  not_sentinel default = false \/ isinstance type default = true ->
  (forall p, validation = Some p -> not_sentinel default = true ->
             p default = true) ->
  exists o',
    add_argument o name type default help validation = Ok o' /\
    getattr o' name = Some (AVal default) /\
    descriptor o' name = Some (EDesc type validation) /\
    help_text o' name = Some (VStr help) /\
    regular o' /\ is_locked o' = false /\ is_frozen o' = false /\
    (forall k, k <> name -> k <> "arg_dict" -> k <> "help_dict" ->
               getattr o' k = getattr o k).
Proof.
  intros R Hl Hf Hm Hs Hty Hval.
  rewrite DeclFacts.add_argument_cases.
  assert (T : negb (isinstance type default) && not_sentinel default = false).
  { destruct Hty as [H | H]; rewrite H;
      [apply andb_false_r | reflexivity]. }
  assert (V : BaseConfig.rejected default validation = false).
  { unfold BaseConfig.rejected. destruct validation as [p|]; [|reflexivity].
    destruct (not_sentinel default) eqn:Hn; [|reflexivity].
    now rewrite (Hval p eq_refl eq_refl). }
  rewrite T, V. now apply StoreFacts.store_regular.
Qed.

End DeclCases.

(** ** Tokens *)

Module StrFacts.

Lemma append_assoc (a b c : string) : ((a ++ b) ++ c = a ++ (b ++ c))%string.
Proof. induction a as [|x a IH]; simpl; [reflexivity | now rewrite IH]. Qed.

Lemma prefix_char (c a : ascii) (s : string) :
  String.prefix (String c "") (String a s) = Ascii.eqb c a.
Proof.
  simpl. destruct (ascii_dec c a) as [E|E].
  - subst. rewrite Ascii.eqb_refl. now destruct s.
  - apply Ascii.eqb_neq in E. now rewrite E.
Qed.

Lemma contains_char_cons (c a : ascii) (s : string) :
  Str.contains (String c "") (String a s)
  = Ascii.eqb c a || Str.contains (String c "") s.
Proof.
  change (Str.contains (String c "") (String a s))
    with (String.prefix (String c "") (String a s)
          || Str.contains (String c "") s).
  now rewrite prefix_char.
Qed.

Lemma contains_char_nil (c : ascii) : Str.contains (String c "") "" = false.
Proof. reflexivity. Qed.

Lemma contains_char_app (c : ascii) (s t : string) :
  Str.contains (String c "") (s ++ t)
  = Str.contains (String c "") s || Str.contains (String c "") t.
Proof.
  induction s as [|a s IH].
  - reflexivity.
  - change (String a s ++ t) with (String a (s ++ t)).
    rewrite !contains_char_cons, IH. now rewrite orb_assoc.
Qed.

(** [(name + "=" + val).split("=", 1)] *)
Lemma split_once_app (c : ascii) (name val : string) :
  Str.contains (String c "") name = false ->
  Str.split_once c (name ++ String c val) = Some (name, val).
Proof.
  induction name as [|a name IH]; intros H.
  - simpl. now rewrite Ascii.eqb_refl.
  - rewrite contains_char_cons in H. apply orb_false_elim in H as [H1 H2].
    change (String a name ++ String c val)
      with (String a (name ++ String c val)).
    cbn [Str.split_once]. rewrite Ascii.eqb_sym in H1. rewrite H1.
    now rewrite (IH H2).
Qed.

Lemma split_no_sep (c : ascii) (s : string) :
  Str.contains (String c "") s = false -> Str.split c s = [s].
Proof.
  induction s as [|a s IH]; intros H; [reflexivity|].
  rewrite contains_char_cons in H. apply orb_false_elim in H as [H1 H2].
  cbn [Str.split]. rewrite Ascii.eqb_sym in H1. rewrite H1.
  now rewrite (IH H2).
Qed.

(** [(a + "." + b).split(".")] *)
Lemma split_app (c : ascii) (a b : string) :
  Str.contains (String c "") a = false ->
  Str.contains (String c "") b = false ->
  Str.split c (a ++ String c b) = [a; b].
Proof.
  intros Ha Hb. induction a as [|x a IH].
  - simpl. rewrite Ascii.eqb_refl. now rewrite (split_no_sep c b Hb).
  - rewrite contains_char_cons in Ha. apply orb_false_elim in Ha as [H1 H2].
    change (String x a ++ String c b) with (String x (a ++ String c b)).
    cbn [Str.split]. rewrite Ascii.eqb_sym in H1. rewrite H1.
    now rewrite (IH H2).
Qed.

Lemma contains_sep (c : ascii) (a b : string) :
  Str.contains (String c "") (a ++ String c b) = true.
Proof.
  rewrite contains_char_app, contains_char_cons, Ascii.eqb_refl.
  apply orb_true_r.
Qed.

Lemma eqb_no_char (c : ascii) (s t : string) :
  Str.contains (String c "") s = true ->
  Str.contains (String c "") t = false ->
  String.eqb s t = false.
Proof.
  intros Hs Ht. apply String.eqb_neq. intros E. subst. congruence.
Qed.

End StrFacts.

(** ** Sequencing *)

Module MonadFacts.

Lemma bind_ok {A B : Type} (m : res A) (f : A -> res B) (b : B) :
  bind m f = Ok b -> exists a, m = Ok a /\ f a = Ok b.
Proof. destruct m as [a|e]; simpl; [eauto | discriminate]. Qed.

Lemma bind_err {A B : Type} (m : res A) (f : A -> res B) (e : exn) :
  m = Err e -> bind m f = Err e.
Proof. now intros ->. Qed.

Lemma snd_io_bind {A B : Type} (m : io A) (f : A -> io B) :
  snd (io_bind m f) = bind (snd m) (fun a => snd (f a)).
Proof.
  destruct m as [ev [a|e]]; simpl; [|reflexivity].
  now destruct (f a).
Qed.

Lemma fst_io_bind {A B : Type} (m : io A) (f : A -> io B) :
  fst (io_bind m f) =
  (fst m ++ match snd m with
            | Ok a => fst (f a)
            | Err _ => []
            end)%list.
Proof.
  destruct m as [ev [a|e]]; simpl.
  - now destruct (f a).
  - now rewrite app_nil_r.
Qed.

Lemma snd_lift {A : Type} (m : res A) : snd (lift m) = m.
Proof. reflexivity. Qed.

Lemma io_bind_lift_ok {A B : Type} (a : A) (f : A -> io B) :
  io_bind (lift (Ok a)) f = f a.
Proof. unfold io_bind, lift. now destruct (f a). Qed.

Lemma io_bind_pair {A B : Type} (m : io A) (f : A -> io B) :
  io_bind m f = (fst (io_bind m f), snd (io_bind m f)).
Proof. now destruct (io_bind m f). Qed.

End MonadFacts.

(** ** The root and its subconfigs *)

Module RootFacts.
Import MainBase.

Lemma setattr_ok (r r' : root) (key : string) (v : rattr) :
  storable key = true -> setattr r key v = Ok r' -> r' = dict_set key v r.
Proof.
  unfold storable, setattr, object_setattr. intros Hs.
  apply negb_true_iff in Hs.
  apply orb_false_elim in Hs as [Hs H3].
  apply orb_false_elim in Hs as [H1 H2].
  rewrite H1, H2, H3.
  destruct (get_or_raise r "_MainBase__frozen") as [fz|e]; simpl;
    [|discriminate].
  destruct (rattr_truthy fz); [discriminate|].
  now intros H; inversion H.
Qed.

Lemma root_get_set_same (r : root) (k : string) (a : rattr) :
  getattr (dict_set k a r) k = Some a.
Proof. unfold getattr. now rewrite DictFacts.get_set_same. Qed.

Lemma root_get_set_other (r : root) (k k' : string) (a : rattr) :
  k <> k' -> getattr (dict_set k' a r) k = getattr r k.
Proof. intros H. unfold getattr. now rewrite DictFacts.get_set_other. Qed.

Lemma resolved_set_other (r : root) (k cfg arg : string) (a : rattr) :
  cfg <> k -> resolved (dict_set k a r) cfg arg = resolved r cfg arg.
Proof. intros H. unfold resolved. now rewrite root_get_set_other. Qed.

Lemma resolved_update_same (r : root) (cfg arg : string) (o : obj) :
  resolved (update_obj r cfg o) cfg arg = BaseConfig.getattr o arg.
Proof. unfold resolved, update_obj. now rewrite root_get_set_same. Qed.

(** A successful assignment through the gate of a subconfig stores the
    value. *)
Lemma obj_setattr_ok (o o' : obj) (key : string) (v : value) :
  BaseConfig.runtime_slot key = false ->
  BaseConfig.setattr o key v = Ok o' -> o' = dict_set key (AVal v) o.
Proof.
  intros Hs. rewrite GateFacts.setattr_gate.
  destruct (BaseConfig.is_reserved o key) as [b|e]; [|discriminate].
  destruct (_ && _ && _); [discriminate|].
  destruct (BaseConfig.is_frozen o); [discriminate|].
  destruct (_ && _); [discriminate|].
  rewrite (GateFacts.object_setattr_plain o key v Hs).
  now intros H; inversion H.
Qed.

End RootFacts.

(** ** One command-line token *)

Module TokenFacts.
Import MainBase.

Lemma dotted_split (sc arg val : string) :
  ident sc -> ident arg ->
  Str.split_once "=" (dotted sc arg val) = Some (sc ++ "." ++ arg, val).
Proof.
  intros [Hs _] [Ha _]. unfold dotted.
  replace (sc ++ "." ++ arg ++ "=" ++ val)
    with ((sc ++ "." ++ arg) ++ String "=" val).
  - apply StrFacts.split_once_app.
    rewrite StrFacts.contains_char_app, Hs.
    change ("." ++ arg) with (String "." arg).
    rewrite StrFacts.contains_char_cons, Ha. reflexivity.
  - rewrite StrFacts.append_assoc. reflexivity.
Qed.

Lemma dotted_name_has_dot (sc arg : string) :
  Str.contains "." (sc ++ "." ++ arg) = true.
Proof. apply (StrFacts.contains_sep "." sc arg). Qed.

Lemma dotted_name_split (sc arg : string) :
  ident sc -> ident arg -> Str.split "." (sc ++ "." ++ arg) = [sc; arg].
Proof.
  intros [_ Hs] [_ Ha]. now apply (StrFacts.split_app "." sc arg).
Qed.

Lemma dotted_contains_eq (sc arg val : string) :
  Str.contains "=" (dotted sc arg val) = true.
Proof.
  unfold dotted.
  replace (sc ++ "." ++ arg ++ "=" ++ val)
    with ((sc ++ "." ++ arg) ++ String "=" val)
    by (rewrite StrFacts.append_assoc; reflexivity).
  apply StrFacts.contains_sep.
Qed.

Section Step.
Variable fs : string -> option value.
Variable foreign_dir : rattr -> list string.

(** What [__override_with_cmdline_args] does with a dotted token. *)
Lemma override_token_dotted (r : root) (sc arg val : string) :
  ident sc -> ident arg ->
  override_token fs foreign_dir r (dotted sc arg val) =
  let* subcfg := get_or_raise r sc in
  if negb (Str.mem arg (dir_of foreign_dir subcfg)) then Err UnknownArgument
  else
    let* v := validate_arg subcfg arg (VStr val) in
    let* o := as_obj subcfg in
    let* o' := BaseConfig.setattr o arg v in
    Ok (update_obj r sc o').
Proof.
  intros Hs Ha. unfold override_token.
  rewrite (dotted_split sc arg val Hs Ha).
  rewrite (StrFacts.eqb_no_char "." (sc ++ "." ++ arg) "config"
             (dotted_name_has_dot sc arg) eq_refl).
  rewrite (dotted_name_has_dot sc arg). cbn [negb].
  now rewrite (dotted_name_split sc arg Hs Ha).
Qed.

Lemma cmdline_app (r : root) (l1 l2 : list string) :
  override_with_cmdline_args fs foreign_dir r (l1 ++ l2) =
  let* r1 := override_with_cmdline_args fs foreign_dir r l1 in
  override_with_cmdline_args fs foreign_dir r1 l2.
Proof.
  revert r. induction l1 as [|a l1 IH]; intros r; [reflexivity|].
  cbn [app override_with_cmdline_args].
  destruct (override_token fs foreign_dir r a) as [r'|e]; simpl;
    [apply IH | reflexivity].
Qed.

End Step.

End TokenFacts.

(** ** Coercion and validation of one value *)

Module ValidateFacts.
Import MainBase.

Lemma descriptor_lookup (o : obj) (name : string) (t : ptype)
    (validation : option (value -> bool)) :
  BaseConfig.descriptor o name = Some (EDesc t validation) ->
  exists ad, BaseConfig.get_or_raise o "arg_dict" = Ok ad /\
             attr_getitem ad name = Ok (EDesc t validation).
Proof.
  unfold BaseConfig.descriptor, BaseConfig.get_or_raise.
  destruct (BaseConfig.getattr o "arg_dict") as [[v|d|]|]; try discriminate.
  - destruct v; try discriminate.
    destruct (dict_get name d); discriminate.
  - intros H. exists (AArgs d). split; [reflexivity|].
    unfold attr_getitem. now rewrite H.
Qed.

Lemma validate_declared (o : obj) (name : string) (t : ptype)
    (validation : option (value -> bool)) (raw : value) :
  BaseConfig.descriptor o name = Some (EDesc t validation) ->
  validate_arg (RObj o) name raw =
  match construct t raw with
  | None => Err TypeCoercion
  | Some v => check validation v
  end.
Proof.
  intros H. destruct (descriptor_lookup o name t validation H) as [ad [H1 H2]].
  unfold validate_arg, as_obj. cbv beta iota delta [bind].
  rewrite H1, H2. destruct (construct t raw); [|reflexivity].
  unfold check. now destruct validation.
Qed.

Lemma check_not_coercion (validation : option (value -> bool)) (v : value) :
  check validation v <> Err TypeCoercion.
Proof.
  unfold check. destruct validation as [p|]; [destruct (p v)|]; discriminate.
Qed.

End ValidateFacts.

(** ** The steps of [build] *)

Module BuildFacts.
Import MainBase.

Section Steps.
Variable fs : string -> option value.
Variable foreign_dir : rattr -> list string.
Variable today : string.
Variable allocate : string -> string -> string.

(** The states a successful [build] goes through. *)
Lemma build_inv (r : root) (argv : list string) (dont_save : bool)
    (r' : root) :
  snd (build fs foreign_dir today allocate r argv dont_save) = Ok r' ->
  exists r0 r1 args r2 r3 r4 r5 x,
    setattr r "_MainBase__dont_save" (RVal (VBool dont_save)) = Ok r0 /\
    set_defaults r0 = Ok r1 /\
    snd (display_help r1 (remaining today argv)) = Ok args /\
    snd (override_defaults fs foreign_dir r1 args) = Ok r2 /\
    load_checkpoint_config_if_indicated fs foreign_dir r2 = Ok r3 /\
    freeze_configs r3 = Ok r4 /\
    setattr r4 "save_dir" x = Ok r5 /\
    setattr r5 "frozen" (RVal (VBool true)) = Ok r'.
Proof.
  unfold build, remaining.
  destruct (set_save_dir_experiment_name today argv)
    as [[cmd_args save_dir] experiment_name].
  cbn [fst].
  rewrite MonadFacts.snd_io_bind, MonadFacts.snd_lift. intros H.
  apply MonadFacts.bind_ok in H as [r0 [H0 H]].
  rewrite MonadFacts.snd_io_bind, MonadFacts.snd_lift in H.
  apply MonadFacts.bind_ok in H as [r1 [H1 H]].
  rewrite MonadFacts.snd_io_bind in H.
  apply MonadFacts.bind_ok in H as [args [Ha H]].
  rewrite MonadFacts.snd_io_bind in H.
  apply MonadFacts.bind_ok in H as [r2 [H2 H]].
  rewrite MonadFacts.snd_io_bind, MonadFacts.snd_lift in H.
  apply MonadFacts.bind_ok in H as [r3 [H3 H]].
  rewrite MonadFacts.snd_io_bind, MonadFacts.snd_lift in H.
  apply MonadFacts.bind_ok in H as [eval [He H]].
  rewrite MonadFacts.snd_io_bind, MonadFacts.snd_lift in H.
  apply MonadFacts.bind_ok in H as [r4 [H4 H]].
  rewrite MonadFacts.snd_io_bind, MonadFacts.snd_lift in H.
  apply MonadFacts.bind_ok in H as [flag [Hf H]].
  rewrite MonadFacts.snd_io_bind in H.
  apply MonadFacts.bind_ok in H as [r5 [H5 H]].
  rewrite MonadFacts.snd_lift in H.
  exists r0, r1, args, r2, r3, r4, r5.
  destruct (negb (rattr_truthy flag)).
  - rewrite MonadFacts.snd_io_bind in H5.
    apply MonadFacts.bind_ok in H5 as [u [_ H5]].
    rewrite MonadFacts.snd_lift in H5.
    eexists. repeat (split; [eassumption|]). exact H.
  - rewrite MonadFacts.snd_lift in H5.
    eexists. repeat (split; [eassumption|]). exact H.
Qed.

End Steps.

End BuildFacts.

(** ** The freeze *)

Module FreezeFacts.
Import MainBase.

Lemma obj_default (r : root) (k : string) :
  match getattr r k with Some (RObj _) => true | _ => false end = true ->
  getattr r k = Some (RObj match getattr r k with
                           | Some (RObj o) => o
                           | _ => []
                           end).
Proof. destruct (getattr r k) as [[]|]; intros H; now inversion H. Qed.

Lemma ok_default {A : Type} (m : res A) (d : A) :
  is_ok m = true -> m = Ok (match m with Ok a => a | Err _ => d end).
Proof. destruct m; [reflexivity | discriminate]. Qed.

(** The gate of the root is open whenever an assignment went through it
    under another name than the one the gate reads. *)
Lemma gate_stays_open (r r' : root) (k key : string) (v w : rattr) :
  MainBase.storable k = true ->
  k <> "_MainBase__frozen" ->
  setattr r k v = Ok r' ->
  MainBase.storable key = true ->
  setattr r' key w = Ok (dict_set key w r').
Proof.
  intros Sk Nk H Skey.
  pose proof (RootFacts.setattr_ok r r' k v Sk H) as E.
  unfold setattr in H |- *.
  destruct (get_or_raise r "_MainBase__frozen") as [fz|e] eqn:G;
    simpl in H; [|discriminate].
  destruct (rattr_truthy fz) eqn:T; [discriminate|].
  assert (G' : get_or_raise r' "_MainBase__frozen" = Ok fz).
  { subst r'. unfold get_or_raise in *.
    rewrite RootFacts.root_get_set_other by congruence. exact G. }
  rewrite G'. simpl. rewrite T.
  unfold MainBase.storable in Skey. unfold object_setattr.
  apply negb_true_iff in Skey.
  apply orb_false_elim in Skey as [Skey H3].
  apply orb_false_elim in Skey as [H1 H2].
  now rewrite H1, H2, H3.
Qed.

End FreezeFacts.

(** ** Step 1 and the help token *)

Module ScanFacts.
Import MainBase.

Lemma scan_tokens_spec (l : list string) (sd en : string)
    (acc : list string) :
  scan_tokens l sd en acc
  = ((acc ++ filter keep l)%list, fst (picked l sd en), snd (picked l sd en)).
Proof.
  revert sd en acc. induction l as [|arg l IH]; intros sd en acc.
  - simpl. now rewrite app_nil_r.
  - cbn [scan_tokens picked filter]. unfold keep at 1.
    destruct (Str.contains "save_dir" arg); cbn [negb andb]; [apply IH|].
    destruct (Str.contains "experiment_name" arg); cbn [negb andb];
      [apply IH|].
    rewrite IH. now rewrite <- app_assoc.
Qed.

Lemma picked_app (a b : list string) (sd en : string) :
  picked (a ++ b) sd en
  = picked b (fst (picked a sd en)) (snd (picked a sd en)).
Proof.
  revert sd en. induction a as [|x a IH]; intros sd en; [reflexivity|].
  cbn [app picked].
  destruct (Str.contains "save_dir" x); [apply IH|].
  destruct (Str.contains "experiment_name" x); apply IH.
Qed.

Lemma picked_skip (a b : list string) (h sd en : string) :
  keep h = true -> picked (a ++ h :: b) sd en = picked (a ++ b) sd en.
Proof.
  intros K. rewrite !picked_app. cbn [picked].
  unfold keep in K. apply andb_true_iff in K as [K1 K2].
  apply negb_true_iff in K1, K2. now rewrite K1, K2.
Qed.

Lemma step1_spec (today : string) (argv : list string) :
  set_save_dir_experiment_name today argv
  = (filter keep argv,
     Str.after_last "=" (fst (picked argv "results" today)),
     Str.after_last "=" (snd (picked argv "results" today))).
Proof.
  unfold set_save_dir_experiment_name. now rewrite scan_tokens_spec.
Qed.

Lemma mem_app (x : string) (a b : list string) :
  Str.mem x (a ++ b) = Str.mem x a || Str.mem x b.
Proof. unfold Str.mem. apply existsb_app. Qed.

Lemma mem_filter_false (x : string) (f : string -> bool) (l : list string) :
  Str.mem x l = false -> Str.mem x (filter f l) = false.
Proof.
  intros H. apply DictFacts.mem_false. apply DictFacts.mem_false in H.
  intros Hin. apply filter_In in Hin as [Hin _]. contradiction.
Qed.

Lemma remove_first_absent (x : string) (l : list string) :
  Str.mem x l = false -> Str.remove_first x l = None.
Proof.
  induction l as [|y l IH]; [reflexivity|].
  cbn [Str.mem existsb Str.remove_first]. intros H.
  apply orb_false_elim in H as [H1 H2].
  rewrite String.eqb_sym in H1. rewrite H1.
  unfold Str.mem in IH. now rewrite (IH H2).
Qed.

Lemma remove_first_here (x : string) (a b : list string) :
  Str.mem x a = false ->
  Str.remove_first x (a ++ x :: b) = Some (a ++ b)%list.
Proof.
  induction a as [|y a IH]; intros H.
  - simpl. now rewrite String.eqb_refl.
  - cbn [Str.mem existsb] in H. apply orb_false_elim in H as [H1 H2].
    cbn [app Str.remove_first]. rewrite String.eqb_sym in H1. rewrite H1.
    unfold Str.mem in IH. now rewrite (IH H2).
Qed.

(** The help token is the only one of its kind in the list. *)
Lemma remove_help_single (a b : list string) (h : string) :
  h = "--h" \/ h = "--help" ->
  Str.mem "--h" (a ++ b) = false -> Str.mem "--help" (a ++ b) = false ->
  remove_help (a ++ h :: b) = Ok (a ++ b)%list.
Proof.
  intros Hh H1 H2. rewrite mem_app in H1, H2.
  apply orb_false_elim in H1 as [H1a H1b].
  apply orb_false_elim in H2 as [H2a H2b].
  unfold remove_help. destruct Hh as [-> | ->].
  - now rewrite (remove_first_here "--h" a b H1a).
  - rewrite (remove_first_absent "--h" (a ++ "--help" :: b)).
    + now rewrite (remove_first_here "--help" a b H2a).
    + rewrite mem_app. cbn [Str.mem existsb]. unfold Str.mem in *.
      rewrite H1a, H1b. reflexivity.
Qed.

End ScanFacts.

Module HelpFacts.
Import MainBase.

Lemma keep_help (h : string) :
  h = "--h" \/ h = "--help" -> MainBase.keep h = true.
Proof. intros [-> | ->]; reflexivity. Qed.

Lemma display_help_single (r : root) (a b : list string) (h : string) :
  h = "--h" \/ h = "--help" ->
  Str.mem "--h" (a ++ b) = false -> Str.mem "--help" (a ++ b) = false ->
  snd (listing r) = Ok tt ->
  display_help r (a ++ h :: b) = (fst (listing r), Ok (a ++ b)%list).
Proof.
  intros Hh H1 H2 HL. unfold display_help.
  assert (M : Str.mem "--h" (a ++ h :: b) || Str.mem "--help" (a ++ h :: b)
              = true).
  { rewrite !ScanFacts.mem_app. cbn [Str.mem existsb].
    destruct Hh as [-> | ->]; cbn [String.eqb]; rewrite ?String.eqb_refl;
      rewrite ?orb_true_r; reflexivity. }
  rewrite M, (ScanFacts.remove_help_single a b h Hh H1 H2).
  destruct (listing r) as [ev [[]|e]]; simpl in *; [|discriminate].
  now rewrite app_nil_r.
Qed.

Lemma display_help_none (r : root) (l : list string) :
  Str.mem "--h" l = false -> Str.mem "--help" l = false ->
  display_help r l = ([], Ok l).
Proof. intros H1 H2. unfold display_help. now rewrite H1, H2. Qed.

End HelpFacts.

Module PipelineFacts.
Import MainBase.

Section Finish.
Variable fs : string -> option value.
Variable foreign_dir : rattr -> list string.
Variable today : string.
Variable allocate : string -> string -> string.

Lemma build_unfold (r : root) (argv : list string) (dont_save : bool) :
  build fs foreign_dir today allocate r argv dont_save =
  do* r0 := lift (setattr r "_MainBase__dont_save" (RVal (VBool dont_save))) in
  do* r1 := lift (set_defaults r0) in
  do* cmd_args := display_help r1 (filter MainBase.keep argv) in
  finish fs foreign_dir allocate r1 cmd_args
    (Str.after_last "=" (fst (MainBase.picked argv "results" today)))
    (Str.after_last "=" (snd (MainBase.picked argv "results" today))).
Proof.
  unfold build. rewrite ScanFacts.step1_spec. reflexivity.
Qed.

(** With the defaults realised, [build] is the help display followed by
    the rest. *)
Lemma build_from_defaults (r r0 r1 : root) (argv : list string)
    (dont_save : bool) :
  setattr r "_MainBase__dont_save" (RVal (VBool dont_save)) = Ok r0 ->
  set_defaults r0 = Ok r1 ->
  build fs foreign_dir today allocate r argv dont_save =
  do* cmd_args := display_help r1 (filter MainBase.keep argv) in
  finish fs foreign_dir allocate r1 cmd_args
    (Str.after_last "=" (fst (MainBase.picked argv "results" today)))
    (Str.after_last "=" (snd (MainBase.picked argv "results" today))).
Proof.
  intros H0 H1. rewrite build_unfold, H0.
  rewrite MonadFacts.io_bind_lift_ok, H1.
  now rewrite MonadFacts.io_bind_lift_ok.
Qed.

End Finish.

End PipelineFacts.

(** ** The override step *)

Module OverrideFacts.
Import MainBase.

Section Stage.
Variable fs : string -> option value.
Variable foreign_dir : rattr -> list string.
Variable today : string.
Variable allocate : string -> string -> string.

Lemma override_defaults_result (r : root) (cmd_args : list string) :
  snd (override_defaults fs foreign_dir r cmd_args) =
  let* r1 := file_stage fs foreign_dir r cmd_args in
  override_with_cmdline_args fs foreign_dir r1 cmd_args.
Proof.
  unfold override_defaults, file_stage.
  rewrite MonadFacts.snd_io_bind.
  destruct (String.eqb (determine_config_path cmd_args) ""); reflexivity.
Qed.

(** An exception of the override step is the exception of [build]. *)
Lemma build_override_err (r r0 r1 : root) (argv args : list string)
    (dont_save : bool) (e : exn) :
  setattr r "_MainBase__dont_save" (RVal (VBool dont_save)) = Ok r0 ->
  set_defaults r0 = Ok r1 ->
  snd (display_help r1 (filter MainBase.keep argv)) = Ok args ->
  snd (override_defaults fs foreign_dir r1 args) = Err e ->
  snd (build fs foreign_dir today allocate r argv dont_save) = Err e.
Proof.
  intros H0 H1 Hd He.
  rewrite (PipelineFacts.build_from_defaults fs foreign_dir today allocate
             r r0 r1 argv dont_save H0 H1).
  rewrite MonadFacts.snd_io_bind, Hd. cbv beta iota delta [bind].
  unfold MainBase.finish. rewrite MonadFacts.snd_io_bind, He.
  reflexivity.
Qed.

Lemma keys_resolved (d acc : list (string * value)) (k : string) :
  In k (dict_keys d) \/ In k (dict_keys acc) ->
  In k (dict_keys
          (fold_left (fun new_config kv =>
                        dict_set (fst kv) (resolve_path fs (snd kv))
                          new_config) d acc)).
Proof.
  revert acc. induction d as [|[k0 v0] d IH]; intros acc H; simpl.
  - destruct H as [[] | H]; exact H.
  - apply IH. simpl in H. rewrite DictFacts.keys_dict_set.
    destruct H as [[H | H] | H]; auto.
Qed.

Lemma assure_keys_unknown (subs : list string) (keys : list string)
    (k : string) :
  In k keys -> ~ In k subs ->
  assure_keys (RNames subs) keys = Err UnknownSubconfig.
Proof.
  intros Hin Hn. induction keys as [|key keys IH]; [destruct Hin|].
  cbn [assure_keys rattr_contains]. cbv beta iota delta [bind].
  destruct (Str.mem key subs) eqn:M; [|reflexivity].
  apply IH. destruct Hin as [-> | Hin]; [|exact Hin].
  apply DictFacts.mem_true in M. contradiction.
Qed.

(** A file whose top level has a key that names no subconfig. *)
Lemma file_stage_unknown_key (r : root) (cmd_args subs : list string)
    (d : list (string * value)) (k : string) :
  determine_config_path cmd_args <> "" ->
  fs (determine_config_path cmd_args) = Some (VDict d) ->
  subconfigs r = Ok subs ->
  In k (dict_keys d) -> ~ In k subs ->
  file_stage fs foreign_dir r cmd_args = Err UnknownSubconfig.
Proof.
  intros Hp Hf Hs Hk Hn. unfold file_stage.
  apply String.eqb_neq in Hp. rewrite Hp.
  unfold load_json. rewrite Hf. cbv beta iota delta [bind].
  cbn [load_subconfigs_from_filepath].
  pose proof (keys_resolved d [] k (or_introl Hk)) as Hin.
  set (config := fold_left _ d []) in *.
  unfold assure_no_additional_keys.
  destruct (dict_keys config) as [|key keys] eqn:K; [destruct Hin|].
  unfold subconfigs in Hs.
  destruct (get_or_raise r "_MainBase__subconfigs") as [a|e];
    [|discriminate].
  cbv beta iota delta [bind] in Hs |- *.
  destruct a; try discriminate. inversion Hs; subst l.
  now rewrite (assure_keys_unknown subs (key :: keys) k Hin Hn).
Qed.

End Stage.

End OverrideFacts.

(** ** What the override steps leave alone *)

Module FrameFacts.
Import MainBase.

Lemma class_attr_not_obj (k : string) (o : obj) :
  class_attr k <> Some (RObj o).
Proof.
  unfold class_attr.
  repeat match goal with
         | |- context [if ?b then _ else _] => destruct b
         end; discriminate.
Qed.


Section Frames.
Variable fs : string -> option value.
Variable foreign_dir : rattr -> list string.

Lemma get_obj (r : root) (cfg : string) (a : rattr) (o : obj) :
  get_or_raise r cfg = Ok a -> as_obj a = Ok o ->
  getattr r cfg = Some (RObj o).
Proof.
  unfold get_or_raise. destruct (getattr r cfg) as [x|]; [|discriminate].
  intros H; inversion H; subst x. destruct a; try discriminate.
  now intros H'; inversion H'.
Qed.

Lemma override_one_touches (r r' : root) (cfg : string) (b : bool)
    (arg : string) (val : value) :
  override_one foreign_dir r cfg b arg val = Ok r' -> touches r r'.
Proof.
  unfold override_one. intros H.
  apply MonadFacts.bind_ok in H as [subcfg [Hg H]].
  destruct b.
  - destruct (negb _); [discriminate|].
    apply MonadFacts.bind_ok in H as [v [_ H]].
    apply MonadFacts.bind_ok in H as [o [Ho H]].
    apply MonadFacts.bind_ok in H as [o' [_ H]].
    inversion H. right. exists cfg, o, o'. split; [|reflexivity].
    eapply get_obj; eauto.
  - apply MonadFacts.bind_ok in H as [o [Ho H]].
    apply MonadFacts.bind_ok in H as [o1 [_ H]].
    apply MonadFacts.bind_ok in H as [o' [_ H]].
    inversion H. right. exists cfg, o, o'. split; [|reflexivity].
    eapply get_obj; eauto.
Qed.

Lemma override_token_touches (r r' : root) (arg : string) :
  override_token fs foreign_dir r arg = Ok r' ->
  touches r r' \/
  exists cfg b items, override_items foreign_dir r cfg b items = Ok r'.
Proof.
  unfold override_token.
  destruct (Str.split_once "=" arg) as [[name val]|]; [|discriminate].
  destruct (String.eqb name "config").
  { intros H; inversion H. left; left; reflexivity. }
  destruct (negb (Str.contains "." name)).
  - intros H.
    apply MonadFacts.bind_ok in H as [subs [_ H]].
    apply MonadFacts.bind_ok in H as [known [_ H]].
    destruct known; [|discriminate].
    apply MonadFacts.bind_ok in H as [subconfig [_ H]].
    unfold override_individual_subconfig in H.
    destruct subconfig; try discriminate.
    right. eauto.
  - destruct (Str.split "." name) as [|cfg [|a [|]]]; try discriminate.
    intros H.
    apply MonadFacts.bind_ok in H as [subcfg [Hg H]].
    destruct (negb _); [discriminate|].
    apply MonadFacts.bind_ok in H as [v [_ H]].
    apply MonadFacts.bind_ok in H as [o [Ho H]].
    apply MonadFacts.bind_ok in H as [o' [_ H]].
    inversion H. left; right. exists cfg, o, o'. split; [|reflexivity].
    eapply get_obj; eauto.
Qed.

Lemma override_items_stable (P : root -> Prop) (r r' : root) (cfg : string)
    (b : bool) (items : list (string * value)) :
  stable P ->
  override_items foreign_dir r cfg b items = Ok r' -> P r -> P r'.
Proof.
  intros S. revert r. induction items as [|[a v] items IH]; intros r H HP.
  - inversion H; subst; exact HP.
  - cbn [override_items] in H.
    apply MonadFacts.bind_ok in H as [r1 [H1 H]].
    apply (IH r1 H). eapply S; [|exact HP].
    eapply override_one_touches; eauto.
Qed.

Lemma filebased_stable (P : root -> Prop) (r r' : root)
    (config : list (string * value)) (b : bool) :
  stable P ->
  override_with_filebased_args foreign_dir r config b = Ok r' -> P r -> P r'.
Proof.
  intros S. revert r. induction config as [|[k v] config IH]; intros r H HP.
  - inversion H; subst; exact HP.
  - cbn [override_with_filebased_args] in H.
    apply MonadFacts.bind_ok in H as [r1 [H1 H]].
    apply (IH r1 H). unfold override_individual_subconfig in H1.
    destruct v; try discriminate.
    eapply override_items_stable; eauto.
Qed.

Lemma cmdline_stable (P : root -> Prop) (r r' : root) (l : list string) :
  stable P ->
  override_with_cmdline_args fs foreign_dir r l = Ok r' -> P r -> P r'.
Proof.
  intros S. revert r. induction l as [|a l IH]; intros r H HP.
  - inversion H; subst; exact HP.
  - cbn [override_with_cmdline_args] in H.
    apply MonadFacts.bind_ok in H as [r1 [H1 H]].
    apply (IH r1 H).
    destruct (override_token_touches r r1 a H1) as [T | [cfg [b [items T]]]].
    + eapply S; eauto.
    + eapply override_items_stable; eauto.
Qed.

Lemma file_stage_stable (P : root -> Prop) (r r' : root) (l : list string) :
  stable P ->
  MainBase.file_stage fs foreign_dir r l = Ok r' -> P r -> P r'.
Proof.
  intros S. unfold MainBase.file_stage.
  destruct (String.eqb _ "").
  - intros H; inversion H; subst; auto.
  - intros H.
    apply MonadFacts.bind_ok in H as [c1 [_ H]].
    apply MonadFacts.bind_ok in H as [c2 [_ H]].
    apply MonadFacts.bind_ok in H as [u [_ H]].
    eapply filebased_stable; eauto.
Qed.

End Frames.


End FrameFacts.

(** ** Freezing the subconfigs *)

Module FreezeEach.
Import MainBase.

Lemma frozen_after (o : obj) :
  BaseConfig.is_frozen (dict_set "frozen" (AVal (VBool true)) o) = true.
Proof.
  unfold BaseConfig.is_frozen. now rewrite StoreFacts.getattr_set_same.
Qed.

Lemma frozen_rejects (o : obj) (key : string) (v : value) :
  BaseConfig.is_frozen o = true ->
  exists e, BaseConfig.setattr o key v = Err e.
Proof.
  intros Hf. rewrite GateFacts.setattr_gate.
  destruct (BaseConfig.is_reserved o key) as [b|e]; [|eauto].
  rewrite Hf. destruct (_ && _ && _); eauto.
Qed.

(** One iteration of [__freeze_configs]. *)
Lemma freeze_step (r r' : root) (cfg : string) (rest : list string) :
  freeze_each r (cfg :: rest) = Ok r' ->
  exists o,
    getattr r cfg = Some (RObj o) /\
    freeze_each
      (update_obj r cfg (dict_set "frozen" (AVal (VBool true)) o)) rest
    = Ok r'.
Proof.
  cbn [freeze_each]. intros H.
  apply MonadFacts.bind_ok in H as [val [Hg H]].
  apply MonadFacts.bind_ok in H as [o [Ho H]].
  apply MonadFacts.bind_ok in H as [o' [Hs H]].
  exists o. split; [eapply FrameFacts.get_obj; eauto|].
  now rewrite <- (RootFacts.obj_setattr_ok o o' "frozen" (VBool true)
                    eq_refl Hs).
Qed.

(** The arguments keep their values. *)
Lemma freeze_each_resolved (r r' : root) (cfgs : list string)
    (sc arg : string) :
  arg <> "frozen" ->
  freeze_each r cfgs = Ok r' -> resolved r' sc arg = resolved r sc arg.
Proof.
  intros Ha. revert r. induction cfgs as [|cfg cfgs IH]; intros r H.
  - now inversion H.
  - apply freeze_step in H as [o [Hg H]].
    rewrite (IH _ H).
    destruct (String.eqb sc cfg) eqn:E.
    + apply String.eqb_eq in E. subst cfg.
      rewrite RootFacts.resolved_update_same.
      unfold resolved. rewrite Hg.
      now apply StoreFacts.getattr_set_other.
    + apply String.eqb_neq in E. unfold update_obj.
      now apply RootFacts.resolved_set_other.
Qed.

(** A frozen subconfig cannot be frozen again. *)
Lemma frozen_not_again (r r' : root) (cfgs : list string) (cfg : string)
    (o : obj) :
  getattr r cfg = Some (RObj o) -> BaseConfig.is_frozen o = true ->
  freeze_each r cfgs = Ok r' -> ~ In cfg cfgs.
Proof.
  revert r. induction cfgs as [|c cfgs IH]; intros r Hg Hf H Hin;
    [destruct Hin|].
  destruct (String.eqb c cfg) eqn:E.
  - apply String.eqb_eq in E. subst c.
    cbn [freeze_each] in H. unfold get_or_raise in H. rewrite Hg in H.
    cbv beta iota delta [bind as_obj] in H.
    destruct (frozen_rejects o "frozen" (VBool true) Hf) as [e He].
    rewrite He in H. discriminate.
  - apply String.eqb_neq in E.
    apply freeze_step in H as [o1 [Hg1 H]].
    destruct Hin as [Hin | Hin]; [contradiction|].
    refine (IH _ _ Hf H Hin).
    unfold update_obj. rewrite RootFacts.root_get_set_other by congruence.
    exact Hg.
Qed.

Lemma freeze_each_nodup (r r' : root) (cfgs : list string) :
  freeze_each r cfgs = Ok r' -> NoDup cfgs.
Proof.
  revert r. induction cfgs as [|cfg cfgs IH]; intros r H; constructor.
  - apply freeze_step in H as [o [Hg H]].
    refine (frozen_not_again _ r' cfgs cfg _ _ (frozen_after o) H).
    unfold update_obj. apply RootFacts.root_get_set_same.
  - apply freeze_step in H as [o [Hg H]]. eapply IH; eauto.
Qed.

End FreezeEach.

(** ** The checkpoint indirection and the rest of the root *)

Module CheckpointFacts.
Import MainBase.

Lemma names_stable (l : list string) :
  MainBase.stable (fun r => subconfigs r = Ok l).
Proof.
  intros r r' [-> | [cfg [o [o' [Hg ->]]]]] H; [exact H|].
  unfold subconfigs, get_or_raise, update_obj in *.
  rewrite RootFacts.root_get_set_other; [exact H|].
  intros E. change "_MainBase__subconfigs" with names_key in *.
  rewrite E, Hg in H. discriminate.
Qed.

(** Assigning a subconfig instance to an attribute of the root. *)
Lemma setattr_obj (r r' : root) (k : string) (o : obj) :
  setattr r k (RObj o) = Ok r' -> r' = dict_set k (RObj o) r.
Proof.
  unfold setattr, object_setattr.
  destruct (get_or_raise r "_MainBase__frozen") as [fz|e]; [|discriminate].
  cbv beta iota delta [bind].
  destruct (rattr_truthy fz); [discriminate|].
  destruct (String.eqb k "__class__"); [discriminate|].
  destruct (String.eqb k "__weakref__"); [discriminate|].
  destruct (String.eqb k "__dict__"); [discriminate|].
  now intros H; inversion H.
Qed.

Lemma attach_spec (r r' : root) (keys l : list string) :
  attach_subconfigs r keys = Ok r' ->
  subconfigs r = Ok l ->
  subconfigs r' = Ok (l ++ keys)%list /\
  (forall k, ~ In k keys -> k <> names_key -> getattr r' k = getattr r k).
Proof.
  revert r l. induction keys as [|key keys IH]; intros r l H Hs.
  - inversion H; subst. rewrite app_nil_r. auto.
  - cbn [attach_subconfigs] in H.
    apply MonadFacts.bind_ok in H as [o [_ H]].
    apply MonadFacts.bind_ok in H as [r1 [H1 H]].
    apply setattr_obj in H1. subst r1.
    apply MonadFacts.bind_ok in H as [subs [Hg H]].
    destruct (String.eqb key names_key) eqn:E.
    { apply String.eqb_eq in E. subst key.
      unfold get_or_raise in Hg.
      change "_MainBase__subconfigs" with names_key in Hg.
      rewrite RootFacts.root_get_set_same in Hg.
      inversion Hg; subst subs. discriminate. }
    apply String.eqb_neq in E.
    unfold get_or_raise in Hg.
    change "_MainBase__subconfigs" with names_key in Hg.
    rewrite RootFacts.root_get_set_other in Hg by congruence.
    unfold subconfigs, get_or_raise in Hs.
    change "_MainBase__subconfigs" with names_key in Hs.
    destruct (getattr r names_key) as [a|]; [|discriminate].
    inversion Hg; subst subs. cbv beta iota delta [bind] in Hs.
    destruct a; try discriminate. inversion Hs; subst l0.
    change "_MainBase__subconfigs" with names_key in H.
    destruct (IH _ (l ++ [key])%list H) as [N F].
    { unfold subconfigs, get_or_raise.
      change "_MainBase__subconfigs" with names_key.
      now rewrite RootFacts.root_get_set_same. }
    split.
    + rewrite N. now rewrite <- app_assoc.
    + intros k Hk Hn. rewrite F by (simpl in Hk; tauto).
      rewrite RootFacts.root_get_set_other by exact Hn.
      apply RootFacts.root_get_set_other. simpl in Hk. intros E'. subst.
      tauto.
Qed.

Section Merge.
Variable foreign_dir : rattr -> list string.

Lemma override_one_at (r r' : root) (cfg : string) (b : bool)
    (arg : string) (val : value) :
  override_one foreign_dir r cfg b arg val = Ok r' ->
  forall k, k <> cfg -> getattr r' k = getattr r k.
Proof.
  intros H k Hk.
  assert (E : exists o', r' = update_obj r cfg o').
  { unfold override_one in H.
    apply MonadFacts.bind_ok in H as [subcfg [Hg H]].
    destruct b.
    - destruct (negb _); [discriminate|].
      apply MonadFacts.bind_ok in H as [v [_ H]].
      apply MonadFacts.bind_ok in H as [o [Ho H]].
      apply MonadFacts.bind_ok in H as [o' [_ H]].
      inversion H. eauto.
    - apply MonadFacts.bind_ok in H as [o [Ho H]].
      apply MonadFacts.bind_ok in H as [o1 [_ H]].
      apply MonadFacts.bind_ok in H as [o' [_ H]].
      inversion H. eauto. }
  destruct E as [o' ->]. unfold update_obj.
  now apply RootFacts.root_get_set_other.
Qed.

Lemma override_items_at (r r' : root) (cfg : string) (b : bool)
    (items : list (string * value)) :
  override_items foreign_dir r cfg b items = Ok r' ->
  forall k, k <> cfg -> getattr r' k = getattr r k.
Proof.
  revert r. induction items as [|[a v] items IH]; intros r H k Hk.
  - now inversion H.
  - cbn [override_items] in H.
    apply MonadFacts.bind_ok in H as [r1 [H1 H]].
    rewrite (IH r1 H k Hk). eapply override_one_at; eauto.
Qed.

Lemma filebased_at (r r' : root) (config : list (string * value))
    (b : bool) :
  override_with_filebased_args foreign_dir r config b = Ok r' ->
  forall k, ~ In k (dict_keys config) -> getattr r' k = getattr r k.
Proof.
  revert r. induction config as [|[c v] config IH]; intros r H k Hk.
  - now inversion H.
  - cbn [override_with_filebased_args] in H.
    apply MonadFacts.bind_ok in H as [r1 [H1 H]].
    simpl in Hk. rewrite (IH r1 H k) by tauto.
    unfold override_individual_subconfig in H1.
    destruct v; try discriminate.
    eapply override_items_at; eauto.
Qed.

Variable fs : string -> option value.

(** What the indirection does to the root. *)
Lemma load_checkpoint_spec (r r' : root) (subs : list string) :
  load_checkpoint_config_if_indicated fs foreign_dir r = Ok r' ->
  subconfigs r = Ok subs ->
  (indicated subs = false /\ r' = r) \/
  (indicated subs = true /\
   exists keys,
     subconfigs r' = Ok (subs ++ keys)%list /\
     forall k, ~ In k keys -> k <> names_key -> k <> "_MainBase__eval" ->
               getattr r' k = getattr r k).
Proof.
  intros H Hs. unfold load_checkpoint_config_if_indicated in H.
  rewrite Hs in H. cbv beta iota delta [bind] in H.
  destruct (indicated subs); [right | left; now inversion H].
  split; [reflexivity|].
  apply MonadFacts.bind_ok in H as [subcfg [_ H]].
  apply MonadFacts.bind_ok in H as [o [_ H]].
  apply MonadFacts.bind_ok in H as [cp [_ H]].
  destruct cp as [[]| |]; try discriminate.
  apply MonadFacts.bind_ok in H as [c1 [_ H]].
  apply MonadFacts.bind_ok in H as [config [_ H]].
  apply MonadFacts.bind_ok in H as [r1 [H1 H]].
  apply MonadFacts.bind_ok in H as [u [_ H]].
  apply MonadFacts.bind_ok in H as [r2 [H2 H]].
  destruct (attach_spec r r1 (dict_keys config) subs H1 Hs) as [N F].
  pose proof (FrameFacts.filebased_stable foreign_dir _ r1 r2 config false
                (names_stable _) H2 N) as N2.
  apply (RootFacts.setattr_ok r2 r' "_MainBase__eval" _ eq_refl) in H.
  subst r'. exists (dict_keys config). split.
  - unfold subconfigs, get_or_raise in *.
    now rewrite RootFacts.root_get_set_other by discriminate.
  - intros k Hk Hn He.
    rewrite RootFacts.root_get_set_other by exact He.
    rewrite (filebased_at r1 r2 config false H2 k Hk).
    now apply F.
Qed.

End Merge.

End CheckpointFacts.

(** ** The last token *)

Module PrecedenceFacts.
Import MainBase.

Lemma remove_first_last (x t : string) (l : list string) :
  t <> x ->
  Str.remove_first x (l ++ [t])
  = option_map (fun l' => (l' ++ [t])%list) (Str.remove_first x l).
Proof.
  intros Ht. induction l as [|y l IH].
  - simpl. apply String.eqb_neq in Ht. now rewrite Ht.
  - cbn [app Str.remove_first]. destruct (String.eqb y x); [reflexivity|].
    rewrite IH. now destruct (Str.remove_first x l).
Qed.

(** The help display keeps a last token that is not a help token. *)
Lemma display_help_last (r : root) (l args : list string) (t : string) :
  t <> "--h" -> t <> "--help" ->
  snd (display_help r (l ++ [t])) = Ok args ->
  exists l', args = (l' ++ [t])%list.
Proof.
  intros H1 H2. unfold display_help.
  destruct (_ || _).
  - rewrite MonadFacts.snd_io_bind, MonadFacts.snd_lift. intros H.
    apply MonadFacts.bind_ok in H as [args' [Hr H]].
    rewrite MonadFacts.snd_io_bind in H.
    apply MonadFacts.bind_ok in H as [u [_ H]].
    cbn in H. inversion H; subst args'. clear H.
    unfold remove_help in Hr.
    rewrite (remove_first_last "--h" t l H1) in Hr.
    destruct (Str.remove_first "--h" l) as [l'|].
    + inversion Hr. eauto.
    + cbn [option_map] in Hr.
      rewrite (remove_first_last "--help" t l H2) in Hr.
      destruct (Str.remove_first "--help" l) as [l'|]; [|discriminate].
      inversion Hr. eauto.
  - intros H. cbn in H. inversion H. eauto.
Qed.

Lemma dotted_not_help (sc arg val h : string) :
  Str.contains "=" h = false -> MainBase.dotted sc arg val <> h.
Proof.
  intros Hh E. pose proof (TokenFacts.dotted_contains_eq sc arg val) as C.
  rewrite E in C. congruence.
Qed.

(** A successful coercion and validation, read backwards. *)
Lemma validate_ok (o : obj) (arg : string) (raw v : value) :
  validate_arg (RObj o) arg raw = Ok v ->
  exists t validation,
    BaseConfig.descriptor o arg = Some (EDesc t validation) /\
    construct t raw = Some v /\
    MainBase.check validation v = Ok v.
Proof.
  unfold validate_arg. cbn [as_obj]. cbv beta iota delta [bind].
  unfold BaseConfig.get_or_raise, BaseConfig.descriptor.
  destruct (BaseConfig.getattr o "arg_dict") as [ad|]; [|discriminate].
  unfold attr_getitem.
  destruct ad as [[]|d|]; try discriminate.
  - destruct (dict_get arg d) as [x|]; [|discriminate].
    destruct (value_getitem x "type"); discriminate.
  - destruct (dict_get arg d) as [[t validation|x]|]; try discriminate.
    + destruct (construct t raw) as [v'|] eqn:C; [|discriminate].
      intros H. exists t, validation.
      assert (E : v' = v).
      { destruct validation as [p|]; [destruct (p v')|]; now inversion H. }
      subst v'. split; [reflexivity|]. split; [exact C|].
      unfold MainBase.check. exact H.
    + destruct (value_getitem x "type"); discriminate.
Qed.

Section Token.
Variable fs : string -> option value.
Variable foreign_dir : rattr -> list string.

(** A dotted token that is applied: what it leaves in its subconfig. *)
Lemma token_applied (r r' : root) (sc arg val : string) :
  MainBase.ident sc -> MainBase.ident arg ->
  BaseConfig.runtime_slot arg = false ->
  override_token fs foreign_dir r (MainBase.dotted sc arg val) = Ok r' ->
  exists o t validation v,
    getattr r sc = Some (RObj o) /\
    BaseConfig.descriptor o arg = Some (EDesc t validation) /\
    construct t (VStr val) = Some v /\
    MainBase.check validation v = Ok v /\
    r' = update_obj r sc (dict_set arg (AVal v) o).
Proof.
  intros Hsc Harg Hslot.
  rewrite (TokenFacts.override_token_dotted fs foreign_dir r sc arg val
             Hsc Harg).
  intros H.
  apply MonadFacts.bind_ok in H as [subcfg [Hg H]].
  destruct (negb _); [discriminate|].
  apply MonadFacts.bind_ok in H as [v [Hv H]].
  apply MonadFacts.bind_ok in H as [o [Ho H]].
  apply MonadFacts.bind_ok in H as [o' [Hs H]].
  destruct subcfg; try discriminate. inversion Ho; subst o0.
  destruct (validate_ok o arg (VStr val) v Hv) as [t [validation [D [C K]]]].
  exists o, t, validation, v.
  split; [eapply FrameFacts.get_obj; eauto|].
  repeat (split; [assumption|]).
  rewrite <- (RootFacts.obj_setattr_ok o o' arg v Hslot Hs).
  now inversion H.
Qed.

End Token.

Lemma indicated_inv (subs : list string) :
  indicated subs = true -> subs = ["evaluation"].
Proof.
  unfold indicated. destruct subs as [|s [|s' subs]]; try discriminate.
  cbn [List.length Nat.eqb andb]. intros H.
  apply String.eqb_eq in H. now subst.
Qed.

Lemma resolved_same (r r' : root) (sc arg : string) :
  getattr r' sc = getattr r sc -> resolved r' sc arg = resolved r sc arg.
Proof. unfold resolved. now intros ->. Qed.

End PrecedenceFacts.

Module TailFacts.
Import MainBase.

Section Tail.
Variable fs : string -> option value.
Variable foreign_dir : rattr -> list string.

(** From the end of the override step to the end of [build], the
    arguments of a declared subconfig keep their values. *)
Lemma tail_preserves (r2 r3 r4 r5 r' : root) (x : rattr)
    (subs : list string) (sc a : string) (o : obj) :
  load_checkpoint_config_if_indicated fs foreign_dir r2 = Ok r3 ->
  freeze_configs r3 = Ok r4 ->
  setattr r4 "save_dir" x = Ok r5 ->
  setattr r5 "frozen" (RVal (VBool true)) = Ok r' ->
  subconfigs r2 = Ok subs -> In sc subs ->
  getattr r2 sc = Some (RObj o) ->
  sc <> "frozen" -> sc <> "save_dir" -> a <> "frozen" ->
  resolved r' sc a = resolved r2 sc a.
Proof.
  intros H3 H4 H5 H6 Hs Hin Hg N1 N2 Na.
  apply (RootFacts.setattr_ok r5 r' "frozen" _ eq_refl) in H6. subst r'.
  apply (RootFacts.setattr_ok r4 r5 "save_dir" _ eq_refl) in H5. subst r5.
  rewrite !RootFacts.resolved_set_other by assumption.
  unfold freeze_configs in H4.
  apply MonadFacts.bind_ok in H4 as [names [Hn H4]].
  rewrite (FreezeEach.freeze_each_resolved r3 r4 names sc a Na H4).
  apply PrecedenceFacts.resolved_same.
  destruct (CheckpointFacts.load_checkpoint_spec foreign_dir fs r2 r3 subs
              H3 Hs) as [[_ ->] | [Hi [keys [Hk F]]]]; [reflexivity|].
  apply PrecedenceFacts.indicated_inv in Hi. subst subs.
  destruct Hin as [<- | []].
  rewrite Hk in Hn. inversion Hn; subst names.
  apply FreezeEach.freeze_each_nodup in H4.
  cbn [app] in H4. inversion H4; subst.
  apply F; [assumption | discriminate | discriminate].
Qed.

End Tail.

Lemma descriptor_same (o1 o2 : obj) (a : string) :
  BaseConfig.getattr o1 "arg_dict" = BaseConfig.getattr o2 "arg_dict" ->
  BaseConfig.descriptor o1 a = BaseConfig.descriptor o2 a.
Proof. unfold BaseConfig.descriptor. now intros ->. Qed.

Lemma keep_save_dir (arg val : string) :
  MainBase.keep (MainBase.dotted "save_dir" arg val) = false.
Proof. reflexivity. Qed.

End TailFacts.

(** ** Later tokens for other subconfigs *)

Module LaterTokens.
Import MainBase.

Section Later.
Variable fs : string -> option value.
Variable foreign_dir : rattr -> list string.

(** A token leaves alone every subconfig but its target. *)
Lemma override_token_other (r r' : root) (tok sc : string) :
  override_token fs foreign_dir r tok = Ok r' ->
  target tok <> Some sc -> getattr r' sc = getattr r sc.
Proof.
  unfold override_token, target.
  destruct (Str.split_once "=" tok) as [[name val]|]; [|discriminate].
  destruct (String.eqb name "config"); [now intros H; inversion H|].
  destruct (negb (Str.contains "." name)).
  - intros H Ht.
    apply MonadFacts.bind_ok in H as [subs [_ H]].
    apply MonadFacts.bind_ok in H as [known [_ H]].
    destruct known; [|discriminate].
    apply MonadFacts.bind_ok in H as [subconfig [_ H]].
    unfold override_individual_subconfig in H.
    destruct subconfig; try discriminate.
    apply (CheckpointFacts.override_items_at foreign_dir r r' name true d H).
    congruence.
  - destruct (Str.split "." name) as [|cfg [|a [|]]]; try discriminate.
    intros H Ht.
    apply MonadFacts.bind_ok in H as [subcfg [_ H]].
    destruct (negb _); [discriminate|].
    apply MonadFacts.bind_ok in H as [v [_ H]].
    apply MonadFacts.bind_ok in H as [o [_ H]].
    apply MonadFacts.bind_ok in H as [o' [_ H]].
    inversion H. unfold update_obj.
    apply RootFacts.root_get_set_other. congruence.
Qed.

Lemma cmdline_other (r r' : root) (l : list string) (sc : string) :
  override_with_cmdline_args fs foreign_dir r l = Ok r' ->
  (forall tok, In tok l -> target tok <> Some sc) ->
  getattr r' sc = getattr r sc.
Proof.
  revert r. induction l as [|tok l IH]; intros r H Hl.
  - now inversion H.
  - cbn [override_with_cmdline_args] in H.
    apply MonadFacts.bind_ok in H as [r1 [H1 H]].
    rewrite (IH r1 H) by (intros t Ht; apply Hl; now right).
    apply (override_token_other r r1 tok sc H1). apply Hl. now left.
Qed.

End Later.

Lemma remove_first_incl (x : string) (l l' : list string) :
  Str.remove_first x l = Some l' -> incl l' l.
Proof.
  revert l'. induction l as [|y l IH]; intros l' H; [discriminate|].
  cbn [Str.remove_first] in H. destruct (String.eqb y x).
  - inversion H; subst. now apply incl_tl.
  - destruct (Str.remove_first x l) as [l0|]; [|discriminate].
    inversion H; subst. apply incl_cons; [now left|].
    apply incl_tl. now apply IH.
Qed.

(** Removing an element keeps a token that is not that element, with
    nothing new behind it. *)
Lemma remove_first_around (x t : string) (l1 l2 l : list string) :
  t <> x -> Str.remove_first x (l1 ++ t :: l2) = Some l ->
  exists l1' l2', l = (l1' ++ t :: l2')%list /\ incl l2' l2.
Proof.
  intros Ht. revert l. induction l1 as [|y l1 IH]; intros l H.
  - cbn [app Str.remove_first] in H.
    apply String.eqb_neq in Ht. rewrite Ht in H.
    destruct (Str.remove_first x l2) as [l2'|] eqn:E; [|discriminate].
    inversion H; subst. exists [], l2'. split; [reflexivity|].
    eapply remove_first_incl; eauto.
  - cbn [app Str.remove_first] in H. destruct (String.eqb y x).
    + inversion H; subst. exists l1, l2. split; [reflexivity|].
      apply incl_refl.
    + destruct (Str.remove_first x (l1 ++ t :: l2)) as [l0|]; [|discriminate].
      inversion H; subst.
      destruct (IH l0 eq_refl) as [l1' [l2' [-> Hi]]].
      exists (y :: l1'), l2'. auto.
Qed.

(** The help display keeps a token that is not a help token, with
    nothing new behind it. *)
Lemma display_help_around (r : root) (l1 l2 args : list string)
    (t : string) :
  t <> "--h" -> t <> "--help" ->
  snd (display_help r (l1 ++ t :: l2)) = Ok args ->
  exists l1' l2', args = (l1' ++ t :: l2')%list /\ incl l2' l2.
Proof.
  intros H1 H2. unfold display_help.
  destruct (_ || _).
  - rewrite MonadFacts.snd_io_bind, MonadFacts.snd_lift. intros H.
    apply MonadFacts.bind_ok in H as [args' [Hr H]].
    rewrite MonadFacts.snd_io_bind in H.
    apply MonadFacts.bind_ok in H as [u [_ H]].
    cbn in H. inversion H; subst args'. clear H.
    unfold remove_help in Hr.
    destruct (Str.remove_first "--h" (l1 ++ t :: l2)) as [l|] eqn:E.
    + inversion Hr; subst.
      exact (remove_first_around "--h" t l1 l2 _ H1 E).
    + destruct (Str.remove_first "--help" (l1 ++ t :: l2)) as [l|] eqn:E';
        [|discriminate].
      inversion Hr; subst.
      exact (remove_first_around "--help" t l1 l2 _ H2 E').
  - intros H. cbn in H. inversion H. exists l1, l2.
    split; [reflexivity | apply incl_refl].
Qed.

End LaterTokens.

(** ** The part of the freeze invariant that holds *)

Module FrozenSubconfigs.
Import MainBase.

Lemma freeze_each_other (r r' : root) (cfgs : list string) (k : string) :
  freeze_each r cfgs = Ok r' -> ~ In k cfgs -> getattr r' k = getattr r k.
Proof.
  revert r. induction cfgs as [|cfg cfgs IH]; intros r H Hk.
  - now inversion H.
  - apply FreezeEach.freeze_step in H as [o [Hg H]].
    simpl in Hk. rewrite (IH _ H) by tauto.
    unfold update_obj. apply RootFacts.root_get_set_other.
    intros E. subst. tauto.
Qed.

Lemma freeze_each_stable (P : root -> Prop) (r r' : root)
    (cfgs : list string) :
  stable P -> freeze_each r cfgs = Ok r' -> P r -> P r'.
Proof.
  intros S. revert r. induction cfgs as [|cfg cfgs IH]; intros r H HP.
  - inversion H; subst; exact HP.
  - apply FreezeEach.freeze_step in H as [o [Hg H]].
    apply (IH _ H). eapply S; [|exact HP].
    right. exists cfg, o. eauto.
Qed.

(** Every subconfig that [__freeze_configs] went through is frozen. *)
Lemma freeze_each_frozen (r r' : root) (cfgs : list string) (cfg : string) :
  freeze_each r cfgs = Ok r' -> In cfg cfgs ->
  exists o, getattr r' cfg = Some (RObj o) /\ BaseConfig.is_frozen o = true.
Proof.
  revert r. induction cfgs as [|c cfgs IH]; intros r H Hin; [destruct Hin|].
  pose proof (FreezeEach.freeze_each_nodup r r' (c :: cfgs) H) as ND.
  apply FreezeEach.freeze_step in H as [o [Hg H]].
  destruct (String.eqb c cfg) eqn:E.
  - apply String.eqb_eq in E. subst c.
    exists (dict_set "frozen" (AVal (VBool true)) o).
    split; [|apply FreezeEach.frozen_after].
    rewrite (freeze_each_other _ r' cfgs cfg H) by (now inversion ND).
    unfold update_obj. apply RootFacts.root_get_set_same.
  - apply String.eqb_neq in E. destruct Hin as [Hin | Hin]; [contradiction|].
    eapply IH; eauto.
Qed.

Section Build.
Variable fs : string -> option value.
Variable foreign_dir : rattr -> list string.
Variable today : string.
Variable allocate : string -> string -> string.

(** After a [build] that returns, every subconfig of the root (other
    than one whose name the root itself assigns at the end) is frozen, and
    every assignment to one of its attributes raises. *)
Lemma build_freezes_subconfigs (r r' : root) (argv names : list string)
    (dont_save : bool) (cfg : string) :
  snd (build fs foreign_dir today allocate r argv dont_save) = Ok r' ->
  subconfigs r' = Ok names -> In cfg names ->
  cfg <> "save_dir" -> cfg <> "frozen" ->
  exists o,
    getattr r' cfg = Some (RObj o) /\
    BaseConfig.is_frozen o = true /\
    forall key v, exists e, BaseConfig.setattr o key v = Err e.
Proof.
  intros H Hn Hin N1 N2.
  apply BuildFacts.build_inv in H
    as [r0 [r1 [args [r2 [r3 [r4 [r5 [x
         [_ [_ [_ [_ [_ [Ef [Esd Efz]]]]]]]]]]]]]]].
  apply (RootFacts.setattr_ok r5 r' "frozen" _ eq_refl) in Efz. subst r'.
  apply (RootFacts.setattr_ok r4 r5 "save_dir" _ eq_refl) in Esd. subst r5.
  unfold freeze_configs in Ef.
  apply MonadFacts.bind_ok in Ef as [names3 [H3 Ef]].
  assert (H4 : subconfigs r4 = Ok names3)
    by exact (freeze_each_stable _ r3 r4 names3
                (CheckpointFacts.names_stable names3) Ef H3).
  assert (E : names = names3).
  { unfold subconfigs, get_or_raise in Hn, H4.
    rewrite !RootFacts.root_get_set_other in Hn by discriminate.
    rewrite H4 in Hn. now inversion Hn. }
  subst names3.
  destruct (freeze_each_frozen r3 r4 names cfg Ef Hin) as [o [Hg Hf]].
  exists o. split.
  - now rewrite !RootFacts.root_get_set_other by assumption.
  - split; [exact Hf|]. intros key v.
    now apply FreezeEach.frozen_rejects.
Qed.

End Build.

End FrozenSubconfigs.

(** ** The guard and the path of the checkpoint indirection *)

Module IndirectionFacts.
Import MainBase.

(** The indirection runs exactly for the single subconfig [evaluation]. *)
Lemma indicated_iff (subs : list string) :
  indicated subs = true <-> subs = ["evaluation"].
Proof.
  split; [apply PrecedenceFacts.indicated_inv | now intros ->].
Qed.

Lemma before_last_dir (c : ascii) (d name : string) :
  Str.contains (String c "") name = false ->
  Str.before_last c (d ++ String c name) = d.
Proof.
  intros Hn. induction d as [|a d IH].
  - cbn [append Str.before_last]. rewrite Hn. now rewrite Ascii.eqb_refl.
  - change (String a d ++ String c name) with (String a (d ++ String c name)).
    cbn [Str.before_last]. rewrite StrFacts.contains_sep. now rewrite IH.
Qed.

(** For a checkpoint inside a directory the derived path is the sibling
    [config.json]. *)
Lemma checkpoint_config_path_sibling (d name : string) :
  d <> "" -> String.eqb (Str.last_n 1 d) "/" = false ->
  Str.contains "/" name = false ->
  checkpoint_config_path (d ++ "/" ++ name) = d ++ "/config.json".
Proof.
  intros Hd Hl Hn. unfold checkpoint_config_path.
  change ("/" ++ name) with (String "/" name).
  rewrite (before_last_dir "/" d name Hn).
  unfold Str.path_join. destruct d; [contradiction|]. now rewrite Hl.
Qed.

End IndirectionFacts.

(** ** Later tokens that leave an argument alone *)

Module RivalFacts.
Import MainBase.

Lemma keeps_refl (arg : string) (o : obj) : Observe.keeps arg o o.
Proof. split; reflexivity. Qed.

Lemma keeps_trans (arg : string) (o1 o2 o3 : obj) :
  Observe.keeps arg o1 o2 -> Observe.keeps arg o2 o3 -> Observe.keeps arg o1 o3.
Proof. intros [A B] [C D]. split; congruence. Qed.

Lemma unsafe_false (arg k : string) :
  Observe.unsafe arg k = false ->
  k <> arg /\ k <> "arg_dict" /\ k <> "__dict__".
Proof.
  unfold Observe.unsafe. intros H.
  apply orb_false_iff in H as [H H3].
  apply orb_false_iff in H as [H1 H2].
  repeat split; now apply String.eqb_neq.
Qed.

(** An accepted assignment of another name keeps the argument. *)
Lemma setattr_keeps (o o' : obj) (arg k : string) (v : value) :
  Observe.unsafe arg k = false ->
  BaseConfig.setattr o k v = Ok o' -> Observe.keeps arg o o'.
Proof.
  intros U H. apply unsafe_false in U as [N1 [N2 N3]].
  assert (E : BaseConfig.object_setattr o k v = Ok o').
  { unfold BaseConfig.setattr in H.
    apply MonadFacts.bind_ok in H as [reserved [_ H]].
    apply MonadFacts.bind_ok in H as [is_res [_ H]].
    apply MonadFacts.bind_ok in H as [locked [_ H]].
    destruct (_ && _ && _); [discriminate|].
    apply MonadFacts.bind_ok in H as [frozen [_ H]].
    destruct (attr_truthy frozen); [discriminate|].
    destruct (_ && _); [discriminate|]. exact H. }
  unfold BaseConfig.object_setattr in E.
  destruct (String.eqb k "__class__"); [discriminate|].
  destruct (String.eqb k "__weakref__"); [discriminate|].
  apply String.eqb_neq in N3. rewrite N3 in E.
  inversion E. split; apply StoreFacts.getattr_set_other; congruence.
Qed.

Section Rival.
Variable fs : string -> option value.
Variable foreign_dir : rattr -> list string.

Lemma override_items_keeps (r r' : root) (sc arg : string) (o : obj)
    (items : list (string * value)) :
  override_items foreign_dir r sc true items = Ok r' ->
  existsb (Observe.unsafe arg) (dict_keys items) = false ->
  getattr r sc = Some (RObj o) ->
  exists o', getattr r' sc = Some (RObj o') /\ Observe.keeps arg o o'.
Proof.
  revert r o. induction items as [|[k v] items IH]; intros r o H U G.
  - inversion H; subst. exists o. split; [exact G | apply keeps_refl].
  - cbn [dict_keys map fst existsb] in U.
    apply orb_false_iff in U as [Uk U].
    cbn [override_items] in H.
    apply MonadFacts.bind_ok in H as [r1 [H1 H]].
    unfold override_one in H1.
    apply MonadFacts.bind_ok in H1 as [subcfg [Hg H1]].
    destruct (negb _); [discriminate|].
    apply MonadFacts.bind_ok in H1 as [v' [_ H1]].
    apply MonadFacts.bind_ok in H1 as [o0 [Ho H1]].
    apply MonadFacts.bind_ok in H1 as [o1 [Hs H1]].
    pose proof (FrameFacts.get_obj r sc subcfg o0 Hg Ho) as G0.
    rewrite G in G0. inversion G0; subst o0. inversion H1; subst r1.
    destruct (IH (update_obj r sc o1) o1 H U) as [o' [G' K]].
    { unfold update_obj. apply RootFacts.root_get_set_same. }
    exists o'. split; [exact G'|].
    eapply keeps_trans; [|exact K].
    eapply setattr_keeps; eauto.
Qed.

(** A token that is no rival keeps the argument of the subconfig. *)
Lemma token_keeps (r r' : root) (tok sc arg : string) (o : obj) :
  override_token fs foreign_dir r tok = Ok r' ->
  Observe.rival fs sc arg tok = false ->
  getattr r sc = Some (RObj o) ->
  exists o', getattr r' sc = Some (RObj o') /\ Observe.keeps arg o o'.
Proof.
  unfold override_token, Observe.rival.
  destruct (Str.split_once "=" tok) as [[name val]|]; [|discriminate].
  destruct (String.eqb name "config").
  { intros H _ G. inversion H; subst. exists o.
    split; [exact G | apply keeps_refl]. }
  destruct (negb (Str.contains "." name)).
  - intros H U G.
    apply MonadFacts.bind_ok in H as [subs [_ H]].
    apply MonadFacts.bind_ok in H as [known [_ H]].
    destruct known; [|discriminate].
    apply MonadFacts.bind_ok in H as [subconfig [Hl H]].
    unfold override_individual_subconfig in H.
    destruct subconfig as [| | | | | |items]; try discriminate.
    destruct (String.eqb name sc) eqn:E.
    + apply String.eqb_eq in E. subst name.
      unfold load_json in Hl. destruct (fs val) as [j|]; [|discriminate].
      inversion Hl; subst j. cbn [andb] in U.
      exact (override_items_keeps r r' sc arg o items H U G).
    + apply String.eqb_neq in E.
      exists o. split; [|apply keeps_refl].
      rewrite (CheckpointFacts.override_items_at foreign_dir r r' name true
                 items H sc) by congruence.
      exact G.
  - destruct (Str.split "." name) as [|cfg [|a [|]]]; try discriminate.
    intros H U G.
    apply MonadFacts.bind_ok in H as [subcfg [Hg H]].
    destruct (negb _); [discriminate|].
    apply MonadFacts.bind_ok in H as [v [_ H]].
    apply MonadFacts.bind_ok in H as [o0 [Ho H]].
    apply MonadFacts.bind_ok in H as [o1 [Hs H]].
    inversion H; subst r'. unfold update_obj.
    destruct (String.eqb cfg sc) eqn:E.
    + apply String.eqb_eq in E. subst cfg. cbn [andb] in U.
      pose proof (FrameFacts.get_obj r sc subcfg o0 Hg Ho) as G0.
      rewrite G in G0. inversion G0; subst o0.
      exists o1. split; [apply RootFacts.root_get_set_same|].
      eapply setattr_keeps; eauto.
    + apply String.eqb_neq in E. exists o.
      split; [|apply keeps_refl].
      rewrite RootFacts.root_get_set_other by congruence. exact G.
Qed.

Lemma cmdline_keeps (r r' : root) (l : list string) (sc arg : string)
    (o : obj) :
  override_with_cmdline_args fs foreign_dir r l = Ok r' ->
  (forall tok, In tok l -> Observe.rival fs sc arg tok = false) ->
  getattr r sc = Some (RObj o) ->
  exists o', getattr r' sc = Some (RObj o') /\ Observe.keeps arg o o'.
Proof.
  revert r o. induction l as [|tok l IH]; intros r o H Hl G.
  - inversion H; subst. exists o. split; [exact G | apply keeps_refl].
  - cbn [override_with_cmdline_args] in H.
    apply MonadFacts.bind_ok in H as [r1 [H1 H]].
    destruct (token_keeps r r1 tok sc arg o H1 (Hl tok (or_introl eq_refl)) G)
      as [o1 [G1 K1]].
    destruct (IH r1 o1 H (fun t Ht => Hl t (or_intror Ht)) G1)
      as [o' [G' K]].
    exists o'. split; [exact G' | eapply keeps_trans; eauto].
Qed.

End Rival.

(** A token for another subconfig is no rival. *)
Lemma other_target_no_rival (fs : string -> option value)
    (sc arg tok : string) :
  target tok <> Some sc -> Observe.rival fs sc arg tok = false.
Proof.
  unfold target, Observe.rival.
  destruct (Str.split_once "=" tok) as [[name val]|]; [|reflexivity].
  destruct (String.eqb name "config"); [reflexivity|].
  destruct (negb (Str.contains "." name)).
  - intros H. destruct (String.eqb name sc) eqn:E; [|reflexivity].
    apply String.eqb_eq in E. congruence.
  - destruct (Str.split "." name) as [|cfg [|a [|]]]; try reflexivity.
    intros H. destruct (String.eqb cfg sc) eqn:E; [|reflexivity].
    apply String.eqb_eq in E. congruence.
Qed.

End RivalFacts.

(** ** Dictionaries with distinct keys *)

Module LoadFacts.

Lemma dict_set_fresh {V : Type} (k : string) (v : V) (d : list (string * V)) :
  ~ In k (dict_keys d) -> dict_set k v d = (d ++ [(k, v)])%list.
Proof.
  induction d as [|[k' v'] d IH]; intro H; [reflexivity|].
  cbn [dict_set]. destruct (String.eqb k' k) eqn:E.
  - apply String.eqb_eq in E. exfalso. apply H. left. exact E.
  - cbn [app]. f_equal. apply IH. intro Hin. apply H. right. exact Hin.
Qed.

Lemma fold_fresh {V W : Type} (f : V -> W) (d : list (string * V))
    (acc : list (string * W)) :
  NoDup (dict_keys acc ++ dict_keys d) ->
  fold_left (fun new_config kv => dict_set (fst kv) (f (snd kv)) new_config)
    d acc
  = (acc ++ map (fun kv => (fst kv, f (snd kv))) d)%list.
Proof.
  revert acc; induction d as [|[k v] d IH]; intros acc H.
  - cbn. now rewrite app_nil_r.
  - cbn [fold_left map fst snd].
    assert (F : ~ In k (dict_keys acc)).
    { cbn [dict_keys map fst] in H. apply NoDup_remove_2 in H.
      intro Hin. apply H. apply in_or_app. left. exact Hin. }
    rewrite (dict_set_fresh _ _ _ F). rewrite IH.
    + rewrite <- app_assoc. reflexivity.
    + unfold dict_keys in *. rewrite map_app. cbn [map fst].
      rewrite <- app_assoc. exact H.
Qed.


End LoadFacts.

(** ** The unvalidated override of the checkpoint indirection *)

Module MergeFacts.

Section Merge.
Variable foreign_dir : rattr -> list string.



End Merge.

End MergeFacts.

(** ** What the checkpoint indirection leaves in an attached subconfig *)

Module AttachFacts.
Import MainBase.



Section Merge.
Variable foreign_dir : rattr -> list string.


End Merge.


Section Indirection.
Variable fs : string -> option value.
Variable foreign_dir : rattr -> list string.


End Indirection.

End AttachFacts.

(** * The claims *)

(** C1 (as amended).  Precedence law: let an argument with a name that is
    neither reserved nor a slot of the runtime belong to a declared
    subconfig (not named [frozen]), and let the command line hold the token
    [subconfig.argument=value], a token that step 1 leaves in the working
    list (it contains neither [save_dir] nor [experiment_name]), with no
    later token that assigns the same argument again (or the table
    [arg_dict] or the instance dictionary of that subconfig), by itself or
    through the file it names.  Then, whatever the defaults, whatever a
    file-based config assigns and whatever the other tokens do -- later
    tokens for other arguments of the same subconfig included -- after a
    [build] that returns the resolved value of the argument is the
    command-line value, converted by the declared type and accepted by the
    declared validation. *)
Theorem C1_command_line_precedence (fs : string -> option value)
    (foreign_dir : rattr -> list string) (today : string)
    (allocate : string -> string -> string)
    (r r0 r1 r' : root) (subs pre post : list string) (sc arg val : string)
    (dont_save : bool) :
  MainBase.setattr r "_MainBase__dont_save" (RVal (VBool dont_save)) = Ok r0 ->
  MainBase.set_defaults r0 = Ok r1 ->
  MainBase.subconfigs r1 = Ok subs ->
  In sc subs -> sc <> "frozen" ->
  MainBase.ident sc -> MainBase.ident arg ->
  MainBase.keep (MainBase.dotted sc arg val) = true ->
  Str.mem arg BaseConfig.reserved_attributes = false ->
  BaseConfig.runtime_slot arg = false ->
  (forall tok, In tok post -> Observe.rival fs sc arg tok = false) ->
  snd (MainBase.build fs foreign_dir today allocate r
         (pre ++ MainBase.dotted sc arg val :: post) dont_save) = Ok r' ->
  exists o t validation v,
    MainBase.getattr r' sc = Some (RObj o) /\
    BaseConfig.descriptor o arg = Some (EDesc t validation) /\
    construct t (VStr val) = Some v /\
    MainBase.check validation v = Ok v /\
    MainBase.resolved r' sc arg = Some (AVal v).
Proof.
  intros H0 H1 Hs Hin Nf Hsc Harg Hkeep Hres Hslot Hpost H.
  set (tok := MainBase.dotted sc arg val) in *.
  assert (Nsd : sc <> "save_dir").
  { intros E. subst sc. unfold tok in Hkeep.
    rewrite TailFacts.keep_save_dir in Hkeep. discriminate. }
  assert (Na : arg <> "frozen").
  { intros E. subst arg. discriminate. }
  assert (Nad : "arg_dict" <> arg).
  { intros E. subst arg. discriminate. }
  apply BuildFacts.build_inv in H
    as [r0' [r1' [args [r2 [r3 [r4 [r5 [x
         [E0 [E1 [Ed [Eo [Ec [Ef [Esd Efz]]]]]]]]]]]]]]].
  rewrite H0 in E0. inversion E0; subst r0'. clear E0.
  rewrite H1 in E1. inversion E1; subst r1'. clear E1.
  unfold MainBase.remaining in Ed. rewrite ScanFacts.step1_spec in Ed.
  cbn [fst] in Ed. rewrite filter_app in Ed. cbn [filter] in Ed.
  rewrite Hkeep in Ed.
  apply LaterTokens.display_help_around in Ed as [l1 [l2 [-> Hincl]]];
    try (apply PrecedenceFacts.dotted_not_help; reflexivity).
  assert (Hl2 : forall t, In t l2 -> Observe.rival fs sc arg t = false).
  { intros t Ht. apply Hpost. apply Hincl in Ht.
    now apply filter_In in Ht as [Ht _]. }
  rewrite OverrideFacts.override_defaults_result in Eo.
  apply MonadFacts.bind_ok in Eo as [ra [Efile Eo]].
  rewrite TokenFacts.cmdline_app in Eo.
  apply MonadFacts.bind_ok in Eo as [rb [Epre Eo]].
  cbn [MainBase.override_with_cmdline_args] in Eo.
  apply MonadFacts.bind_ok in Eo as [rt [Etok Elater]].
  destruct (PrecedenceFacts.token_applied fs foreign_dir rb rt sc arg val
              Hsc Harg Hslot Etok)
    as [o [t [validation [v [Hg [D [C [K ->]]]]]]]].
  assert (Sa : MainBase.subconfigs ra = Ok subs)
    by exact (FrameFacts.file_stage_stable fs foreign_dir _ r1 ra _
                (CheckpointFacts.names_stable subs) Efile Hs).
  assert (Sb : MainBase.subconfigs rb = Ok subs)
    by exact (FrameFacts.cmdline_stable fs foreign_dir _ ra rb _
                (CheckpointFacts.names_stable subs) Epre Sa).
  set (o2 := dict_set arg (AVal v) o) in *.
  set (rt := MainBase.update_obj rb sc o2) in *.
  assert (St : MainBase.subconfigs rt = Ok subs).
  { apply (CheckpointFacts.names_stable subs rb rt); [|exact Sb].
    right. exists sc, o, o2. auto. }
  assert (S2 : MainBase.subconfigs r2 = Ok subs)
    by exact (FrameFacts.cmdline_stable fs foreign_dir _ rt r2 _
                (CheckpointFacts.names_stable subs) Elater St).
  assert (Gt : MainBase.getattr rt sc = Some (RObj o2)).
  { unfold rt, MainBase.update_obj. apply RootFacts.root_get_set_same. }
  destruct (RivalFacts.cmdline_keeps fs foreign_dir rt r2 l2 sc arg o2
              Elater Hl2 Gt) as [o3 [G2 [Karg Kad]]].
  assert (T : forall a, a <> "frozen" ->
                        MainBase.resolved r' sc a = BaseConfig.getattr o3 a).
  { intros a Ha.
    rewrite (TailFacts.tail_preserves fs foreign_dir r2 r3 r4 r5 r' x subs
               sc a o3 Ec Ef Esd Efz S2 Hin G2 Nf Nsd Ha).
    unfold MainBase.resolved. now rewrite G2. }
  pose proof (T arg Na) as Targ.
  rewrite Karg in Targ.
  unfold o2 in Targ at 1. rewrite StoreFacts.getattr_set_same in Targ.
  pose proof (T "arg_dict" ltac:(discriminate)) as Tad.
  rewrite Kad in Tad.
  unfold o2 in Tad at 1.
  rewrite (StoreFacts.getattr_set_other o "arg_dict" arg _ Nad) in Tad.
  unfold MainBase.resolved in Targ, Tad.
  destruct (MainBase.getattr r' sc) as [[c|ofin|w|l|]|] eqn:G;
    try discriminate.
  exists ofin, t, validation, v.
  split; [reflexivity|].
  split; [rewrite (TailFacts.descriptor_same ofin o arg Tad); exact D|].
  split; [exact C|]. split; [exact K|].
  unfold MainBase.resolved. rewrite G. exact Targ.
Qed.

(** C1, as stated, fails: the default of [training.dataset_to_use] is
    ["default"], the file assigns ["rayleigh_dataset"] and the token
    [training.dataset_to_use=save_dir_set] a third value; the token
    contains [save_dir], step 1 takes it for the directory token, and the
    file value survives. *)
Lemma C1_counterexample :
  MainBase.resolved Example.main_r1 "training" "dataset_to_use"
  = Some (AVal (VStr "default")) /\
  match snd (MainBase.build Example.file_fs Example.no_dir Example.a_day
               Example.run_dir Example.main_root
               ["config=f.json"; "training.dataset_to_use=save_dir_set"]
               true) with
  | Ok r' => MainBase.resolved r' "training" "dataset_to_use"
             = Some (AVal (VStr "rayleigh_dataset"))
  | Err _ => False
  end /\
  VStr "save_dir_set" <> VStr "rayleigh_dataset".
Proof.
  split; [vm_compute; reflexivity|].
  split; [vm_compute; reflexivity|]. discriminate.
Qed.

(** C1 on the example schema: the file assigns [dataset_to_use], a
    token assigns it again, and tokens follow for another argument of
    [training], for a file of values of [training] and for other targets. *)
Lemma C1_witness :
  exists o t validation v,
    MainBase.getattr Example.built_later "training" = Some (RObj o) /\
    BaseConfig.descriptor o "dataset_to_use" = Some (EDesc t validation) /\
    construct t (VStr "cli_dataset") = Some v /\
    MainBase.check validation v = Ok v /\
    MainBase.resolved Example.built_later "training" "dataset_to_use"
    = Some (AVal v).
Proof.
  apply (C1_command_line_precedence Example.two_files Example.no_dir
           Example.a_day Example.run_dir Example.main_root Example.main_r0
           Example.main_r1 Example.built_later ["model"; "training"]
           ["config=f.json"]
           ["training.use_mlflow_logger=yes"; "training=t.json";
            "model.model_type=patch"; "save_dir=out"]
           "training" "dataset_to_use" "cli_dataset" true).
  - apply FreezeFacts.ok_default. vm_compute; reflexivity.
  - apply FreezeFacts.ok_default. vm_compute; reflexivity.
  - vm_compute; reflexivity.
  - right; left; reflexivity.
  - discriminate.
  - split; reflexivity.
  - split; reflexivity.
  - reflexivity.
  - reflexivity.
  - reflexivity.
  - intros tok [<- | [<- | [<- | [<- | []]]]]; vm_compute; reflexivity.
  - apply (FreezeFacts.ok_default (snd Example.build_later) []).
    vm_compute; reflexivity.
Defined.

Example C1_resolved_value :
  MainBase.resolved Example.built_main "training" "dataset_to_use"
  = Some (AVal (VStr "cli_dataset")).
Proof. vm_compute; reflexivity. Qed.

(** On that command line the later tokens are applied too. *)
Example C1_later_tokens_applied :
  MainBase.resolved Example.built_later "training" "dataset_to_use"
  = Some (AVal (VStr "cli_dataset")) /\
  MainBase.resolved Example.built_later "training" "use_mlflow_logger"
  = Some (AVal (VBool true)).
Proof. split; vm_compute; reflexivity. Qed.

(** The last of two tokens for the same argument is the one that holds. *)
Example C1_last_token_holds :
  match snd (MainBase.build Example.no_file Example.no_dir Example.a_day
               Example.run_dir Example.main_root
               ["training.dataset_to_use=first";
                "training.dataset_to_use=second"] true) with
  | Ok r' => MainBase.resolved r' "training" "dataset_to_use"
             = Some (AVal (VStr "second"))
  | Err _ => False
  end.
Proof. vm_compute; reflexivity. Qed.




(** C3, the part the code breaks.  After every [build] that returns, the
    root accepts the assignment of any attribute, new or old: [build] ends
    with [self.frozen = True], while the gate of the root reads the
    private attribute [__frozen], which nothing sets. *)
Theorem C3_root_not_frozen (fs : string -> option value)
    (foreign_dir : rattr -> list string) (today : string)
    (allocate : string -> string -> string)
    (r : root) (argv : list string) (dont_save : bool) (r' : root)
    (key : string) (v : rattr) :
  snd (MainBase.build fs foreign_dir today allocate r argv dont_save) = Ok r' ->
  MainBase.storable key = true ->
  MainBase.getattr r' "frozen" = Some (RVal (VBool true)) /\
  MainBase.setattr r' key v = Ok (dict_set key v r').
Proof.
  intros H Hk.
  apply BuildFacts.build_inv in H
    as [r0 [r1 [args [r2 [r3 [r4 [r5 [x [_ [_ [_ [_ [_ [_ [_ H]]]]]]]]]]]]]]].
  split.
  - rewrite (RootFacts.setattr_ok r5 r' "frozen" (RVal (VBool true))
               eq_refl H).
    apply RootFacts.root_get_set_same.
  - apply (FreezeFacts.gate_stays_open r5 r' "frozen" key
             (RVal (VBool true)) v eq_refl);
      [discriminate | exact H | exact Hk].
Qed.

(** C3 on the root with the subconfig [model]: after [build], the root
    takes the assignment [model = 5]. *)
Lemma C3_witness :
  is_ok (snd Example.build_model) = true /\
  MainBase.getattr Example.built_model "frozen" = Some (RVal (VBool true)) /\
  MainBase.setattr Example.built_model "model" (RVal (VInt 5))
  = Ok (dict_set "model" (RVal (VInt 5)) Example.built_model).
Proof.
  assert (E : is_ok (snd Example.build_model) = true)
    by (vm_compute; reflexivity).
  split; [exact E|].
  apply (C3_root_not_frozen Example.no_file Example.no_dir Example.a_day
           Example.run_dir Example.model_root [] true Example.built_model
           "model" (RVal (VInt 5))).
  - exact (FreezeFacts.ok_default (snd Example.build_model) [] E).
  - reflexivity.
Defined.

(** C4, where the code breaks it.  After an evaluation run has merged the
    checkpoint config, the subconfig [model] it attached holds
    [model_type], and the export of that subconfig shows it, but the export
    of the root lists [model] with no argument: the root walks [help_dict],
    which the merge leaves empty, while the merge records the names in
    [arg_dict]. *)
Theorem C4_export_misses_merged_arguments :
  is_ok (snd Example.build_eval) = true /\
  MainBase.subconfigs Example.built_eval = Ok ["evaluation"; "model"] /\
  MainBase.resolved Example.built_eval "model" "model_type"
  = Some (AVal (VStr "patch")) /\
  BaseConfig.to_dict Example.built_eval_model
  = Ok [("model_type", AVal (VStr "patch"))] /\
  MainBase.to_dict Example.built_eval
  = Ok [("evaluation",
         [("checkpoint", AVal (VStr "results/run/1/model.pt"))]);
        ("model", [])].
Proof. repeat split; vm_compute; reflexivity. Qed.

(** C5 (as amended).  For every subconfig instance and every assignment
    [key := v] through [__setattr__]: it fails when the instance is frozen,
    whatever the name (also [frozen] itself); it fails when the instance is
    locked and [key] is not yet an attribute; it fails with the
    reserved-name exception when the instance is locked and [key] is
    reserved, the name [frozen] being exempt from that test whatever the
    value assigned; in every other case the gate hands the assignment to
    [object.__setattr__], which stores the value under a name that is not
    a slot of the runtime. *)
Theorem C5_setattr_state_machine (o : obj) (key : string) (v : value) :
  (BaseConfig.is_frozen o = true ->
   exists e, BaseConfig.setattr o key v = Err e) /\
  (BaseConfig.is_locked o = true -> BaseConfig.hasattr o key = false ->
   exists e, BaseConfig.setattr o key v = Err e) /\
  (BaseConfig.is_locked o = true -> BaseConfig.is_reserved o key = Ok true ->
   key <> "frozen" -> BaseConfig.setattr o key v = Err ReservedName) /\
  (BaseConfig.is_frozen o = false ->
   BaseConfig.is_locked o = false \/
   (BaseConfig.hasattr o key = true /\
    (BaseConfig.is_reserved o key = Ok false \/ key = "frozen")) ->
   (exists b, BaseConfig.is_reserved o key = Ok b) ->
   BaseConfig.setattr o key v = BaseConfig.object_setattr o key v /\
   (BaseConfig.runtime_slot key = false ->
    BaseConfig.setattr o key v = Ok (dict_set key (AVal v) o))).
Proof.
  rewrite GateFacts.setattr_gate.
  repeat split.
  - intros Hf. destruct (BaseConfig.is_reserved o key) as [b|e]; [|eauto].
    rewrite Hf. destruct (_ && _ && _); eauto.
  - intros Hl Hn. destruct (BaseConfig.is_reserved o key) as [b|e]; [|eauto].
    rewrite Hl, Hn. simpl.
    destruct (_ && _ && _); [eauto|].
    destruct (BaseConfig.is_frozen o); eauto.
  - intros Hl Hr Hk. rewrite Hr, Hl.
    apply String.eqb_neq in Hk. now rewrite Hk.
  - destruct H1 as [b Hb]. rewrite Hb.
    destruct H0 as [Hl | [Ha [Hr | Hk]]].
    + rewrite Hl, H. now rewrite andb_false_r.
    + rewrite Hr in Hb. inversion Hb; subst b. simpl. rewrite H, Ha.
      now rewrite andb_false_r.
    + subst key. simpl. rewrite andb_false_r, H, Ha. now rewrite andb_false_r.
  - intros Hs. destruct H1 as [b Hb]. rewrite Hb.
    rewrite <- (GateFacts.object_setattr_plain o key v Hs).
    destruct H0 as [Hl | [Ha [Hr | Hk]]].
    + rewrite Hl, H. now rewrite andb_false_r.
    + rewrite Hr in Hb. inversion Hb; subst b. simpl. rewrite H, Ha.
      now rewrite andb_false_r.
    + subst key. simpl. rewrite andb_false_r, H, Ha. now rewrite andb_false_r.
Qed.

(** C5, as stated, fails: on a locked instance that is not frozen, the
    assignment [frozen = False], which is not the freeze transition, names
    a reserved attribute and succeeds. *)
Lemma C5_counterexample :
  is_ok Example.lock_model = true /\
  BaseConfig.is_locked Example.locked_model = true /\
  BaseConfig.is_frozen Example.locked_model = false /\
  BaseConfig.is_reserved Example.locked_model "frozen" = Ok true /\
  VBool false <> VBool true /\
  is_ok (BaseConfig.setattr Example.locked_model "frozen" (VBool false))
  = true.
Proof.
  repeat split; try (vm_compute; reflexivity). discriminate.
Qed.

(** C5 on a locked instance of [ModelConfig]: a reserved name is
    refused, a declared argument is reassigned. *)
Lemma C5_witness :
  BaseConfig.setattr Example.locked_model "arg_dict" (VDict [])
  = Err ReservedName /\
  BaseConfig.setattr Example.locked_model "model_type" (VStr "patch")
  = Ok (dict_set "model_type" (AVal (VStr "patch")) Example.locked_model).
Proof.
  split.
  - apply (C5_setattr_state_machine Example.locked_model "arg_dict" (VDict []));
      [vm_compute; reflexivity | vm_compute; reflexivity | discriminate].
  - apply (C5_setattr_state_machine Example.locked_model "model_type"
             (VStr "patch"));
      [vm_compute; reflexivity
      | right; split; [vm_compute; reflexivity | left; vm_compute; reflexivity]
      | eexists; vm_compute; reflexivity | reflexivity].
Defined.

(** C6 (as amended).  Once the defaults are realised and the help display
    has returned the working token list: a file-based config whose top
    level has a key that is not a subconfig name makes [build] raise the
    unknown-subconfig error; and a token [subconfig.argument=value] of the
    working list (tokens that mention [save_dir] or [experiment_name] are
    not in it), reached after the file-based override and the earlier
    tokens have been applied, whose argument name is not an attribute name
    of the target subconfig, makes [build] raise the unknown-argument
    error.  In both cases no configuration is returned. *)
Theorem C6_unknown_keys (fs : string -> option value)
    (foreign_dir : rattr -> list string) (today : string)
    (allocate : string -> string -> string)
    (r r0 r1 : root) (argv args : list string) (dont_save : bool) :
  MainBase.setattr r "_MainBase__dont_save" (RVal (VBool dont_save)) = Ok r0 ->
  MainBase.set_defaults r0 = Ok r1 ->
  snd (MainBase.display_help r1 (filter MainBase.keep argv)) = Ok args ->
  (forall subs d k,
     MainBase.determine_config_path args <> "" ->
     fs (MainBase.determine_config_path args) = Some (VDict d) ->
     MainBase.subconfigs r1 = Ok subs ->
     In k (dict_keys d) -> ~ In k subs ->
     snd (MainBase.build fs foreign_dir today allocate r argv dont_save)
     = Err UnknownSubconfig) /\
  (forall pre post sc arg val r2 r3 o,
     args = (pre ++ MainBase.dotted sc arg val :: post)%list ->
     MainBase.ident sc -> MainBase.ident arg ->
     MainBase.file_stage fs foreign_dir r1 args = Ok r2 ->
     MainBase.override_with_cmdline_args fs foreign_dir r2 pre = Ok r3 ->
     MainBase.getattr r3 sc = Some (RObj o) ->
     Str.mem arg (BaseConfig.dir_obj o) = false ->
     snd (MainBase.build fs foreign_dir today allocate r argv dont_save)
     = Err UnknownArgument).
Proof.
  intros H0 H1 Hd. split.
  - intros subs d k Hp Hf Hs Hk Hn.
    apply (OverrideFacts.build_override_err fs foreign_dir today allocate
             r r0 r1 argv args dont_save _ H0 H1 Hd).
    rewrite OverrideFacts.override_defaults_result.
    now rewrite (OverrideFacts.file_stage_unknown_key fs foreign_dir r1 args
                   subs d k Hp Hf Hs Hk Hn).
  - intros pre post sc arg val r2 r3 o Ha Hsc Harg Hfile Hpre Hget Hdir.
    apply (OverrideFacts.build_override_err fs foreign_dir today allocate
             r r0 r1 argv args dont_save _ H0 H1 Hd).
    rewrite OverrideFacts.override_defaults_result, Hfile.
    cbv beta iota delta [bind]. rewrite Ha, TokenFacts.cmdline_app, Hpre.
    cbv beta iota delta [bind]. cbn [MainBase.override_with_cmdline_args].
    rewrite (TokenFacts.override_token_dotted fs foreign_dir r3 sc arg val
               Hsc Harg).
    unfold MainBase.get_or_raise. rewrite Hget.
    cbv beta iota delta [bind]. cbn [MainBase.dir_of]. now rewrite Hdir.
Qed.

(** C6, as stated, fails: the token [model.save_dir=x] names an argument
    that [model] does not declare, yet step 1 takes it for the directory
    token and [build] returns. *)
Lemma C6_counterexample :
  BaseConfig.descriptor Example.locked_model "save_dir" = None /\
  Str.mem "save_dir" (BaseConfig.dir_obj Example.locked_model) = false /\
  is_ok (snd (MainBase.build Example.no_file Example.no_dir Example.a_day
                Example.run_dir Example.model_root ["model.save_dir=x"] true))
  = true.
Proof. repeat split; vm_compute; reflexivity. Qed.

(** C6 on the root with the subconfig [model]: the token names an
    argument that [model] does not have. *)
Lemma C6_witness :
  snd (MainBase.build Example.no_file Example.no_dir Example.a_day
         Example.run_dir Example.model_root ["model.nosuch=1"] true)
  = Err UnknownArgument.
Proof.
  apply (C6_unknown_keys Example.no_file Example.no_dir Example.a_day
           Example.run_dir Example.model_root Example.model_r0
           Example.model_r1 ["model.nosuch=1"] ["model.nosuch=1"] true)
    with (pre := []) (post := []) (sc := "model") (arg := "nosuch")
         (val := "1") (r2 := Example.model_r1) (r3 := Example.model_r1)
         (o := Example.model_obj1).
  - apply FreezeFacts.ok_default. vm_compute; reflexivity.
  - apply FreezeFacts.ok_default. vm_compute; reflexivity.
  - vm_compute; reflexivity.
  - reflexivity.
  - split; reflexivity.
  - split; reflexivity.
  - reflexivity.
  - reflexivity.
  - apply FreezeFacts.obj_default. vm_compute; reflexivity.
  - vm_compute; reflexivity.
Defined.

(** C7 (as amended).  For every [add_argument] call: it fails with the
    type error of the declaration exactly when the default is neither a
    sentinel ([None] or the text ["none"]) nor an instance of the declared
    type; it fails with the validation error of the declaration exactly
    when that first check passes and a validation is given that rejects
    the default, which is not a sentinel; and when both checks pass on a
    regular instance in its declaration phase, under a name that is neither
    reserved nor a slot of the runtime, the call succeeds, the current
    value of the argument is the default, and its descriptor and its help
    text are recorded. *)
Theorem C7_add_argument_checks (o : obj) (name : string) (type : ptype)
    (default : value) (help : string) (validation : option (value -> bool)) :
  (BaseConfig.add_argument o name type default help validation
   = Err DeclTypeError
   <-> BaseConfig.not_sentinel default = true
       /\ isinstance type default = false) /\
  (BaseConfig.add_argument o name type default help validation
   = Err DeclValueError
   <-> (BaseConfig.not_sentinel default = false
        \/ isinstance type default = true)
       /\ exists p, validation = Some p
                    /\ BaseConfig.not_sentinel default = true
                    /\ p default = false) /\
  (BaseConfig.regular o ->
   BaseConfig.is_locked o = false -> BaseConfig.is_frozen o = false ->
   Str.mem name BaseConfig.reserved_attributes = false ->
   BaseConfig.runtime_slot name = false ->
   BaseConfig.not_sentinel default = false \/ isinstance type default = true ->
   (forall p, validation = Some p ->
              BaseConfig.not_sentinel default = true -> p default = true) ->
   exists o',
     BaseConfig.add_argument o name type default help validation = Ok o' /\
     BaseConfig.getattr o' name = Some (AVal default) /\
     BaseConfig.descriptor o' name = Some (EDesc type validation) /\
     BaseConfig.help_text o' name = Some (VStr help)).
Proof.
  split; [apply DeclCases.type_error|].
  split; [apply DeclCases.value_error|].
  intros R Hl Hf Hm Hs Hty Hval.
  destruct (DeclCases.success o name type default help validation
              R Hl Hf Hm Hs Hty Hval) as [o' [H1 [H2 [H3 [H4 _]]]]].
  exists o'. auto.
Qed.

(** C7, as stated, fails: a default that is not of the declared type and
    that the given validation rejects makes the call fail with the type
    error, not with the validation error. *)
Lemma C7_counterexample :
  BaseConfig.not_sentinel (VInt 5) = true /\
  Example.model_type_ok (VInt 5) = false /\
  BaseConfig.add_argument Example.fresh "model_type" py_str (VInt 5)
    "The type of model to use" (Some Example.model_type_ok)
  = Err DeclTypeError /\
  BaseConfig.add_argument Example.fresh "model_type" py_str (VInt 5)
    "The type of model to use" (Some Example.model_type_ok)
  <> Err DeclValueError.
Proof.
  repeat split; try (vm_compute; reflexivity).
  vm_compute. discriminate.
Qed.

(** C7 on the declaration of [ModelConfig]. *)
Lemma C7_witness :
  exists o',
    BaseConfig.add_argument Example.fresh "model_type" py_str
      (VStr "retinanet") "The type of model to use"
      (Some Example.model_type_ok) = Ok o' /\
    BaseConfig.getattr o' "model_type" = Some (AVal (VStr "retinanet")) /\
    BaseConfig.descriptor o' "model_type"
    = Some (EDesc py_str (Some Example.model_type_ok)) /\
    BaseConfig.help_text o' "model_type"
    = Some (VStr "The type of model to use").
Proof.
  apply (C7_add_argument_checks Example.fresh "model_type" py_str
           (VStr "retinanet") "The type of model to use"
           (Some Example.model_type_ok)).
  - split; [right; eexists; reflexivity
           | split; [eexists; reflexivity | reflexivity]].
  - reflexivity.
  - reflexivity.
  - reflexivity.
  - reflexivity.
  - right; reflexivity.
  - intros p Hp _. inversion Hp; subst p. reflexivity.
Defined.

(** C8, where the code breaks it.  For a checkpoint named without a
    directory the derived path is not the sibling [config.json]: the name
    of the checkpoint is kept as a directory; and for a checkpoint in the
    root directory the derived path is relative.  An evaluation run whose
    checkpoint is [model.pt], with [config.json] next to it, raises. *)
Theorem C8_checkpoint_path_without_directory :
  MainBase.checkpoint_config_path "model.pt" = "model.pt/config.json" /\
  MainBase.checkpoint_config_path "/model.pt" = "config.json" /\
  MainBase.checkpoint_config_path "results/run/1/model.pt"
  = "results/run/1/config.json" /\
  Example.cwd_fs "config.json" = Some Example.persisted /\
  snd (MainBase.build Example.cwd_fs Example.no_dir Example.a_day
         Example.run_dir Example.eval_root
         ["evaluation.checkpoint=model.pt"] true)
  = Err PyOSError.
Proof. repeat split; vm_compute; reflexivity. Qed.

(** C9 (as amended).  For every invocation whose token list holds exactly
    one help token (one occurrence of ["--h"] or of ["--help"]), whose
    defaults are realised and whose usage listing prints without raising:
    [build] prints the usage listing, removes the help token from the
    working token list and goes on through the remaining steps; it prints
    after the listing what the invocation without the help token prints,
    and it returns the same configuration or raises the same exception as
    that invocation. *)
Theorem C9_single_help_token (fs : string -> option value)
    (foreign_dir : rattr -> list string) (today : string)
    (allocate : string -> string -> string)
    (r r0 r1 : root) (a b : list string) (h : string) (dont_save : bool) :
  h = "--h" \/ h = "--help" ->
  Str.mem "--h" (a ++ b) = false -> Str.mem "--help" (a ++ b) = false ->
  MainBase.setattr r "_MainBase__dont_save" (RVal (VBool dont_save)) = Ok r0 ->
  MainBase.set_defaults r0 = Ok r1 ->
  snd (MainBase.listing r1) = Ok tt ->
  (exists prog rest,
     MainBase.get_or_raise r1 "prog" = Ok prog /\
     fst (MainBase.listing r1)
     = (MainBase.usage (MainBase.rattr_str prog) ++ rest)%list) /\
  fst (MainBase.build fs foreign_dir today allocate r (a ++ h :: b) dont_save)
  = (fst (MainBase.listing r1)
     ++ fst (MainBase.build fs foreign_dir today allocate r (a ++ b)
               dont_save))%list /\
  snd (MainBase.build fs foreign_dir today allocate r (a ++ h :: b) dont_save)
  = snd (MainBase.build fs foreign_dir today allocate r (a ++ b) dont_save).
Proof.
  intros Hh M1 M2 H0 H1 HL. split.
  { unfold MainBase.listing in *.
    destruct (MainBase.get_or_raise r1 "prog") as [prog|e]; [|discriminate].
    exists prog. rewrite MonadFacts.io_bind_lift_ok.
    rewrite MonadFacts.fst_io_bind. cbn [fst snd]. eauto. }
  rewrite !(PipelineFacts.build_from_defaults fs foreign_dir today allocate
              r r0 r1 _ dont_save H0 H1).
  rewrite !filter_app. cbn [filter]. rewrite (HelpFacts.keep_help h Hh).
  rewrite (ScanFacts.picked_skip a b h "results" today
             (HelpFacts.keep_help h Hh)).
  rewrite ScanFacts.mem_app in M1, M2.
  apply orb_false_elim in M1 as [M1a M1b].
  apply orb_false_elim in M2 as [M2a M2b].
  assert (F1 : Str.mem "--h" (filter MainBase.keep a
                              ++ filter MainBase.keep b) = false).
  { rewrite ScanFacts.mem_app.
    now rewrite !ScanFacts.mem_filter_false by assumption. }
  assert (F2 : Str.mem "--help" (filter MainBase.keep a
                                 ++ filter MainBase.keep b) = false).
  { rewrite ScanFacts.mem_app.
    now rewrite !ScanFacts.mem_filter_false by assumption. }
  rewrite (HelpFacts.display_help_single r1 _ _ h Hh F1 F2 HL).
  rewrite (HelpFacts.display_help_none r1 _ F1 F2).
  unfold io_bind.
  destruct (MainBase.finish _ _ _ _ _ _ _) as [ev res].
  split; reflexivity.
Qed.

(** C9, as stated, fails: with both spellings on the command line only one
    help token is removed; the other reaches the command-line override,
    where it has no ["="] to split at, and [build] raises, whereas the
    invocation without help tokens returns. *)
Lemma C9_counterexample :
  Str.mem "--h" ["--h"; "--help"] = true /\
  is_ok (snd (MainBase.build Example.no_file Example.no_dir Example.a_day
                Example.run_dir Example.model_root [] true)) = true /\
  snd (MainBase.build Example.no_file Example.no_dir Example.a_day
         Example.run_dir Example.model_root ["--h"; "--help"] true)
  = Err PyValueError.
Proof. repeat split; vm_compute; reflexivity. Qed.

(** C9 on the root with the subconfig [model]: [--help] next to an
    override. *)
Lemma C9_witness :
  snd (MainBase.build Example.no_file Example.no_dir Example.a_day
         Example.run_dir Example.model_root
         ["--help"; "model.model_type=patch"] true)
  = snd (MainBase.build Example.no_file Example.no_dir Example.a_day
           Example.run_dir Example.model_root
           ["model.model_type=patch"] true).
Proof.
  apply (C9_single_help_token Example.no_file Example.no_dir Example.a_day
           Example.run_dir Example.model_root Example.model_r0
           Example.model_r1 [] ["model.model_type=patch"] "--help" true).
  - right; reflexivity.
  - reflexivity.
  - reflexivity.
  - apply FreezeFacts.ok_default. vm_compute; reflexivity.
  - apply FreezeFacts.ok_default. vm_compute; reflexivity.
  - vm_compute; reflexivity.
Defined.

(** C10.  For an argument declared with type [bool], the coercion step of
    a file-based or command-line override calls the type on the raw value:
    it never fails with the type-coercion error; every non-empty text
    (["False"] and ["false"] among them) becomes [True] and the empty text
    becomes [False], the value then going to the validation, if any; and a
    command-line token [subconfig.argument=text] as well as a file entry
    with a text value assign that Boolean. *)
Theorem C10_bool_coercion (fs : string -> option value)
    (foreign_dir : rattr -> list string)
    (r : root) (sc arg : string) (o : obj)
    (validation : option (value -> bool)) :
  MainBase.getattr r sc = Some (RObj o) ->
  BaseConfig.descriptor o arg = Some (EDesc py_bool validation) ->
  (forall raw, MainBase.validate_arg (RObj o) arg raw <> Err TypeCoercion) /\
  (forall s, s <> "" ->
     MainBase.validate_arg (RObj o) arg (VStr s)
     = MainBase.check validation (VBool true)) /\
  MainBase.validate_arg (RObj o) arg (VStr "False")
  = MainBase.check validation (VBool true) /\
  MainBase.validate_arg (RObj o) arg (VStr "false")
  = MainBase.check validation (VBool true) /\
  MainBase.validate_arg (RObj o) arg (VStr "")
  = MainBase.check validation (VBool false) /\
  (forall s o',
     Str.mem arg (BaseConfig.dir_obj o) = true ->
     MainBase.check validation (VBool (negb (String.eqb s ""))) 
     = Ok (VBool (negb (String.eqb s ""))) ->
     BaseConfig.setattr o arg (VBool (negb (String.eqb s ""))) = Ok o' ->
     MainBase.override_one foreign_dir r sc true arg (VStr s)
     = Ok (MainBase.update_obj r sc o') /\
     (MainBase.ident sc -> MainBase.ident arg ->
      MainBase.override_token fs foreign_dir r (MainBase.dotted sc arg s)
      = Ok (MainBase.update_obj r sc o'))).
Proof.
  intros Hr Hd.
  assert (V : forall raw, MainBase.validate_arg (RObj o) arg raw
                          = MainBase.check validation (VBool (truthy raw))).
  { intros raw. now rewrite (ValidateFacts.validate_declared o arg py_bool
                               validation raw Hd). }
  split; [intros raw; rewrite V; apply ValidateFacts.check_not_coercion|].
  split.
  { intros s Hs. rewrite V. simpl.
    apply String.eqb_neq in Hs. now rewrite Hs. }
  split; [now rewrite V|]. split; [now rewrite V|]. split; [now rewrite V|].
  intros s o' Hdir Hc Hset.
  assert (G : MainBase.get_or_raise r sc = Ok (RObj o))
    by (unfold MainBase.get_or_raise; now rewrite Hr).
  split.
  - unfold MainBase.override_one. rewrite G. cbv beta iota delta [bind].
    cbn [MainBase.dir_of]. rewrite Hdir. cbn [negb].
    rewrite V. cbn [truthy]. rewrite Hc. cbn [MainBase.as_obj].
    now rewrite Hset.
  - intros Hsc Harg.
    rewrite (TokenFacts.override_token_dotted fs foreign_dir r sc arg s
               Hsc Harg).
    rewrite G. cbv beta iota delta [bind].
    cbn [MainBase.dir_of]. rewrite Hdir. cbn [negb].
    rewrite V. cbn [truthy]. rewrite Hc. cbn [MainBase.as_obj].
    now rewrite Hset.
Qed.

(** C10 on [use_mlflow_logger] of [TrainingConfig]: the text ["false"]
    becomes [True]. *)
Lemma C10_witness :
  is_ok Example.lock_training = true /\
  BaseConfig.descriptor Example.locked_training "use_mlflow_logger"
  = Some (EDesc py_bool None) /\
  MainBase.validate_arg (RObj Example.locked_training) "use_mlflow_logger"
    (VStr "false") = Ok (VBool true).
Proof.
  split; [vm_compute; reflexivity|].
  split; [vm_compute; reflexivity|].
  apply (C10_bool_coercion (fun _ => None) (fun _ => [])
           [("training", RObj Example.locked_training)]
           "training" "use_mlflow_logger" Example.locked_training None).
  - reflexivity.
  - vm_compute; reflexivity.
Defined.

(** * Further properties *)

(** ** The directory of a run *)

Module SaverFacts.
Import SessionSaver.

Ltac digit_code :=
  match goal with
  | |- context [Z.of_nat (nat_of_ascii ?c)] =>
      let v := eval vm_compute in (Z.of_nat (nat_of_ascii c)) in
      change (Z.of_nat (nat_of_ascii c)) with v
  end.

Lemma value_acc (d : Decimal.uint) (acc : positive) :
  fold_left (fun acc c => (10 * acc + (Z.of_nat (nat_of_ascii c) - 48))%Z)
    (list_ascii_of_string (NilEmpty.string_of_uint d)) (Zpos acc)
  = Zpos (Pos.of_uint_acc d acc).
Proof.
  revert acc; induction d; intro acc;
    cbn [NilEmpty.string_of_uint list_ascii_of_string fold_left
         Pos.of_uint_acc];
    try reflexivity; rewrite <- IHd; f_equal; digit_code; lia.
Qed.

Lemma value_uint (d : Decimal.uint) :
  digits_value (NilEmpty.string_of_uint d) = Z.of_uint d.
Proof.
  unfold digits_value, Z.of_uint.
  induction d;
    cbn [NilEmpty.string_of_uint list_ascii_of_string fold_left Pos.of_uint];
    try reflexivity;
    try (cbn [Z.of_N]; rewrite <- value_acc; f_equal; digit_code; lia).
  rewrite <- IHd. f_equal.
Qed.

Lemma value_to_string (z : Z) :
  (0 <= z)%Z -> digits_value (Z_to_string z) = z.
Proof.
  intro H. unfold Z_to_string. destruct z as [|p|p]; try lia.
  - reflexivity.
  - simpl Z.to_int. simpl NilZero.string_of_int.
    unfold NilZero.string_of_uint.
    destruct (Pos.to_uint p) eqn:E;
      try (rewrite <- E, value_uint; unfold Z.of_uint;
           rewrite Unsigned.of_to; reflexivity).
    exfalso. exact (Unsigned.to_uint_nonnil p E).
Qed.

Lemma digits_uint (d : Decimal.uint) :
  forallb is_digit (list_ascii_of_string (NilEmpty.string_of_uint d)) = true.
Proof.
  induction d; simpl; auto.
Qed.

Lemma digits_to_string (z : Z) :
  (0 <= z)%Z ->
  forallb is_digit (list_ascii_of_string (Z_to_string z)) = true.
Proof.
  intro H. unfold Z_to_string. destruct z as [|p|p]; try lia.
  - reflexivity.
  - simpl Z.to_int. simpl NilZero.string_of_int.
    unfold NilZero.string_of_uint.
    destruct (Pos.to_uint p) eqn:E; try (rewrite <- E; apply digits_uint).
    reflexivity.
Qed.

Lemma digit_numeric (c : ascii) : is_digit c = true -> numeric_char c = true.
Proof. unfold numeric_char. intros ->. reflexivity. Qed.

Lemma to_string_nonempty (z : Z) : Z_to_string z <> "".
Proof.
  unfold Z_to_string. destruct z as [|p|p]; simpl; try discriminate.
  unfold NilZero.string_of_uint.
  destruct (Pos.to_uint p) eqn:E; simpl; try discriminate.
Qed.

Lemma isnumeric_to_string (z : Z) :
  (0 <= z)%Z -> isnumeric (Z_to_string z) = true.
Proof.
  intro H. unfold isnumeric.
  destruct (Z_to_string z) eqn:E.
  - exfalso. exact (to_string_nonempty z E).
  - rewrite <- E. apply forallb_forall. intros c Hc.
    apply digit_numeric.
    exact (proj1 (forallb_forall _ _) (digits_to_string z H) c Hc).
Qed.


Lemma value_nonneg (l : list ascii) (acc : Z) :
  (0 <= acc)%Z -> forallb is_digit l = true ->
  (0 <= fold_left (fun acc c => (10 * acc + (Z.of_nat (nat_of_ascii c) - 48))%Z)
         l acc)%Z.
Proof.
  revert acc; induction l as [|c l IH]; intros acc Ha Hd; cbn [fold_left].
  - exact Ha.
  - cbn [forallb] in Hd. apply andb_prop in Hd. destruct Hd as [Hc Hl].
    apply IH; [|exact Hl].
    unfold is_digit in Hc. apply andb_prop in Hc. destruct Hc as [Hc _].
    apply Nat.leb_le in Hc. lia.
Qed.

Lemma int_of_numeric_ok (s : string) (n : Z) :
  int_of_numeric s = Ok n ->
  forallb is_digit (list_ascii_of_string s) = true /\ n = digits_value s
  /\ (0 <= n)%Z.
Proof.
  unfold int_of_numeric.
  destruct (forallb is_digit (list_ascii_of_string s)) eqn:D; simpl;
    [|discriminate].
  destruct (Nat.leb (String.length s) int_max_str_digits); [|discriminate].
  intro H. injection H as <-. split; [reflexivity|]. split; [reflexivity|].
  unfold digits_value. apply value_nonneg; [lia|exact D].
Qed.

Lemma int_of_numeric_err (s : string) (e : exn) :
  int_of_numeric s = Err e -> e = PyValueError.
Proof.
  unfold int_of_numeric.
  destruct (_ && _); [discriminate|]. intro H. injection H as <-. reflexivity.
Qed.

Lemma run_ids_err (dirs : list string) (e : exn) :
  run_ids dirs = Err e -> e = PyValueError.
Proof.
  induction dirs as [|d rest IH]; simpl; [discriminate|].
  destruct (isnumeric (leaf d)); [|exact IH].
  destruct (int_of_numeric (leaf d)) eqn:I; simpl.
  - destruct (run_ids rest) eqn:R; simpl; [discriminate|].
    intro H. injection H as <-. apply IH. reflexivity.
  - intro H. injection H as <-. exact (int_of_numeric_err _ _ I).
Qed.

Lemma run_ids_ok (dirs : list string) (ns : list Z) :
  run_ids dirs = Ok ns ->
  (forall d, In d dirs -> isnumeric (leaf d) = true ->
             exists n, int_of_numeric (leaf d) = Ok n /\ In n ns) /\
  (forall n, In n ns ->
             exists d, In d dirs /\ isnumeric (leaf d) = true /\
                       int_of_numeric (leaf d) = Ok n).
Proof.
  revert ns; induction dirs as [|d rest IH]; simpl; intros ns H.
  - injection H as <-. split; [intros ? []|intros ? []].
  - destruct (isnumeric (leaf d)) eqn:N.
    + destruct (int_of_numeric (leaf d)) as [n|] eqn:I; simpl in H;
        [|discriminate].
      destruct (run_ids rest) as [ns'|] eqn:R; simpl in H; [|discriminate].
      injection H as <-. destruct (IH ns' eq_refl) as [A B]. split.
      * intros d' [<-|Hd] Hn.
        -- exists n. split; [exact I|left; reflexivity].
        -- destruct (A d' Hd Hn) as (m & Hm & Hin).
           exists m. split; [exact Hm|right; exact Hin].
      * intros m [<-|Hm].
        -- exists d. split; [left; reflexivity|]. split; assumption.
        -- destruct (B m Hm) as (d' & Hd & Hn & Hi).
           exists d'. split; [right; exact Hd|]. split; assumption.
    + destruct (IH ns H) as [A B]. split.
      * intros d' [<-|Hd] Hn; [congruence|exact (A d' Hd Hn)].
      * intros m Hm. destruct (B m Hm) as (d' & Hd & Hn & Hi).
        exists d'. split; [right; exact Hd|]. split; assumption.
Qed.

Lemma run_ids_none (dirs : list string) :
  (forall d, In d dirs -> isnumeric (leaf d) = false) -> run_ids dirs = Ok [].
Proof.
  induction dirs as [|d rest IH]; simpl; intro H; [reflexivity|].
  rewrite (H d (or_introl eq_refl)). apply IH.
  intros d' Hd. apply H. right. exact Hd.
Qed.

Lemma fold_max (l : list Z) (x : Z) :
  (In (fold_left Z.max l x) (x :: l)) /\
  (forall y, In y (x :: l) -> (y <= fold_left Z.max l x)%Z).
Proof.
  revert x; induction l as [|a l IH]; intro x; simpl.
  - split; [left; reflexivity|]. intros y [<-|[]]. lia.
  - destruct (IH (Z.max x a)) as [A B]. split.
    + destruct A as [A|A].
      * destruct (Z.max_spec x a) as [[_ E]|[_ E]].
        -- right; left. rewrite <- A. symmetry. exact E.
        -- left. rewrite <- A. symmetry. exact E.
      * right; right; exact A.
    + intros y [<-|[<-|Hy]].
      * specialize (B (Z.max x a) (or_introl eq_refl)). lia.
      * specialize (B (Z.max x a) (or_introl eq_refl)). lia.
      * apply B. right. exact Hy.
Qed.

Lemma py_max_ok (l : list Z) (m : Z) :
  py_max l = Ok m -> In m l /\ forall y, In y l -> (y <= m)%Z.
Proof.
  destruct l as [|x l]; simpl; [discriminate|].
  intro H. injection H as <-. apply fold_max.
Qed.

Lemma str_int_ok (n : Z) (s : string) :
  str_int n = Ok s -> s = Z_to_string n.
Proof.
  unfold str_int. destruct (Nat.leb _ _); [|discriminate].
  intro H. injection H as <-. reflexivity.
Qed.


Section Saver.
Import SessionSaver.
Variable world : Type.
Variable path_exists : world -> string -> bool.
Variable makedirs : world -> string -> res world.
Variable walk : world -> string -> list string.

Lemma configure_first (w w1 : world) (base exp : string) :
  (if negb (path_exists w (join base exp)) then makedirs w (join base exp)
   else Ok w) = Ok w1 ->
  List.length (walk w1 (join base exp)) = 1 ->
  snd (configure_save_dir_and_run_id world path_exists makedirs walk
         w base exp) =
  let* w' := makedirs w1 (join (join base exp) "1") in
  Ok (w', (join (join base exp) "1", 1%Z)).
Proof.
  intros E L. unfold configure_save_dir_and_run_id.
  rewrite E. rewrite MonadFacts.io_bind_lift_ok.
  rewrite L. cbn [Nat.eqb].
  rewrite MonadFacts.snd_io_bind. rewrite MonadFacts.snd_lift.
  destruct (makedirs w1 (join (join base exp) "1")); reflexivity.
Qed.

Lemma configure_next (w w1 : world) (base exp : string) :
  (if negb (path_exists w (join base exp)) then makedirs w (join base exp)
   else Ok w) = Ok w1 ->
  List.length (walk w1 (join base exp)) <> 1 ->
  snd (configure_save_dir_and_run_id world path_exists makedirs walk
         w base exp) =
  let* ids := run_ids (walk w1 (join base exp)) in
  let* m := py_max ids in
  let* name := str_int (m + 1) in
  let* w' := makedirs w1 (join (join base exp) name) in
  Ok (w', (join (join base exp) name, (m + 1)%Z)).
Proof.
  intros E L. unfold configure_save_dir_and_run_id.
  rewrite E. rewrite MonadFacts.io_bind_lift_ok.
  apply Nat.eqb_neq in L. rewrite L.
  rewrite MonadFacts.snd_io_bind, MonadFacts.snd_lift.
  destruct (run_ids _) as [ids|]; [|reflexivity]. cbn [bind].
  rewrite MonadFacts.snd_io_bind, MonadFacts.snd_lift.
  destruct (py_max ids) as [m|]; [|reflexivity]. cbn [bind].
  rewrite MonadFacts.snd_io_bind, MonadFacts.snd_lift.
  destruct (str_int (m + 1)) as [name|]; [|reflexivity]. cbn [bind].
  unfold print. cbn [io_bind].
  destruct (makedirs w1 (join (join base exp) name)); reflexivity.
Qed.

Lemma configure_ensures (w : world) (base exp : string) x :
  snd (configure_save_dir_and_run_id world path_exists makedirs walk
         w base exp) = Ok x ->
  exists w1,
    (if negb (path_exists w (join base exp)) then makedirs w (join base exp)
     else Ok w) = Ok w1.
Proof.
  unfold configure_save_dir_and_run_id.
  rewrite MonadFacts.snd_io_bind, MonadFacts.snd_lift.
  destruct (if negb _ then _ else _) as [w1|]; [|discriminate].
  intros _. exists w1. reflexivity.
Qed.

End Saver.

End SaverFacts.

(** X1. The directory of a run.  Whenever
    [configure_save_dir_and_run_id] returns, the experiment directory
    exists or was created, the run id is at least 1, the returned path is
    the experiment directory joined with the decimal text of the run id,
    and that directory was created by the call; an experiment directory in
    which [os.walk] finds no other directory gives run id 1. *)
Theorem saver_creates_run_directory (world : Type)
    (path_exists : world -> string -> bool)
    (makedirs : world -> string -> res world)
    (walk : world -> string -> list string)
    (w w' : world) (base exp p : string) (id : Z) :
  snd (SessionSaver.configure_save_dir_and_run_id world path_exists makedirs
         walk w base exp) = Ok (w', (p, id)) ->
  exists w1,
    (if negb (path_exists w (SessionSaver.join base exp))
     then makedirs w (SessionSaver.join base exp) else Ok w) = Ok w1 /\
    (1 <= id)%Z /\
    p = SessionSaver.join (SessionSaver.join base exp) (Z_to_string id) /\
    makedirs w1 p = Ok w' /\
    (List.length (walk w1 (SessionSaver.join base exp)) = 1 -> id = 1%Z).
Proof.
  intro H.
  destruct (SaverFacts.configure_ensures _ _ _ _ _ _ _ _ H) as [w1 E].
  exists w1. split; [exact E|].
  destruct (Nat.eq_dec (List.length (walk w1 (SessionSaver.join base exp))) 1)
    as [L|L].
  - rewrite (SaverFacts.configure_first _ _ _ _ _ _ _ _ E L) in H.
    destruct (makedirs w1 _) as [w2|] eqn:M; [|discriminate].
    cbn [bind] in H. injection H as <- <- <-.
    split; [lia|]. split; [reflexivity|]. split; [exact M|]. reflexivity.
  - rewrite (SaverFacts.configure_next _ _ _ _ _ _ _ _ E L) in H.
    destruct (SessionSaver.run_ids _) as [ids|] eqn:R; [|discriminate].
    cbn [bind] in H.
    destruct (SessionSaver.py_max ids) as [m|] eqn:P; [|discriminate].
    cbn [bind] in H.
    destruct (SessionSaver.str_int (m + 1)) as [name|] eqn:S; [|discriminate].
    cbn [bind] in H.
    destruct (makedirs w1 _) as [w2|] eqn:M; [|discriminate].
    cbn [bind] in H. injection H as <- <- <-.
    apply SaverFacts.str_int_ok in S. subst name.
    destruct (SaverFacts.py_max_ok _ _ P) as [Hin _].
    destruct (proj2 (SaverFacts.run_ids_ok _ _ R) m Hin) as (d & _ & _ & Hi).
    destruct (SaverFacts.int_of_numeric_ok _ _ Hi) as (_ & _ & Hm).
    split; [lia|]. split; [reflexivity|]. split; [exact M|].
    intro L'. contradiction.
Qed.

(** X1, for the first run of an experiment on an empty file system. *)
Lemma saver_creates_run_directory_witness :
  exists w1,
    (if negb (Example.dir_exists [] (SessionSaver.join "results" "exp"))
     then Example.make_dir [] (SessionSaver.join "results" "exp") else Ok [])
    = Ok w1 /\
    (1 <= 1)%Z /\
    "results/exp/1"
    = SessionSaver.join (SessionSaver.join "results" "exp") (Z_to_string 1) /\
    Example.make_dir w1 "results/exp/1" = Ok ["results/exp"; "results/exp/1"] /\
    (List.length (Example.walk_dirs w1 (SessionSaver.join "results" "exp")) = 1
     -> 1%Z = 1%Z).
Proof.
  apply (saver_creates_run_directory Example.dirs Example.dir_exists
           Example.make_dir
           Example.walk_dirs [] ["results/exp"; "results/exp/1"]
           "results" "exp" "results/exp/1" 1).
  vm_compute. reflexivity.
Defined.

(** X2. The next run id.  When [os.walk] finds directories besides the
    experiment directory and the call returns, the run id is one more
    than the largest number that names a directory found (at any depth),
    it exceeds the number of every such directory, and its decimal text
    is the last component of none of the directories found. *)
Theorem saver_run_id_exceeds_numbered (world : Type)
    (path_exists : world -> string -> bool)
    (makedirs : world -> string -> res world)
    (walk : world -> string -> list string)
    (w w1 w' : world) (base exp p : string) (id : Z) :
  (if negb (path_exists w (SessionSaver.join base exp))
   then makedirs w (SessionSaver.join base exp) else Ok w) = Ok w1 ->
  List.length (walk w1 (SessionSaver.join base exp)) <> 1 ->
  snd (SessionSaver.configure_save_dir_and_run_id world path_exists makedirs
         walk w base exp) = Ok (w', (p, id)) ->
  (exists d, In d (walk w1 (SessionSaver.join base exp)) /\
             SessionSaver.isnumeric (SessionSaver.leaf d) = true /\
             SessionSaver.int_of_numeric (SessionSaver.leaf d)
             = Ok (id - 1)%Z) /\
  (forall d, In d (walk w1 (SessionSaver.join base exp)) ->
             SessionSaver.isnumeric (SessionSaver.leaf d) = true ->
             exists n, SessionSaver.int_of_numeric (SessionSaver.leaf d) = Ok n
                       /\ (n < id)%Z) /\
  (forall d, In d (walk w1 (SessionSaver.join base exp)) ->
             SessionSaver.leaf d <> Z_to_string id).
Proof.
  intros E L H.
  rewrite (SaverFacts.configure_next _ _ _ _ _ _ _ _ E L) in H.
  destruct (SessionSaver.run_ids _) as [ids|] eqn:R; [|discriminate].
  cbn [bind] in H.
  destruct (SessionSaver.py_max ids) as [m|] eqn:P; [|discriminate].
  cbn [bind] in H.
  destruct (SessionSaver.str_int (m + 1)) as [name|] eqn:S; [|discriminate].
  cbn [bind] in H.
  destruct (makedirs w1 _) as [w2|] eqn:M; [|discriminate].
  cbn [bind] in H. injection H as <- <- <-.
  destruct (SaverFacts.py_max_ok _ _ P) as [Hin Hmax].
  destruct (SaverFacts.run_ids_ok _ _ R) as [A B].
  assert (Hlt : forall d, In d (walk w1 (SessionSaver.join base exp)) ->
             SessionSaver.isnumeric (SessionSaver.leaf d) = true ->
             exists n, SessionSaver.int_of_numeric (SessionSaver.leaf d) = Ok n
                       /\ (n < m + 1)%Z).
  { intros d Hd Hn. destruct (A d Hd Hn) as (n & Hi & Hns).
    exists n. split; [exact Hi|]. specialize (Hmax n Hns). lia. }
  split; [|split].
  - destruct (B m Hin) as (d & Hd & Hn & Hi).
    exists d. split; [exact Hd|]. split; [exact Hn|].
    replace (m + 1 - 1)%Z with m by lia. exact Hi.
  - exact Hlt.
  - intros d Hd Heq.
    destruct (B m Hin) as (d0 & _ & _ & Hi0).
    destruct (SaverFacts.int_of_numeric_ok _ _ Hi0) as (_ & _ & Hm).
    assert (Hpos : (0 <= m + 1)%Z) by lia.
    assert (Hn : SessionSaver.isnumeric (SessionSaver.leaf d) = true).
    { rewrite Heq. apply SaverFacts.isnumeric_to_string. exact Hpos. }
    destruct (Hlt d Hd Hn) as (n & Hi & Hlt').
    destruct (SaverFacts.int_of_numeric_ok _ _ Hi) as (_ & Hv & _).
    rewrite Heq, (SaverFacts.value_to_string _ Hpos) in Hv. lia.
Qed.

(** X2, for an experiment with the runs 1 and 2, the second holding a
    directory named 7: the next run is 8. *)
Lemma saver_run_id_exceeds_numbered_witness :
  (exists d, In d (Example.walk_dirs Example.two_runs
                     (SessionSaver.join "results" "exp")) /\
             SessionSaver.isnumeric (SessionSaver.leaf d) = true /\
             SessionSaver.int_of_numeric (SessionSaver.leaf d)
             = Ok (8 - 1)%Z) /\
  (forall d, In d (Example.walk_dirs Example.two_runs
                     (SessionSaver.join "results" "exp")) ->
             SessionSaver.isnumeric (SessionSaver.leaf d) = true ->
             exists n, SessionSaver.int_of_numeric (SessionSaver.leaf d) = Ok n
                       /\ (n < 8)%Z) /\
  (forall d, In d (Example.walk_dirs Example.two_runs
                     (SessionSaver.join "results" "exp")) ->
             SessionSaver.leaf d <> Z_to_string 8).
Proof.
  apply (saver_run_id_exceeds_numbered Example.dirs Example.dir_exists
           Example.make_dir
           Example.walk_dirs Example.two_runs Example.two_runs
           (Example.two_runs ++ ["results/exp/8"])%list
           "results" "exp" "results/exp/8" 8).
  - vm_compute. reflexivity.
  - vm_compute. discriminate.
  - vm_compute. reflexivity.
Defined.

(** X3. No numbered directory.  When [os.walk] finds a number of
    directories other than one and none of them has a numeric last
    component, the call raises [ValueError] (the [max] of an empty list)
    and prints nothing. *)
Theorem saver_no_numbered_directory (world : Type)
    (path_exists : world -> string -> bool)
    (makedirs : world -> string -> res world)
    (walk : world -> string -> list string)
    (w w1 : world) (base exp : string) :
  (if negb (path_exists w (SessionSaver.join base exp))
   then makedirs w (SessionSaver.join base exp) else Ok w) = Ok w1 ->
  List.length (walk w1 (SessionSaver.join base exp)) <> 1 ->
  (forall d, In d (walk w1 (SessionSaver.join base exp)) ->
             SessionSaver.isnumeric (SessionSaver.leaf d) = false) ->
  SessionSaver.configure_save_dir_and_run_id world path_exists makedirs
    walk w base exp = ([], Err PyValueError).
Proof.
  intros E L N. unfold SessionSaver.configure_save_dir_and_run_id.
  rewrite E, MonadFacts.io_bind_lift_ok.
  apply Nat.eqb_neq in L. rewrite L.
  rewrite (SaverFacts.run_ids_none _ N), MonadFacts.io_bind_lift_ok.
  reflexivity.
Qed.

(** X3, for an experiment whose only subdirectory is named [logs]. *)
Lemma saver_no_numbered_directory_witness :
  Example.configure_run Example.named_only "results" "exp"
  = ([], Err PyValueError).
Proof.
  apply (saver_no_numbered_directory Example.dirs Example.dir_exists
           Example.make_dir Example.walk_dirs Example.named_only
           Example.named_only "results" "exp").
  - vm_compute. reflexivity.
  - vm_compute. discriminate.
  - intros d Hd. vm_compute in Hd.
    destruct Hd as [<-|[<-|[]]]; vm_compute; reflexivity.
Defined.

(** X4. A numeric name that is no decimal number.  When [os.walk] finds
    a number of directories other than one and one of them has a last
    component that [isnumeric()] accepts although it holds a character
    that is no decimal digit (a superscript, a fraction), the call raises
    [ValueError] and prints nothing, whatever numbered directories
    exist. *)
Theorem saver_non_decimal_name (world : Type)
    (path_exists : world -> string -> bool)
    (makedirs : world -> string -> res world)
    (walk : world -> string -> list string)
    (w w1 : world) (base exp d : string) :
  (if negb (path_exists w (SessionSaver.join base exp))
   then makedirs w (SessionSaver.join base exp) else Ok w) = Ok w1 ->
  List.length (walk w1 (SessionSaver.join base exp)) <> 1 ->
  In d (walk w1 (SessionSaver.join base exp)) ->
  SessionSaver.isnumeric (SessionSaver.leaf d) = true ->
  forallb SessionSaver.is_digit
    (list_ascii_of_string (SessionSaver.leaf d)) = false ->
  SessionSaver.configure_save_dir_and_run_id world path_exists makedirs
    walk w base exp = ([], Err PyValueError).
Proof.
  intros E L Hd Hn Hdig. unfold SessionSaver.configure_save_dir_and_run_id.
  rewrite E, MonadFacts.io_bind_lift_ok.
  apply Nat.eqb_neq in L. rewrite L.
  destruct (SessionSaver.run_ids (walk w1 (SessionSaver.join base exp)))
    as [ids|e] eqn:R.
  - exfalso.
    destruct (proj1 (SaverFacts.run_ids_ok _ _ R) d Hd Hn) as (n & Hi & _).
    destruct (SaverFacts.int_of_numeric_ok _ _ Hi) as (D & _).
    congruence.
  - rewrite (SaverFacts.run_ids_err _ _ R). reflexivity.
Qed.

(** X4, for an experiment with a directory named by a superscript two. *)
Lemma saver_non_decimal_name_witness :
  Example.configure_run Example.superscript "results" "exp"
  = ([], Err PyValueError).
Proof.
  apply (saver_non_decimal_name Example.dirs Example.dir_exists Example.make_dir
           Example.walk_dirs Example.superscript Example.superscript
           "results" "exp"
           ("results/exp/" ++ String (ascii_of_nat 178) "")).
  - vm_compute. reflexivity.
  - vm_compute. discriminate.
  - vm_compute. right. right. left. reflexivity.
  - vm_compute. reflexivity.
  - vm_compute. reflexivity.
Defined.

(** ** Step 1 and the path of the file-based config *)

Module StepOneFacts.

Lemma picked_none (l : list string) (sd en : string) :
  (forall u, In u l -> MainBase.keep u = true) ->
  MainBase.picked l sd en = (sd, en).
Proof.
  revert sd en; induction l as [|a l IH]; intros sd en H; simpl;
    [reflexivity|].
  assert (K := H a (or_introl eq_refl)). unfold MainBase.keep in K.
  apply andb_prop in K. destruct K as [K1 K2].
  apply negb_true_iff in K1. apply negb_true_iff in K2.
  rewrite K1, K2. apply IH. intros u Hu. apply H. right. exact Hu.
Qed.

Lemma picked_no_save_dir (l : list string) (sd en : string) :
  (forall u, In u l -> Str.contains "save_dir" u = false) ->
  fst (MainBase.picked l sd en) = sd.
Proof.
  revert sd en; induction l as [|a l IH]; intros sd en H; simpl;
    [reflexivity|].
  rewrite (H a (or_introl eq_refl)).
  destruct (Str.contains "experiment_name" a); apply IH;
    intros u Hu; apply H; right; exact Hu.
Qed.

Lemma filter_all (l : list string) (f : string -> bool) :
  (forall u, In u l -> f u = true) -> filter f l = l.
Proof.
  induction l as [|a l IH]; intro H; simpl; [reflexivity|].
  rewrite (H a (or_introl eq_refl)). f_equal. apply IH.
  intros u Hu. apply H. right. exact Hu.
Qed.

End StepOneFacts.

(** X5. Step 1 keeps the other tokens.  For every command line, the
    working token list that [__set_save_dir_experiment_name] returns
    holds exactly the tokens that contain neither [save_dir] nor
    [experiment_name], in their order; and when no token contains either
    word, the list is returned whole, the directory is [results] and the
    experiment name is the date of the day. *)
Theorem step1_working_list (today : string) (argv : list string) :
  fst (fst (MainBase.set_save_dir_experiment_name today argv))
  = filter (fun arg => negb (Str.contains "save_dir" arg)
                       && negb (Str.contains "experiment_name" arg)) argv /\
  ((forall u, In u argv -> Str.contains "save_dir" u = false
                           /\ Str.contains "experiment_name" u = false) ->
   MainBase.set_save_dir_experiment_name today argv
   = (argv, "results", Str.after_last "=" today)).
Proof.
  rewrite ScanFacts.step1_spec. split; [reflexivity|].
  intro H.
  assert (K : forall u, In u argv -> MainBase.keep u = true).
  { intros u Hu. destruct (H u Hu) as [A B]. unfold MainBase.keep.
    rewrite A, B. reflexivity. }
  rewrite (StepOneFacts.picked_none _ _ _ K).
  rewrite (StepOneFacts.filter_all _ _ K). reflexivity.
Qed.

(** X6. The last directory token wins.  For every command line, the
    save directory that step 1 returns is the text after the last [=] of
    the last token that contains [save_dir] (the whole token when it has
    no [=]), wherever in the token the word stands: in its name or in its
    value. *)
Theorem step1_last_save_dir_wins (today t : string)
    (pre post : list string) :
  Str.contains "save_dir" t = true ->
  (forall u, In u post -> Str.contains "save_dir" u = false) ->
  snd (fst (MainBase.set_save_dir_experiment_name today (pre ++ t :: post)))
  = Str.after_last "=" t.
Proof.
  intros Ht Hpost. rewrite ScanFacts.step1_spec. cbn [fst snd].
  rewrite ScanFacts.picked_app. cbn [MainBase.picked]. rewrite Ht.
  rewrite (StepOneFacts.picked_no_save_dir _ _ _ Hpost). reflexivity.
Qed.

(** X6, where the token [experiment_name=my_save_dir] sets the directory. *)
Lemma step1_last_save_dir_wins_witness :
  snd (fst (MainBase.set_save_dir_experiment_name "2024-01-31"
              (["save_dir=a"] ++ "experiment_name=my_save_dir"
                 :: ["model.model_type=patch"])))
  = Str.after_last "=" "experiment_name=my_save_dir".
Proof.
  apply (step1_last_save_dir_wins "2024-01-31" "experiment_name=my_save_dir"
           ["save_dir=a"] ["model.model_type=patch"]).
  - vm_compute. reflexivity.
  - intros u [<-|[]]. vm_compute. reflexivity.
Defined.

Module ConfigPathFacts.

Lemma index_absent (sep s : string) :
  sep <> "" -> Str.contains sep s = false -> String.index 0 sep s = None.
Proof.
  intros Hsep. induction s as [|a s IH]; intro H.
  - destruct sep; [contradiction|reflexivity].
  - cbn [Str.contains] in H. apply orb_false_iff in H. destruct H as [P C].
    cbn [String.index]. rewrite P. rewrite (IH C). reflexivity.
Qed.

Lemma substring_all (s : string) :
  String.substring 0 (String.length s) s = s.
Proof.
  induction s as [|a s IH]; [reflexivity|].
  cbn [String.length String.substring]. rewrite IH. reflexivity.
Qed.

Lemma aux_absent (fuel : nat) (sep s : string) :
  sep <> "" -> Str.contains sep s = false ->
  Str.after_last_sub_aux fuel sep s = s.
Proof.
  intros Hsep H. destruct fuel; [reflexivity|].
  cbn [Str.after_last_sub_aux]. rewrite (index_absent _ _ Hsep H).
  reflexivity.
Qed.

Lemma aux_step (fuel : nat) (sep s : string) (i : nat) :
  String.index 0 sep s = Some i ->
  Str.after_last_sub_aux (S fuel) sep s
  = Str.after_last_sub_aux fuel sep
      (String.substring (i + String.length sep)
         (String.length s - (i + String.length sep)) s).
Proof. intro H. cbn [Str.after_last_sub_aux]. rewrite H. reflexivity. Qed.

Lemma config_token (p : string) :
  Str.contains "config=" p = false ->
  Str.after_last_sub "config=" ("config=" ++ p) = p.
Proof.
  intro H. unfold Str.after_last_sub.
  assert (I : String.index 0 "config=" ("config=" ++ p) = Some 0).
  { simpl. destruct p; reflexivity. }
  rewrite (aux_step _ _ _ 0 I).
  assert (S : String.substring (0 + String.length "config=")
                (String.length ("config=" ++ p)
                 - (0 + String.length "config=")) ("config=" ++ p) = p).
  { cbn [String.append String.length Nat.add Nat.sub String.substring].
    rewrite Nat.sub_0_r. apply substring_all. }
  rewrite S. apply aux_absent; [discriminate|exact H].
Qed.

Lemma fold_absent (l : list string) (acc : string) :
  (forall u, In u l -> Str.contains "config=" u = false) ->
  fold_left (fun config_path arg =>
               if Str.contains "config=" arg
               then Str.after_last_sub "config=" arg
               else config_path) l acc = acc.
Proof.
  revert acc; induction l as [|a l IH]; intros acc H; [reflexivity|].
  cbn [fold_left]. rewrite (H a (or_introl eq_refl)).
  apply IH. intros u Hu. apply H. right. exact Hu.
Qed.

End ConfigPathFacts.

(** X7. The path of the file-based config.  For every working token
    list, [__determine_config_path] answers the empty text when no token
    contains [config=]; otherwise the last token that contains [config=]
    decides, and for a token [config=<path>] whose path does not itself
    contain [config=] the answer is that path. *)
Theorem config_path_of_last_token (cmd_args : list string) :
  ((forall u, In u cmd_args -> Str.contains "config=" u = false) ->
   MainBase.determine_config_path cmd_args = "") /\
  (forall pre post t,
     cmd_args = (pre ++ t :: post)%list ->
     Str.contains "config=" t = true ->
     (forall u, In u post -> Str.contains "config=" u = false) ->
     MainBase.determine_config_path cmd_args
     = Str.after_last_sub "config=" t) /\
  (forall pre post p,
     cmd_args = (pre ++ ("config=" ++ p)%string :: post)%list ->
     Str.contains "config=" p = false ->
     (forall u, In u post -> Str.contains "config=" u = false) ->
     MainBase.determine_config_path cmd_args = p).
Proof.
  assert (A : forall pre post t,
     cmd_args = (pre ++ t :: post)%list ->
     Str.contains "config=" t = true ->
     (forall u, In u post -> Str.contains "config=" u = false) ->
     MainBase.determine_config_path cmd_args
     = Str.after_last_sub "config=" t).
  { intros pre post t -> Ht Hpost. unfold MainBase.determine_config_path.
    rewrite fold_left_app. cbn [fold_left]. rewrite Ht.
    apply ConfigPathFacts.fold_absent. exact Hpost. }
  split; [|split].
  - intro H. unfold MainBase.determine_config_path.
    apply ConfigPathFacts.fold_absent. exact H.
  - exact A.
  - intros pre post p E Hp Hpost.
    rewrite (A pre post _ E);
      [|simpl; destruct p; reflexivity|exact Hpost].
    apply ConfigPathFacts.config_token. exact Hp.
Qed.

(** X8. Nested file references.  For every decoded config with distinct
    top-level keys, [__load_subconfigs_from_filepath] never raises and
    returns the same keys in the same order; a value is replaced by the
    decoded content of the file it names when it is a text whose last
    five characters contain [.json] and that file loads, and is kept as
    it is in every other case: a reference to a file that cannot be read
    is kept as text, without an error. *)
Theorem nested_references_resolved (fs : string -> option value)
    (d : list (string * value)) :
  NoDup (dict_keys d) ->
  MainBase.load_subconfigs_from_filepath fs (VDict d)
  = Ok (map (fun kv => (fst kv, MainBase.resolve_path fs (snd kv))) d) /\
  (forall s, fs s = None -> MainBase.resolve_path fs (VStr s) = VStr s) /\
  (forall s j, Str.contains ".json" (Str.last_n 5 s) = true ->
               fs s = Some j -> MainBase.resolve_path fs (VStr s) = j) /\
  (forall s, Str.contains ".json" (Str.last_n 5 s) = false ->
             MainBase.resolve_path fs (VStr s) = VStr s).
Proof.
  intro H. split; [|split; [|split]].
  - unfold MainBase.load_subconfigs_from_filepath. f_equal.
    rewrite (LoadFacts.fold_fresh (MainBase.resolve_path fs) d []);
      [reflexivity|exact H].
  - intros s E. unfold MainBase.resolve_path, MainBase.load_json.
    rewrite E. destruct (Str.contains _ _); reflexivity.
  - intros s j C E. unfold MainBase.resolve_path, MainBase.load_json.
    rewrite C, E. reflexivity.
  - intros s C. unfold MainBase.resolve_path. rewrite C. reflexivity.
Qed.

(** X8, with a reference to a file that cannot be read. *)
Lemma nested_references_resolved_witness :
  MainBase.load_subconfigs_from_filepath Example.no_file
    (VDict [("model", VStr "model.json"); ("training", VDict [])])
  = Ok (map (fun kv => (fst kv, MainBase.resolve_path Example.no_file (snd kv)))
          [("model", VStr "model.json"); ("training", VDict [])]) /\
  (forall s, Example.no_file s = None ->
             MainBase.resolve_path Example.no_file (VStr s) = VStr s) /\
  (forall s j, Str.contains ".json" (Str.last_n 5 s) = true ->
               Example.no_file s = Some j ->
               MainBase.resolve_path Example.no_file (VStr s) = j) /\
  (forall s, Str.contains ".json" (Str.last_n 5 s) = false ->
             MainBase.resolve_path Example.no_file (VStr s) = VStr s).
Proof.
  apply (nested_references_resolved Example.no_file
           [("model", VStr "model.json"); ("training", VDict [])]).
  repeat constructor; simpl; intuition discriminate.
Defined.

Module AssureFacts.

Lemma assure_keys_iff (subs keys : list string) :
  MainBase.assure_keys (RNames subs) keys = Ok tt
  <-> (forall k, In k keys -> In k subs).
Proof.
  induction keys as [|k keys IH]; cbn [MainBase.assure_keys].
  - split; [intros _ k []|reflexivity].
  - cbn [MainBase.rattr_contains bind].
    destruct (Str.mem k subs) eqn:M.
    + apply DictFacts.mem_true in M. rewrite IH. split.
      * intros H k' [<-|Hk]; [exact M|exact (H k' Hk)].
      * intros H k' Hk. apply H. right. exact Hk.
    + apply DictFacts.mem_false in M. split; [discriminate|].
      intro H. exfalso. apply M. apply H. left. reflexivity.
Qed.

Lemma assure_keys_result (subs keys : list string) :
  MainBase.assure_keys (RNames subs) keys = Ok tt \/
  MainBase.assure_keys (RNames subs) keys = Err UnknownSubconfig.
Proof.
  induction keys as [|k keys IH]; cbn [MainBase.assure_keys];
    [left; reflexivity|].
  cbn [MainBase.rattr_contains bind].
  destruct (Str.mem k subs); [exact IH|right; reflexivity].
Qed.

End AssureFacts.

(** X9. The top-level keys a file may hold.  On a root whose defaults
    are realised, [__assure_no_additional_keys] accepts a config exactly
    when each of its top-level keys is the name of a subconfig, and
    raises the unknown-subconfig error in every other case; it never
    raises anything else and does not look at the values. *)
Theorem known_keys_accepted (r : root) (subs : list string)
    (config : list (string * value)) :
  MainBase.subconfigs r = Ok subs ->
  (MainBase.assure_no_additional_keys r config = Ok tt
   <-> forall k, In k (dict_keys config) -> In k subs) /\
  (MainBase.assure_no_additional_keys r config = Ok tt \/
   MainBase.assure_no_additional_keys r config = Err UnknownSubconfig).
Proof.
  intro S. unfold MainBase.subconfigs in S.
  destruct (MainBase.get_or_raise r "_MainBase__subconfigs") as [a|] eqn:G;
    [|discriminate].
  cbn [bind] in S. destruct a; try discriminate. injection S as ->.
  unfold MainBase.assure_no_additional_keys.
  destruct (dict_keys config) as [|k ks] eqn:K.
  - split; [split; [intros _ k []|reflexivity]|left; reflexivity].
  - rewrite G. cbn [bind]. split.
    + apply AssureFacts.assure_keys_iff.
    + apply AssureFacts.assure_keys_result.
Qed.

(** X9, on the root with the subconfig [model] alone. *)
Lemma known_keys_accepted_witness :
  (MainBase.assure_no_additional_keys Example.model_r1
     [("model", VDict [])] = Ok tt
   <-> forall k, In k (dict_keys [("model", VDict [])]) -> In k ["model"]) /\
  (MainBase.assure_no_additional_keys Example.model_r1
     [("model", VDict [])] = Ok tt \/
   MainBase.assure_no_additional_keys Example.model_r1
     [("model", VDict [])] = Err UnknownSubconfig).
Proof.
  apply (known_keys_accepted Example.model_r1 ["model"]
           [("model", VDict [])]).
  vm_compute. reflexivity.
Defined.

(** ** The shapes of a command-line token *)

Module ShapeFacts.

Lemma split_once_absent (c : ascii) (s : string) :
  Str.contains (String c "") s = false -> Str.split_once c s = None.
Proof.
  induction s as [|a s IH]; intro H; [reflexivity|].
  rewrite StrFacts.contains_char_cons in H.
  apply orb_false_iff in H. destruct H as [E C].
  cbn [Str.split_once]. rewrite Ascii.eqb_sym, E, (IH C). reflexivity.
Qed.

Lemma split_nonempty (c : ascii) (s : string) : Str.split c s <> [].
Proof.
  destruct s as [|a s]; cbn [Str.split]; [discriminate|].
  destruct (Ascii.eqb a c); [discriminate|].
  destruct (Str.split c s); discriminate.
Qed.

Lemma split_length_app (c : ascii) (x y : string) :
  List.length (Str.split c (x ++ String c y))
  = List.length (Str.split c x) + List.length (Str.split c y).
Proof.
  induction x as [|a x IH].
  - cbn [String.append Str.split]. rewrite Ascii.eqb_refl. reflexivity.
  - cbn [String.append Str.split]. destruct (Ascii.eqb a c).
    + cbn [List.length]. rewrite IH. reflexivity.
    + destruct (Str.split c (x ++ String c y)) as [|h t] eqn:E1.
      * exfalso. exact (split_nonempty _ _ E1).
      * destruct (Str.split c x) as [|h' t'] eqn:E2.
        -- exfalso. exact (split_nonempty _ _ E2).
        -- cbn [List.length] in *. exact IH.
Qed.

Lemma split_length_pos (c : ascii) (s : string) :
  1 <= List.length (Str.split c s).
Proof.
  destruct (Str.split c s) eqn:E; [exfalso; exact (split_nonempty _ _ E)|].
  cbn. lia.
Qed.

Lemma bind_ret {A : Type} (m : res A) : bind m (fun a => Ok a) = m.
Proof. destruct m; reflexivity. Qed.

Lemma dict_get_absent {V : Type} (k : string) (d : list (string * V)) :
  ~ In k (dict_keys d) -> dict_get k d = None.
Proof.
  induction d as [|[k' v] d IH]; intro H; [reflexivity|].
  cbn [dict_get]. destruct (String.eqb k' k) eqn:E.
  - apply String.eqb_eq in E. exfalso. apply H. left. exact E.
  - apply IH. intro Hin. apply H. right. exact Hin.
Qed.

Lemma getitem_absent (ad : attr) (ks : list string) (k : string) :
  attr_keys ad = Ok ks -> ~ In k ks ->
  MainBase.attr_getitem ad k = Err PyKeyError.
Proof.
  intros K H. destruct ad as [v|d|]; try discriminate.
  - destruct v; try discriminate. cbn in K. injection K as <-.
    cbn [MainBase.attr_getitem]. rewrite (dict_get_absent _ _ H).
    reflexivity.
  - cbn in K. injection K as <-. cbn [MainBase.attr_getitem].
    rewrite (dict_get_absent _ _ H). reflexivity.
Qed.

End ShapeFacts.

(** X10. Tokens that cannot be read.  For every root, a token of the
    working list without [=], and a token whose name (the text before the
    first [=]) holds two or more dots, make the command-line override
    raise [ValueError] (the unpacking of the split), once the tokens
    before it have been applied; a token [config=...] is passed over and
    changes nothing. *)
Theorem unreadable_token_value_error (fs : string -> option value)
    (foreign_dir : rattr -> list string) (r : root) :
  (forall p, MainBase.override_token fs foreign_dir r ("config=" ++ p)
             = Ok r) /\
  (forall pre post r1 t,
     MainBase.override_with_cmdline_args fs foreign_dir r pre = Ok r1 ->
     Str.contains "=" t = false ->
     MainBase.override_with_cmdline_args fs foreign_dir r
       (pre ++ t :: post) = Err PyValueError) /\
  (forall pre post r1 a b c val,
     MainBase.override_with_cmdline_args fs foreign_dir r pre = Ok r1 ->
     Str.contains "=" a = false -> Str.contains "=" b = false ->
     Str.contains "=" c = false ->
     MainBase.override_with_cmdline_args fs foreign_dir r
       (pre ++ (a ++ "." ++ b ++ "." ++ c ++ "=" ++ val)%string :: post)
     = Err PyValueError).
Proof.
  split; [|split].
  - intro p. unfold MainBase.override_token.
    change ("config=" ++ p) with ("config" ++ String "=" p).
    rewrite StrFacts.split_once_app by reflexivity. reflexivity.
  - intros pre post r1 t P H. rewrite TokenFacts.cmdline_app, P.
    cbn [bind MainBase.override_with_cmdline_args].
    unfold MainBase.override_token.
    rewrite (ShapeFacts.split_once_absent _ _ H). reflexivity.
  - intros pre post r1 a b c val P Ha Hb Hc.
    rewrite TokenFacts.cmdline_app, P.
    cbn [bind MainBase.override_with_cmdline_args].
    unfold MainBase.override_token.
    assert (N : (a ++ "." ++ b ++ "." ++ c ++ "=" ++ val)
                = ((a ++ "." ++ b ++ "." ++ c) ++ String "=" val)).
    { rewrite !StrFacts.append_assoc. reflexivity. }
    rewrite N. rewrite StrFacts.split_once_app.
    2:{ change ("." ++ b ++ "." ++ c) with (String "." (b ++ String "." c)).
        rewrite !StrFacts.contains_char_app.
        rewrite StrFacts.contains_char_cons.
        rewrite !StrFacts.contains_char_app.
        rewrite StrFacts.contains_char_cons.
        rewrite Ha, Hb, Hc. reflexivity. }
    assert (D : Str.contains "." (a ++ "." ++ b ++ "." ++ c) = true).
    { apply (StrFacts.contains_sep "." a (b ++ "." ++ c)). }
    assert (E : String.eqb (a ++ "." ++ b ++ "." ++ c) "config" = false).
    { apply (StrFacts.eqb_no_char "."); [exact D|reflexivity]. }
    rewrite E, D. cbn [negb].
    assert (L : 3 <= List.length (Str.split "." (a ++ "." ++ b ++ "." ++ c))).
    { change (a ++ "." ++ b ++ "." ++ c)
        with (a ++ String "." (b ++ String "." c)).
      rewrite !ShapeFacts.split_length_app.
      pose proof (ShapeFacts.split_length_pos "." a).
      pose proof (ShapeFacts.split_length_pos "." b).
      pose proof (ShapeFacts.split_length_pos "." c). lia. }
    destruct (Str.split "." (a ++ "." ++ b ++ "." ++ c))
      as [|x [|y [|z l]]]; cbn [List.length] in L; try lia; reflexivity.
Qed.

(** X11. An attribute that is no argument.  For every root and every
    subconfig instance, an override (a command-line token
    [subconfig.name=value] or an entry of a file-based config) whose name
    is an attribute of the instance but not a key of its [arg_dict] (an
    inherited method or flag such as [to_dict], [locked] or [arg_dict])
    passes the membership test on [dir()] and raises [KeyError] when the
    descriptor is looked up; it is not reported as an unknown argument
    and assigns nothing. *)
Theorem inherited_name_key_error (fs : string -> option value)
    (foreign_dir : rattr -> list string) (r : root) (sc arg val : string)
    (o : obj) (ad : attr) (ks : list string) :
  MainBase.ident sc -> MainBase.ident arg ->
  MainBase.getattr r sc = Some (RObj o) ->
  BaseConfig.getattr o "arg_dict" = Some ad -> attr_keys ad = Ok ks ->
  Str.mem arg (BaseConfig.dir_obj o) = true -> Str.mem arg ks = false ->
  MainBase.override_token fs foreign_dir r (MainBase.dotted sc arg val)
  = Err PyKeyError /\
  forall v, MainBase.override_one foreign_dir r sc true arg v
            = Err PyKeyError.
Proof.
  intros Hsc Harg G A K D N. apply DictFacts.mem_false in N.
  assert (V : forall v, MainBase.validate_arg (RObj o) arg v = Err PyKeyError).
  { intro v. unfold MainBase.validate_arg. cbn [MainBase.as_obj bind].
    unfold BaseConfig.get_or_raise. rewrite A. cbn [bind].
    rewrite (ShapeFacts.getitem_absent _ _ _ K N). reflexivity. }
  split.
  - rewrite (TokenFacts.override_token_dotted fs foreign_dir r sc arg val
               Hsc Harg).
    unfold MainBase.get_or_raise. rewrite G. cbn [bind MainBase.dir_of].
    rewrite D. cbn [negb]. rewrite V. reflexivity.
  - intro v. unfold MainBase.override_one, MainBase.get_or_raise.
    rewrite G. cbn [bind MainBase.dir_of]. rewrite D. cbn [negb].
    rewrite V. reflexivity.
Qed.

(** X11, for the token [model.to_dict=1]. *)
Lemma inherited_name_key_error_witness :
  MainBase.override_token Example.no_file Example.no_dir Example.model_r1
    (MainBase.dotted "model" "to_dict" "1") = Err PyKeyError /\
  forall v, MainBase.override_one Example.no_dir Example.model_r1 "model"
              true "to_dict" v = Err PyKeyError.
Proof.
  apply (inherited_name_key_error Example.no_file Example.no_dir
           Example.model_r1 "model" "to_dict" "1" Example.model_obj1
           (match BaseConfig.getattr Example.model_obj1 "arg_dict" with
            | Some a => a
            | None => AOpaque
            end) ["model_type"]).
  - split; reflexivity.
  - split; reflexivity.
  - apply FreezeFacts.obj_default. vm_compute; reflexivity.
  - assert (B : match BaseConfig.getattr Example.model_obj1 "arg_dict" with
                 | Some _ => true
                 | None => false
                 end = true) by (vm_compute; reflexivity).
    destruct (BaseConfig.getattr Example.model_obj1 "arg_dict");
      [reflexivity|discriminate B].
  - vm_compute. reflexivity.
  - vm_compute. reflexivity.
  - vm_compute. reflexivity.
Defined.

(** X12. Undotted tokens.  On a root whose defaults are realised, a token
    [name=value] whose name has no dot and is not [config] raises the
    invalid-argument exception when the name is no subconfig; when it
    is one, the value is taken as the path of a JSON file and the token
    does what a file-based config holding that one subconfig does, with
    the same membership test, coercion and validation (and [OSError]
    when the file cannot be read). *)
Theorem undotted_token (fs : string -> option value)
    (foreign_dir : rattr -> list string) (r : root) (subs : list string)
    (name val : string) :
  MainBase.subconfigs r = Ok subs ->
  Str.contains "=" name = false -> Str.contains "." name = false ->
  name <> "config" ->
  (~ In name subs ->
   MainBase.override_token fs foreign_dir r (name ++ "=" ++ val)
   = Err InvalidArgumentName) /\
  (In name subs ->
   MainBase.override_token fs foreign_dir r (name ++ "=" ++ val)
   = let* subconfig := MainBase.load_json fs val in
     MainBase.override_with_filebased_args foreign_dir r
       [(name, subconfig)] true).
Proof.
  intros S He Hd Hc. unfold MainBase.subconfigs in S.
  destruct (MainBase.get_or_raise r "_MainBase__subconfigs") as [a|] eqn:G;
    [|discriminate].
  cbn [bind] in S. destruct a; try discriminate. injection S as ->.
  assert (T : MainBase.override_token fs foreign_dir r (name ++ "=" ++ val)
              = if Str.mem name subs
                then let* subconfig := MainBase.load_json fs val in
                     MainBase.override_individual_subconfig foreign_dir r
                       name subconfig true
                else Err InvalidArgumentName).
  { unfold MainBase.override_token.
    change (name ++ "=" ++ val) with (name ++ String "=" val).
    rewrite (StrFacts.split_once_app _ _ _ He).
    apply String.eqb_neq in Hc. rewrite Hc, Hd. cbn [negb].
    rewrite G. cbn [bind MainBase.rattr_contains].
    destruct (Str.mem name subs); reflexivity. }
  split; intro H.
  - apply DictFacts.mem_false in H. rewrite T, H. reflexivity.
  - apply DictFacts.mem_true in H. rewrite T, H.
    destruct (MainBase.load_json fs val) as [j|]; [|reflexivity].
    cbn [bind MainBase.override_with_filebased_args].
    rewrite ShapeFacts.bind_ret. reflexivity.
Qed.

(** X12, for the token [lr=0.1] on the root with the subconfig [model]
    alone. *)
Lemma undotted_token_witness :
  (~ In "lr" ["model"] ->
   MainBase.override_token Example.no_file Example.no_dir Example.model_r1
     ("lr" ++ "=" ++ "0.1") = Err InvalidArgumentName) /\
  (In "lr" ["model"] ->
   MainBase.override_token Example.no_file Example.no_dir Example.model_r1
     ("lr" ++ "=" ++ "0.1")
   = let* subconfig := MainBase.load_json Example.no_file "0.1" in
     MainBase.override_with_filebased_args Example.no_dir Example.model_r1
       [("lr", subconfig)] true).
Proof.
  apply (undotted_token Example.no_file Example.no_dir Example.model_r1
           ["model"] "lr" "0.1").
  - vm_compute. reflexivity.
  - reflexivity.
  - reflexivity.
  - discriminate.
Defined.

(** ** The log and the end of a [build] *)

Module LogFacts.
Import Observe.

Lemma prints_nil : prints [].
Proof. exists []. reflexivity. Qed.

Lemma prints_one (line : string) : prints [Print line].
Proof. exists [line]. reflexivity. Qed.

Lemma prints_app (a b : list event) : prints a -> prints b -> prints (a ++ b).
Proof.
  intros [la ->] [lb ->]. exists (la ++ lb)%list. now rewrite map_app.
Qed.

Lemma prints_bind {A B : Type} (m : io A) (f : A -> io B) :
  prints (fst m) -> (forall a, snd m = Ok a -> prints (fst (f a))) ->
  prints (fst (io_bind m f)).
Proof.
  intros Hm Hf. rewrite MonadFacts.fst_io_bind. apply prints_app; [exact Hm|].
  destruct (snd m) as [a|e] eqn:E; [apply Hf; reflexivity|apply prints_nil].
Qed.

Lemma prints_lift {A : Type} (m : res A) : prints (fst (lift m)).
Proof. apply prints_nil. Qed.

Lemma help_args_prints (ad : attr) (cfg : string)
    (items : list (string * entry)) :
  prints (fst (MainBase.help_args ad cfg items)).
Proof.
  induction items as [|[k v] items IH]; cbn [MainBase.help_args];
    [apply prints_lift|].
  apply prints_bind; [apply prints_lift|]. intros e _.
  apply prints_bind; [apply prints_lift|]. intros t _.
  apply prints_bind; [apply prints_one|]. intros _ _. exact IH.
Qed.

Lemma help_subconfigs_prints (r : root) (cfgs : list string) :
  prints (fst (MainBase.help_subconfigs r cfgs)).
Proof.
  induction cfgs as [|cfg cfgs IH]; cbn [MainBase.help_subconfigs];
    [apply prints_lift|].
  apply prints_bind; [apply prints_lift|]. intros val _.
  apply prints_bind; [apply prints_lift|]. intros o _.
  apply prints_bind; [apply prints_lift|]. intros hd _.
  apply prints_bind; [apply prints_lift|]. intros items _.
  apply prints_bind; [|intros _ _; exact IH].
  destruct items; [apply prints_lift|].
  apply prints_bind; [apply prints_lift|]. intros ad _.
  apply help_args_prints.
Qed.

Lemma listing_prints (r : root) : prints (fst (MainBase.listing r)).
Proof.
  unfold MainBase.listing.
  apply prints_bind; [apply prints_lift|]. intros prog _.
  apply prints_bind; [eexists; reflexivity|]. intros _ _.
  apply prints_bind; [apply prints_lift|]. intros cfgs _.
  apply help_subconfigs_prints.
Qed.

Lemma display_help_prints (r : root) (l : list string) :
  prints (fst (MainBase.display_help r l)).
Proof.
  unfold MainBase.display_help.
  destruct (Str.mem "--h" l || Str.mem "--help" l); [|apply prints_lift].
  apply prints_bind; [apply prints_lift|]. intros args _.
  apply prints_bind; [apply listing_prints|]. intros _ _. apply prints_lift.
Qed.

Lemma override_defaults_prints (fs : string -> option value)
    (foreign_dir : rattr -> list string) (r : root) (l : list string) :
  prints (fst (MainBase.override_defaults fs foreign_dir r l)).
Proof.
  unfold MainBase.override_defaults.
  apply prints_bind; [|intros; apply prints_lift].
  destruct (String.eqb _ _); [|apply prints_lift].
  apply prints_bind; [apply prints_one|]. intros; apply prints_lift.
Qed.

End LogFacts.

Module FlagFacts.
Import Observe.

Lemma truthy_set_obj (k key : string) (o : obj) (r : root) :
  truthy_at k r -> truthy_at k (dict_set key (RObj o) r).
Proof.
  intros [a [G T]]. destruct (String.eqb key k) eqn:E.
  - apply String.eqb_eq in E. subst key. exists (RObj o).
    split; [apply RootFacts.root_get_set_same|reflexivity].
  - apply String.eqb_neq in E. exists a. split; [|exact T].
    rewrite RootFacts.root_get_set_other; [exact G|congruence].
Qed.

Lemma truthy_set_other (k key : string) (a : rattr) (r : root) :
  key <> k -> truthy_at k r -> truthy_at k (dict_set key a r).
Proof.
  intros N [b [G T]]. exists b. split; [|exact T].
  rewrite RootFacts.root_get_set_other; [exact G|congruence].
Qed.

Lemma truthy_stable (k : string) : MainBase.stable (truthy_at k).
Proof.
  intros r r' [->|(cfg & o & o' & G & ->)] P; [exact P|].
  apply truthy_set_obj. exact P.
Qed.

Lemma realize_truthy (k : string) (cfgs : list string) (r r' : root) :
  MainBase.realize r cfgs = Ok r' -> truthy_at k r -> truthy_at k r'.
Proof.
  revert r; induction cfgs as [|cfg cfgs IH]; intros r H P.
  - injection H as <-. exact P.
  - cbn [MainBase.realize] in H.
    apply MonadFacts.bind_ok in H as [val [_ H]].
    apply MonadFacts.bind_ok in H as [o [_ H]].
    apply MonadFacts.bind_ok in H as [r1 [S H]].
    apply MonadFacts.bind_ok in H as [val1 [_ H]].
    apply MonadFacts.bind_ok in H as [o1 [_ H]].
    apply MonadFacts.bind_ok in H as [o2 [_ H]].
    apply CheckpointFacts.setattr_obj in S. subst r1.
    apply (IH _ H). unfold MainBase.update_obj.
    apply truthy_set_obj. apply truthy_set_obj. exact P.
Qed.

Lemma set_defaults_truthy (k : string) (r r' : root) :
  k <> MainBase.names_key ->
  MainBase.set_defaults r = Ok r' -> truthy_at k r -> truthy_at k r'.
Proof.
  intros N H P. unfold MainBase.set_defaults in H.
  apply MonadFacts.bind_ok in H as [reserved [_ H]].
  apply MonadFacts.bind_ok in H as [names [_ H]].
  apply MonadFacts.bind_ok in H as [r1 [S H]].
  apply MonadFacts.bind_ok in H as [cfgs [_ H]].
  apply (RootFacts.setattr_ok r r1 "_MainBase__subconfigs" _ eq_refl) in S.
  subst r1.
  apply (realize_truthy k _ _ _ H).
  apply truthy_set_other; [|exact P]. intro E. apply N. symmetry. exact E.
Qed.

Lemma attach_truthy (k : string) (keys : list string) (r r' : root) :
  k <> MainBase.names_key ->
  MainBase.attach_subconfigs r keys = Ok r' ->
  truthy_at k r -> truthy_at k r'.
Proof.
  intro N. revert r; induction keys as [|key keys IH]; intros r H P.
  - injection H as <-. exact P.
  - cbn [MainBase.attach_subconfigs] in H.
    apply MonadFacts.bind_ok in H as [o [_ H]].
    apply MonadFacts.bind_ok in H as [r1 [S H]].
    apply MonadFacts.bind_ok in H as [subs [_ H]].
    destruct subs; try discriminate.
    apply CheckpointFacts.setattr_obj in S. subst r1.
    apply (IH _ H). apply truthy_set_other.
    + intro E. apply N. symmetry. exact E.
    + apply truthy_set_obj. exact P.
Qed.

Section Steps.
Variable fs : string -> option value.
Variable foreign_dir : rattr -> list string.

Lemma override_defaults_truthy (k : string) (r r' : root)
    (l : list string) :
  snd (MainBase.override_defaults fs foreign_dir r l) = Ok r' ->
  truthy_at k r -> truthy_at k r'.
Proof.
  intros H P. rewrite OverrideFacts.override_defaults_result in H.
  apply MonadFacts.bind_ok in H as [r1 [F C]].
  apply (FrameFacts.cmdline_stable fs foreign_dir _ _ _ _
           (truthy_stable k) C).
  exact (FrameFacts.file_stage_stable fs foreign_dir _ _ _ _
           (truthy_stable k) F P).
Qed.

Lemma load_checkpoint_truthy (k : string) (r r' : root) :
  k <> MainBase.names_key -> k <> "_MainBase__eval" ->
  MainBase.load_checkpoint_config_if_indicated fs foreign_dir r = Ok r' ->
  truthy_at k r -> truthy_at k r'.
Proof.
  intros N1 N2 H P. unfold MainBase.load_checkpoint_config_if_indicated in H.
  apply MonadFacts.bind_ok in H as [subs [_ H]].
  destruct (MainBase.indicated subs); [|injection H as <-; exact P].
  apply MonadFacts.bind_ok in H as [subcfg [_ H]].
  apply MonadFacts.bind_ok in H as [o [_ H]].
  apply MonadFacts.bind_ok in H as [cp [_ H]].
  destruct cp as [v| |]; try discriminate. destruct v; try discriminate.
  apply MonadFacts.bind_ok in H as [config [_ H]].
  apply MonadFacts.bind_ok in H as [config' [_ H]].
  apply MonadFacts.bind_ok in H as [r1 [A H]].
  apply MonadFacts.bind_ok in H as [u [_ H]].
  apply MonadFacts.bind_ok in H as [r2 [F H]].
  apply (RootFacts.setattr_ok r2 r' "_MainBase__eval" _ eq_refl) in H.
  subst r'.
  apply truthy_set_other; [congruence|].
  apply (FrameFacts.filebased_stable foreign_dir _ _ _ _ _
           (truthy_stable k) F).
  exact (attach_truthy k _ _ _ N1 A P).
Qed.

Lemma freeze_truthy (k : string) (r r' : root) :
  MainBase.freeze_configs r = Ok r' -> truthy_at k r -> truthy_at k r'.
Proof.
  intros H P. unfold MainBase.freeze_configs in H.
  apply MonadFacts.bind_ok in H as [cfgs [_ H]].
  exact (FrozenSubconfigs.freeze_each_stable _ _ _ _ (truthy_stable k) H P).
Qed.

End Steps.

End FlagFacts.

Module NoSaveFacts.
Import Observe.

Section Finish.
Variable fs : string -> option value.
Variable foreign_dir : rattr -> list string.
Variable allocate : string -> string -> string.

Lemma flag_read (r : root) (flag : rattr) :
  truthy_at "_MainBase__dont_save" r ->
  MainBase.get_or_raise r "_MainBase__dont_save" = Ok flag ->
  MainBase.rattr_truthy flag = true.
Proof.
  intros [a [G T]] H. unfold MainBase.get_or_raise in H. rewrite G in H.
  injection H as <-. exact T.
Qed.

Lemma flag_at_freeze (r r2 r3 r4 : root) (args : list string) :
  truthy_at "_MainBase__dont_save" r ->
  snd (MainBase.override_defaults fs foreign_dir r args) = Ok r2 ->
  MainBase.load_checkpoint_config_if_indicated fs foreign_dir r2 = Ok r3 ->
  MainBase.freeze_configs r3 = Ok r4 ->
  truthy_at "_MainBase__dont_save" r4.
Proof.
  intros P H2 H3 H4.
  apply (FlagFacts.freeze_truthy _ _ _ H4).
  apply (FlagFacts.load_checkpoint_truthy fs foreign_dir
           "_MainBase__dont_save" _ _
           ltac:(unfold MainBase.names_key; discriminate)
           ltac:(discriminate) H3).
  exact (FlagFacts.override_defaults_truthy fs foreign_dir _ _ _ _ H2 P).
Qed.

Lemma finish_prints (r : root) (args : list string) (sd en : string) :
  truthy_at "_MainBase__dont_save" r ->
  prints (fst (MainBase.finish fs foreign_dir allocate r args sd en)).
Proof.
  intro P. unfold MainBase.finish.
  apply LogFacts.prints_bind; [apply LogFacts.override_defaults_prints|].
  intros r2 H2.
  apply LogFacts.prints_bind; [apply LogFacts.prints_lift|]. intros r3 H3.
  apply LogFacts.prints_bind; [apply LogFacts.prints_lift|]. intros ev _.
  apply LogFacts.prints_bind; [apply LogFacts.prints_lift|]. intros r4 H4.
  apply LogFacts.prints_bind; [apply LogFacts.prints_lift|]. intros flag Hf.
  apply LogFacts.prints_bind; [|intros; apply LogFacts.prints_lift].
  rewrite (flag_read r4 flag (flag_at_freeze _ _ _ _ _ P H2 H3 H4) Hf).
  apply LogFacts.prints_lift.
Qed.

Lemma finish_none (r r' : root) (args : list string) (sd en : string) :
  truthy_at "_MainBase__dont_save" r ->
  snd (MainBase.finish fs foreign_dir allocate r args sd en) = Ok r' ->
  MainBase.getattr r' "save_dir" = Some (RVal VNone).
Proof.
  intros P H. unfold MainBase.finish in H.
  rewrite MonadFacts.snd_io_bind in H.
  apply MonadFacts.bind_ok in H as [r2 [H2 H]].
  rewrite MonadFacts.snd_io_bind, MonadFacts.snd_lift in H.
  apply MonadFacts.bind_ok in H as [r3 [H3 H]].
  rewrite MonadFacts.snd_io_bind, MonadFacts.snd_lift in H.
  apply MonadFacts.bind_ok in H as [ev [_ H]].
  rewrite MonadFacts.snd_io_bind, MonadFacts.snd_lift in H.
  apply MonadFacts.bind_ok in H as [r4 [H4 H]].
  rewrite MonadFacts.snd_io_bind, MonadFacts.snd_lift in H.
  apply MonadFacts.bind_ok in H as [flag [Hf H]].
  rewrite (flag_read r4 flag (flag_at_freeze _ _ _ _ _ P H2 H3 H4) Hf) in H.
  cbn [negb] in H.
  rewrite MonadFacts.snd_io_bind, !MonadFacts.snd_lift in H.
  apply MonadFacts.bind_ok in H as [r5 [H5 H]].
  apply (RootFacts.setattr_ok r4 r5 "save_dir" _ eq_refl) in H5. subst r5.
  apply (RootFacts.setattr_ok _ r' "frozen" _ eq_refl) in H. subst r'.
  rewrite RootFacts.root_get_set_other by discriminate.
  apply RootFacts.root_get_set_same.
Qed.

End Finish.

End NoSaveFacts.

(** X13. A build that does not save.  For every root and every command
    line, [build(dont_save=True)] writes no file: whatever it does, its
    log holds printed lines only; and when it returns, the attribute
    [save_dir] of the root is [None]. *)
Theorem build_without_saving (fs : string -> option value)
    (foreign_dir : rattr -> list string) (today : string)
    (allocate : string -> string -> string) (r : root)
    (argv : list string) :
  Observe.prints
    (fst (MainBase.build fs foreign_dir today allocate r argv true)) /\
  forall r',
    snd (MainBase.build fs foreign_dir today allocate r argv true) = Ok r' ->
    MainBase.getattr r' "save_dir" = Some (RVal VNone).
Proof.
  rewrite PipelineFacts.build_unfold.
  assert (F : forall r0 r1,
             MainBase.setattr r "_MainBase__dont_save" (RVal (VBool true))
             = Ok r0 ->
             MainBase.set_defaults r0 = Ok r1 ->
             Observe.truthy_at "_MainBase__dont_save" r1).
  { intros r0 r1 H0 H1.
    apply (FlagFacts.set_defaults_truthy "_MainBase__dont_save" _ _
             ltac:(unfold MainBase.names_key; discriminate) H1).
    apply (RootFacts.setattr_ok r r0 "_MainBase__dont_save" _ eq_refl) in H0.
    subst r0. exists (RVal (VBool true)).
    split; [apply RootFacts.root_get_set_same|reflexivity]. }
  split.
  - apply LogFacts.prints_bind; [apply LogFacts.prints_lift|]. intros r0 H0.
    apply LogFacts.prints_bind; [apply LogFacts.prints_lift|]. intros r1 H1.
    apply LogFacts.prints_bind; [apply LogFacts.display_help_prints|].
    intros args _.
    apply NoSaveFacts.finish_prints. exact (F r0 r1 H0 H1).
  - intros r' H.
    rewrite MonadFacts.snd_io_bind, MonadFacts.snd_lift in H.
    apply MonadFacts.bind_ok in H as [r0 [H0 H]].
    rewrite MonadFacts.snd_io_bind, MonadFacts.snd_lift in H.
    apply MonadFacts.bind_ok in H as [r1 [H1 H]].
    rewrite MonadFacts.snd_io_bind in H.
    apply MonadFacts.bind_ok in H as [args [_ H]].
    exact (NoSaveFacts.finish_none fs foreign_dir allocate _ _ _ _ _
             (F r0 r1 H0 H1) H).
Qed.

Module SaveFacts.
Import Observe.

Lemma io_bind_ok {A B : Type} (m : io A) (f : A -> io B) (b : B) :
  snd (io_bind m f) = Ok b ->
  exists a, snd m = Ok a /\ snd (f a) = Ok b /\
            fst (io_bind m f) = (fst m ++ fst (f a))%list.
Proof.
  intro H. rewrite MonadFacts.snd_io_bind in H.
  apply MonadFacts.bind_ok in H as [a [Ha H]]. exists a.
  split; [exact Ha|]. split; [exact H|].
  rewrite MonadFacts.fst_io_bind, Ha. reflexivity.
Qed.

Lemma export_same (r r' : root) (cfgs : list string) (acc : export) :
  (forall cfg, In cfg cfgs -> MainBase.getattr r' cfg = MainBase.getattr r cfg)
  -> MainBase.export_subconfigs r' cfgs acc
     = MainBase.export_subconfigs r cfgs acc.
Proof.
  revert acc; induction cfgs as [|cfg cfgs IH]; intros acc H; [reflexivity|].
  cbn [MainBase.export_subconfigs]. unfold MainBase.get_or_raise.
  rewrite (H cfg (or_introl eq_refl)).
  destruct (MainBase.getattr r cfg) as [val|]; [|reflexivity]. cbn [bind].
  destruct (MainBase.as_obj val) as [o|]; [|reflexivity]. cbn [bind].
  destruct (BaseConfig.get_or_raise o "help_dict") as [hd|]; [|reflexivity].
  cbn [bind]. destruct (attr_keys hd) as [ks|]; [|reflexivity]. cbn [bind].
  destruct (MainBase.export_args o ks []) as [d|]; [|reflexivity].
  cbn [bind]. apply IH. intros c Hc. apply H. right. exact Hc.
Qed.

Lemma to_dict_after (r : root) (a b : rattr) (subs : list string) :
  MainBase.subconfigs
    (dict_set "frozen" b (dict_set "save_dir" a r)) = Ok subs ->
  ~ In "save_dir" subs -> ~ In "frozen" subs ->
  MainBase.to_dict (dict_set "frozen" b (dict_set "save_dir" a r))
  = MainBase.to_dict r.
Proof.
  intros S N1 N2.
  assert (S' : MainBase.subconfigs r = Ok subs).
  { unfold MainBase.subconfigs, MainBase.get_or_raise in *.
    rewrite !RootFacts.root_get_set_other in S by discriminate. exact S. }
  unfold MainBase.to_dict. rewrite S, S'. cbn [bind].
  apply export_same. intros cfg Hc.
  rewrite !RootFacts.root_get_set_other; [reflexivity| |];
    intro E; subst cfg; contradiction.
Qed.

End SaveFacts.

(** ** [build] with [SessionSaver] in place *)

Module PersistFacts.
Import Observe.

Section World.
Variable world : Type.
Variable path_exists : world -> string -> bool.
Variable makedirs : world -> string -> res world.
Variable walk : world -> string -> list string.

(** [SessionSaver] prints, and writes no file of its own. *)
Lemma configure_prints (w : world) (sd en : string) :
  prints (fst (SessionSaver.configure_save_dir_and_run_id world path_exists
                 makedirs walk w sd en)).
Proof.
  unfold SessionSaver.configure_save_dir_and_run_id.
  apply LogFacts.prints_bind; [apply LogFacts.prints_lift|]. intros w1 _.
  destruct (Nat.eqb _ 1).
  - apply LogFacts.prints_bind; [apply LogFacts.prints_lift|]. intros w2 _.
    apply LogFacts.prints_bind; [apply LogFacts.prints_one|]. intros _ _.
    apply LogFacts.prints_lift.
  - apply LogFacts.prints_bind; [apply LogFacts.prints_lift|]. intros ids _.
    apply LogFacts.prints_bind; [apply LogFacts.prints_lift|]. intros m _.
    apply LogFacts.prints_bind; [apply LogFacts.prints_lift|]. intros name _.
    apply LogFacts.prints_bind; [apply LogFacts.prints_one|]. intros _ _.
    apply LogFacts.prints_bind; [apply LogFacts.prints_one|]. intros _ _.
    apply LogFacts.prints_bind; [apply LogFacts.prints_one|]. intros _ _.
    apply LogFacts.prints_bind; [apply LogFacts.prints_one|]. intros _ _.
    apply LogFacts.prints_bind; [apply LogFacts.prints_one|]. intros _ _.
    apply LogFacts.prints_bind; [apply LogFacts.prints_lift|]. intros w2 _.
    apply LogFacts.prints_lift.
Qed.

Lemma create_prints (w : world) (sd en : string) :
  prints (fst (SessionSaver.create_save_dir world path_exists makedirs walk
                 w sd en)).
Proof.
  unfold SessionSaver.create_save_dir.
  apply LogFacts.prints_bind; [apply configure_prints|].
  intros [w1 [p id]] _. apply LogFacts.prints_lift.
Qed.

Variable fs : string -> option value.
Variable foreign_dir : rattr -> list string.
Variable today : string.

(** The steps of a [build] that returns. *)
Lemma persist_inv (w w' : world) (r r' : root) (argv : list string)
    (dont_save : bool) :
  snd (Persist.build world path_exists makedirs walk fs foreign_dir today
         w r argv dont_save) = Ok (w', r') ->
  exists r0 r1 args r2 r3 ev r4 flag r5,
    MainBase.setattr r "_MainBase__dont_save" (RVal (VBool dont_save))
    = Ok r0 /\
    MainBase.set_defaults r0 = Ok r1 /\
    snd (MainBase.display_help r1 (filter MainBase.keep argv)) = Ok args /\
    snd (MainBase.override_defaults fs foreign_dir r1 args) = Ok r2 /\
    MainBase.load_checkpoint_config_if_indicated fs foreign_dir r2 = Ok r3 /\
    MainBase.get_or_raise r3 "_MainBase__eval" = Ok ev /\
    MainBase.freeze_configs r3 = Ok r4 /\
    MainBase.get_or_raise r4 "_MainBase__dont_save" = Ok flag /\
    MainBase.setattr r5 "frozen" (RVal (VBool true)) = Ok r' /\
    let sd := Str.after_last "=" (fst (MainBase.picked argv "results" today))
    in
    let en := Str.after_last "=" (snd (MainBase.picked argv "results" today))
    in
    let sd' := if MainBase.rattr_truthy ev && String.eqb sd "results"
               then "eval_results" else sd in
    ((MainBase.rattr_truthy flag = true /\ w' = w /\
      MainBase.setattr r4 "save_dir" (RVal VNone) = Ok r5 /\
      exists lines,
        fst (Persist.build world path_exists makedirs walk fs foreign_dir
               today w r argv dont_save) = map Print lines) \/
     (MainBase.rattr_truthy flag = false /\
      exists p E lines,
        snd (SessionSaver.create_save_dir world path_exists makedirs walk w
               sd' en) = Ok (w', p) /\
        MainBase.to_dict r4 = Ok E /\
        snd (MainBase.save_configs r4 p) = Ok tt /\
        MainBase.setattr r4 "save_dir" (RVal (VStr p)) = Ok r5 /\
        fst (Persist.build world path_exists makedirs walk fs foreign_dir
               today w r argv dont_save)
        = (map Print lines
           ++ [SaveJson (Str.path_join p "config.json") E])%list)).
Proof.
  unfold Persist.build. rewrite ScanFacts.step1_spec. intro H.
  apply SaveFacts.io_bind_ok in H as (r0 & H0 & H & ->).
  apply SaveFacts.io_bind_ok in H as (r1 & H1 & H & ->).
  destruct (LogFacts.display_help_prints r1 (filter MainBase.keep argv))
    as [l1 L1].
  apply SaveFacts.io_bind_ok in H as (args & Ha & H & ->). rewrite L1.
  destruct (LogFacts.override_defaults_prints fs foreign_dir r1 args)
    as [l2 L2].
  apply SaveFacts.io_bind_ok in H as (r2 & H2 & H & ->). rewrite L2.
  apply SaveFacts.io_bind_ok in H as (r3 & H3 & H & ->).
  apply SaveFacts.io_bind_ok in H as (ev & He & H & ->).
  apply SaveFacts.io_bind_ok in H as (r4 & H4 & H & ->).
  apply SaveFacts.io_bind_ok in H as (flag & Hf & H & ->).
  apply SaveFacts.io_bind_ok in H as ([w5 r5] & H5 & H & ->).
  apply SaveFacts.io_bind_ok in H as (r6 & H6 & H & ->).
  cbn [lift fst snd app] in *. rewrite !app_nil_r.
  injection H as -> ->.
  exists r0, r1, args, r2, r3, ev, r4, flag, r5.
  repeat (split; [assumption|]).
  cbv zeta.
  destruct (MainBase.rattr_truthy flag); cbn [negb] in *.
  - left. split; [reflexivity|].
    apply SaveFacts.io_bind_ok in H5 as (r7 & H7 & H5 & ->).
    cbn [lift fst snd app] in *. injection H5 as -> ->.
    split; [reflexivity|]. split; [exact H7|].
    exists (l1 ++ l2)%list. rewrite app_nil_r. now rewrite map_app.
  - right. split; [reflexivity|].
    match type of H5 with
    | snd (io_bind ?m _) = _ =>
        destruct (create_prints w
                    (if MainBase.rattr_truthy ev &&
                        String.eqb
                          (Str.after_last "="
                             (fst (MainBase.picked argv "results" today)))
                          "results"
                     then "eval_results"
                     else Str.after_last "="
                            (fst (MainBase.picked argv "results" today)))
                    (Str.after_last "="
                       (snd (MainBase.picked argv "results" today))))
          as [l3 L3]
    end.
    apply SaveFacts.io_bind_ok in H5 as ([w7 p] & H7 & H5 & ->).
    rewrite L3.
    apply SaveFacts.io_bind_ok in H5 as (u & Hs & H5 & ->).
    apply SaveFacts.io_bind_ok in H5 as (r8 & H8 & H5 & ->).
    cbn [lift fst snd app] in *. injection H5 as -> ->.
    assert (Hu : snd (MainBase.save_configs r4 p) = Ok tt)
      by (destruct u; exact Hs).
    unfold MainBase.save_configs in Hs |- *.
    apply SaveFacts.io_bind_ok in Hs as (E & HE & Hs & ->).
    cbn [lift fst snd app] in *.
    destruct (forallb _ E); [|discriminate].
    cbn [fst]. rewrite !app_nil_r.
    exists p, E, (l1 ++ l2 ++ l3)%list.
    repeat (split; [assumption|]).
    rewrite !map_app, <- !app_assoc. reflexivity.
Qed.

End World.

(** The saved [build] of the root with the subconfig [model] alone, on
    an empty file system. *)
Lemma build_on_empty :
  snd (Example.build_on Example.no_file [] Example.model_root
         ["save_dir=out"] false)
  = Ok (["out/2024-01-31"; "out/2024-01-31/1"], Example.saved_on_empty).
Proof.
  unfold Example.saved_on_empty.
  destruct (snd (Example.build_on Example.no_file [] Example.model_root
                   ["save_dir=out"] false)) as [[w r]|e] eqn:E.
  - f_equal. f_equal.
    assert (F : match snd (Example.build_on Example.no_file []
                             Example.model_root ["save_dir=out"] false)
                with
                | Ok (w, _) => w
                | Err _ => []
                end = ["out/2024-01-31"; "out/2024-01-31/1"])
      by (vm_compute; reflexivity).
    rewrite E in F. exact F.
  - assert (F : is_ok (snd (Example.build_on Example.no_file []
                              Example.model_root ["save_dir=out"] false))
                = true) by (vm_compute; reflexivity).
    rewrite E in F. discriminate.
Qed.

End PersistFacts.

(** X14. What is persisted.  [build] is taken with [SessionSaver] run
    on the file system.  Whenever it returns a root whose [save_dir]
    attribute is a text (the run was saved), and the names [save_dir] and
    [frozen] are not subconfigs, the log of the call -- the lines of
    [SessionSaver] included -- is a list of printed lines followed by one
    write, of the file [config.json] in that directory; the content
    written is what [to_dict] answers on the returned root, and the
    directory is the one [__create_save_dir] returned on the file system
    the call started from. *)
Theorem persisted_is_export (world : Type)
    (path_exists : world -> string -> bool)
    (makedirs : world -> string -> res world)
    (walk : world -> string -> list string)
    (fs : string -> option value) (foreign_dir : rattr -> list string)
    (today : string) (w w' : world) (r r' : root)
    (argv subs : list string) (dont_save : bool) (p : string) :
  snd (Persist.build world path_exists makedirs walk fs foreign_dir today
         w r argv dont_save) = Ok (w', r') ->
  MainBase.getattr r' "save_dir" = Some (RVal (VStr p)) ->
  MainBase.subconfigs r' = Ok subs ->
  ~ In "save_dir" subs -> ~ In "frozen" subs ->
  exists lines E sd en,
    fst (Persist.build world path_exists makedirs walk fs foreign_dir today
           w r argv dont_save)
    = (map Print lines ++ [SaveJson (Str.path_join p "config.json") E])%list
    /\ MainBase.to_dict r' = Ok E
    /\ snd (SessionSaver.create_save_dir world path_exists makedirs walk w
              sd en) = Ok (w', p).
Proof.
  intros H G S N1 N2.
  destruct (PersistFacts.persist_inv world path_exists makedirs walk fs
              foreign_dir today w w' r r' argv dont_save H)
    as (r0 & r1 & args & r2 & r3 & ev & r4 & flag & r5 & _ & _ & _ & _ & _
        & _ & _ & _ & Hz & C).
  cbv zeta in C.
  apply (RootFacts.setattr_ok r5 r' "frozen" _ eq_refl) in Hz. subst r'.
  rewrite RootFacts.root_get_set_other in G by discriminate.
  destruct C as [(_ & _ & Hs & _) | (_ & q & E & lines & Hc & HE & _ & Hs & L)].
  - apply (RootFacts.setattr_ok r4 r5 "save_dir" _ eq_refl) in Hs. subst r5.
    rewrite RootFacts.root_get_set_same in G. discriminate.
  - apply (RootFacts.setattr_ok r4 r5 "save_dir" _ eq_refl) in Hs. subst r5.
    rewrite RootFacts.root_get_set_same in G. injection G as ->.
    exists lines, E. eexists. eexists.
    split; [exact L|]. split; [|exact Hc].
    rewrite (SaveFacts.to_dict_after _ _ _ _ S N1 N2). exact HE.
Qed.

(** X14, for a saved build of the root with the subconfig [model] alone
    on an empty file system. *)
Lemma persisted_is_export_witness :
  exists lines E sd en,
    fst (Example.build_on Example.no_file [] Example.model_root
           ["save_dir=out"] false)
    = (map Print lines
       ++ [SaveJson (Str.path_join "out/2024-01-31/1" "config.json") E])%list
    /\ MainBase.to_dict Example.saved_on_empty = Ok E
    /\ snd (SessionSaver.create_save_dir Example.dirs Example.dir_exists
              Example.make_dir Example.walk_dirs [] sd en)
       = Ok (["out/2024-01-31"; "out/2024-01-31/1"], "out/2024-01-31/1").
Proof.
  apply (persisted_is_export Example.dirs Example.dir_exists Example.make_dir
           Example.walk_dirs Example.no_file Example.no_dir Example.a_day
           [] ["out/2024-01-31"; "out/2024-01-31/1"]
           Example.model_root Example.saved_on_empty
           ["save_dir=out"] ["model"] false "out/2024-01-31/1").
  - exact PersistFacts.build_on_empty.
  - vm_compute; reflexivity.
  - vm_compute; reflexivity.
  - intros [H|[]]; discriminate H.
  - intros [H|[]]; discriminate H.
Defined.

(** X15. The subconfigs after a build.  Whenever [build] returns, every
    name of [__subconfigs] other than [save_dir] and [frozen] holds a
    subconfig instance that is frozen, and every assignment to an
    attribute of that instance raises, whatever the name and the
    value. *)
Theorem subconfigs_frozen_after_build (fs : string -> option value)
    (foreign_dir : rattr -> list string) (today : string)
    (allocate : string -> string -> string) (r r' : root)
    (argv names : list string) (dont_save : bool) (cfg : string) :
  snd (MainBase.build fs foreign_dir today allocate r argv dont_save)
  = Ok r' ->
  MainBase.subconfigs r' = Ok names -> In cfg names ->
  cfg <> "save_dir" -> cfg <> "frozen" ->
  exists o,
    MainBase.getattr r' cfg = Some (RObj o) /\
    BaseConfig.is_frozen o = true /\
    forall key v, is_ok (BaseConfig.setattr o key v) = false.
Proof.
  intros H S Hin N1 N2.
  destruct (FrozenSubconfigs.build_freezes_subconfigs fs foreign_dir today
              allocate r r' argv names dont_save cfg H S Hin N1 N2)
    as (o & G & F & R).
  exists o. split; [exact G|]. split; [exact F|].
  intros key v. destruct (R key v) as [e ->]. reflexivity.
Qed.

(** X15, for the subconfig [model] of a built root. *)
Lemma subconfigs_frozen_after_build_witness :
  exists o,
    MainBase.getattr Example.built_model "model" = Some (RObj o) /\
    BaseConfig.is_frozen o = true /\
    forall key v, is_ok (BaseConfig.setattr o key v) = false.
Proof.
  apply (subconfigs_frozen_after_build Example.no_file Example.no_dir
           Example.a_day Example.run_dir Example.model_root
           Example.built_model [] ["model"] true "model").
  - apply (FreezeFacts.ok_default (snd Example.build_model) []).
    vm_compute; reflexivity.
  - vm_compute; reflexivity.
  - left; reflexivity.
  - discriminate.
  - discriminate.
Defined.

(** ** The directory a run is saved in *)

Module SaveDirFacts.

Section Finish.
Variable fs : string -> option value.
Variable foreign_dir : rattr -> list string.
Variable allocate : string -> string -> string.

Lemma finish_directory (r r' : root) (args : list string)
    (sd en p : string) (ev : value) :
  snd (MainBase.finish fs foreign_dir allocate r args sd en) = Ok r' ->
  MainBase.getattr r' "save_dir" = Some (RVal (VStr p)) ->
  MainBase.getattr r' "_MainBase__eval" = Some (RVal ev) ->
  p = allocate (if truthy ev && String.eqb sd "results"
                then "eval_results" else sd) en.
Proof.
  intros H G E. unfold MainBase.finish in H.
  rewrite MonadFacts.snd_io_bind in H.
  apply MonadFacts.bind_ok in H as [r2 [H2 H]].
  rewrite MonadFacts.snd_io_bind, MonadFacts.snd_lift in H.
  apply MonadFacts.bind_ok in H as [r3 [H3 H]].
  rewrite MonadFacts.snd_io_bind, MonadFacts.snd_lift in H.
  apply MonadFacts.bind_ok in H as [ev3 [He H]].
  rewrite MonadFacts.snd_io_bind, MonadFacts.snd_lift in H.
  apply MonadFacts.bind_ok in H as [r4 [H4 H]].
  rewrite MonadFacts.snd_io_bind, MonadFacts.snd_lift in H.
  apply MonadFacts.bind_ok in H as [flag [Hf H]].
  rewrite MonadFacts.snd_io_bind in H.
  apply MonadFacts.bind_ok in H as [r5 [H5 H]]. cbn [snd lift] in H.
  apply (RootFacts.setattr_ok r5 r' "frozen" _ eq_refl) in H. subst r'.
  assert (E4 : MainBase.getattr r4 "_MainBase__eval" = Some (RVal ev)).
  { destruct (negb (MainBase.rattr_truthy flag)).
    - rewrite MonadFacts.snd_io_bind in H5.
      apply MonadFacts.bind_ok in H5 as [u [_ H5]]. cbn [snd lift] in H5.
      apply (RootFacts.setattr_ok r4 r5 "save_dir" _ eq_refl) in H5.
      subst r5.
      rewrite !RootFacts.root_get_set_other in E by discriminate. exact E.
    - cbn [snd lift] in H5.
      apply (RootFacts.setattr_ok r4 r5 "save_dir" _ eq_refl) in H5.
      subst r5.
      rewrite !RootFacts.root_get_set_other in E by discriminate. exact E. }
  assert (E3 : MainBase.getattr r3 "_MainBase__eval" = Some (RVal ev)).
  { unfold MainBase.freeze_configs in H4.
    apply MonadFacts.bind_ok in H4 as [cfgs [_ H4]].
    destruct (in_dec string_dec "_MainBase__eval" cfgs) as [I|I].
    - destruct (FrozenSubconfigs.freeze_each_frozen _ _ _ _ H4 I)
        as (o & Go & _). congruence.
    - rewrite <- (FrozenSubconfigs.freeze_each_other _ _ _ _ H4 I).
      exact E4. }
  unfold MainBase.get_or_raise in He. rewrite E3 in He. injection He as <-.
  cbn [MainBase.rattr_truthy] in H5.
  destruct (negb (MainBase.rattr_truthy flag)).
  - rewrite MonadFacts.snd_io_bind in H5.
    apply MonadFacts.bind_ok in H5 as [u [_ H5]]. cbn [snd lift] in H5.
    apply (RootFacts.setattr_ok r4 r5 "save_dir" _ eq_refl) in H5. subst r5.
    rewrite RootFacts.root_get_set_other in G by discriminate.
    rewrite RootFacts.root_get_set_same in G. injection G as <-.
    reflexivity.
  - cbn [snd lift] in H5.
    apply (RootFacts.setattr_ok r4 r5 "save_dir" _ eq_refl) in H5. subst r5.
    rewrite RootFacts.root_get_set_other in G by discriminate.
    rewrite RootFacts.root_get_set_same in G. discriminate.
Qed.

End Finish.

End SaveDirFacts.

(** X16. The directory of a saved run.  Whenever [build] returns a root
    whose [save_dir] attribute is a text, that text is the run directory
    allocated for the directory and the experiment name that step 1 read
    from the command line, except that in evaluation mode (the private
    flag [__eval] is true) the directory [results], whether it is the
    default or was given on the command line, is replaced by
    [eval_results]. *)
Theorem saved_run_directory (fs : string -> option value)
    (foreign_dir : rattr -> list string) (today : string)
    (allocate : string -> string -> string) (r r' : root)
    (argv args : list string) (dont_save : bool) (sd en p : string)
    (ev : value) :
  MainBase.set_save_dir_experiment_name today argv = (args, sd, en) ->
  snd (MainBase.build fs foreign_dir today allocate r argv dont_save)
  = Ok r' ->
  MainBase.getattr r' "save_dir" = Some (RVal (VStr p)) ->
  MainBase.getattr r' "_MainBase__eval" = Some (RVal ev) ->
  p = allocate (if truthy ev && String.eqb sd "results"
                then "eval_results" else sd) en.
Proof.
  intros S H G E. rewrite PipelineFacts.build_unfold in H.
  rewrite ScanFacts.step1_spec in S. injection S as _ <- <-.
  rewrite MonadFacts.snd_io_bind, MonadFacts.snd_lift in H.
  apply MonadFacts.bind_ok in H as [r0 [_ H]].
  rewrite MonadFacts.snd_io_bind, MonadFacts.snd_lift in H.
  apply MonadFacts.bind_ok in H as [r1 [_ H]].
  rewrite MonadFacts.snd_io_bind in H.
  apply MonadFacts.bind_ok in H as [a [_ H]].
  exact (SaveDirFacts.finish_directory fs foreign_dir allocate _ _ _ _ _ _ _
           H G E).
Qed.

(** X16, in evaluation mode with no directory on the command line. *)
Lemma saved_run_directory_witness :
  "eval_results/2024-01-31/1"
  = Example.run_dir (if truthy (VBool true) && String.eqb "results" "results"
                     then "eval_results" else "results") "2024-01-31".
Proof.
  apply (saved_run_directory Example.ckpt_fs Example.no_dir Example.a_day
           Example.run_dir Example.eval_root Example.saved_eval [] []
           false "results" "2024-01-31" "eval_results/2024-01-31/1"
           (VBool true)).
  - vm_compute; reflexivity.
  - apply (FreezeFacts.ok_default
             (snd (MainBase.build Example.ckpt_fs Example.no_dir
                     Example.a_day Example.run_dir Example.eval_root []
                     false)) []).
    vm_compute; reflexivity.
  - vm_compute; reflexivity.
  - vm_compute; reflexivity.
Defined.

(** ** The defaults and the export of a subconfig *)

Module DefaultsFacts.

Lemma call_class (a : rattr) (o : obj) :
  MainBase.call a = Ok o ->
  exists c, a = RClass c /\ BaseConfig.instantiate c = Ok o.
Proof.
  destruct a; try discriminate. intro H. exists c. split; [reflexivity|exact H].
Qed.

Lemma locked_after (o : obj) :
  BaseConfig.is_locked (dict_set "locked" (AVal (VBool true)) o) = true.
Proof.
  unfold BaseConfig.is_locked. rewrite StoreFacts.getattr_set_same.
  reflexivity.
Qed.

Lemma realize_spec (cfgs : list string) (r r' : root) :
  MainBase.realize r cfgs = Ok r' ->
  (forall n, In n cfgs ->
     exists c o,
       MainBase.getattr r n = Some (RClass c) /\
       BaseConfig.instantiate c = Ok o /\
       MainBase.getattr r' n
       = Some (RObj (dict_set "locked" (AVal (VBool true)) o))) /\
  (forall k, ~ In k cfgs -> MainBase.getattr r' k = MainBase.getattr r k).
Proof.
  revert r; induction cfgs as [|cfg rest IH]; intros r H.
  - injection H as <-. split; [intros n []|reflexivity].
  - cbn [MainBase.realize] in H.
    apply MonadFacts.bind_ok in H as [val [Hv H]].
    apply MonadFacts.bind_ok in H as [o [Hc H]].
    apply MonadFacts.bind_ok in H as [r1 [S H]].
    apply MonadFacts.bind_ok in H as [val1 [Hv1 H]].
    apply MonadFacts.bind_ok in H as [o1 [Ho1 H]].
    apply MonadFacts.bind_ok in H as [o2 [Hl H]].
    apply CheckpointFacts.setattr_obj in S. subst r1.
    apply call_class in Hc as [c [-> Hi]].
    unfold MainBase.get_or_raise in Hv, Hv1.
    rewrite RootFacts.root_get_set_same in Hv1. injection Hv1 as <-.
    injection Ho1 as <-.
    apply (RootFacts.obj_setattr_ok _ _ "locked" _ eq_refl) in Hl. subst o2.
    destruct (MainBase.getattr r cfg) as [a|] eqn:G; [|discriminate].
    injection Hv as ->.
    destruct (IH _ H) as [A B].
    assert (G2 : forall k, k <> cfg ->
              MainBase.getattr
                (MainBase.update_obj (dict_set cfg (RObj o) r) cfg
                   (dict_set "locked" (AVal (VBool true)) o)) k
              = MainBase.getattr r k).
    { intros k N. unfold MainBase.update_obj.
      rewrite !RootFacts.root_get_set_other by exact N. reflexivity. }
    assert (G3 : MainBase.getattr
                (MainBase.update_obj (dict_set cfg (RObj o) r) cfg
                   (dict_set "locked" (AVal (VBool true)) o)) cfg
              = Some (RObj (dict_set "locked" (AVal (VBool true)) o))).
    { unfold MainBase.update_obj. apply RootFacts.root_get_set_same. }
    split.
    + intros n Hn.
      destruct (in_dec string_dec n rest) as [I|I].
      * destruct (A n I) as (c' & o' & Gc & Hi' & Gr).
        destruct (string_dec n cfg) as [->|N].
        -- rewrite G3 in Gc. discriminate.
        -- exists c', o'. rewrite <- (G2 n N). split; [exact Gc|].
           split; assumption.
      * destruct Hn as [<-|Hn]; [|contradiction].
        exists c, o. split; [exact G|]. split; [exact Hi|].
        rewrite (B cfg I). exact G3.
    + intros k N. rewrite B.
      * apply G2. intro E. apply N. left. symmetry. exact E.
      * intro I. apply N. right. exact I.
Qed.

Lemma filter_names_plain (reserved : rattr) (attrs names : list string) :
  MainBase.filter_names reserved attrs = Ok names ->
  forall n, In n names ->
    In n attrs /\ Str.contains "__" n = false /\
    MainBase.rattr_contains reserved n = Ok false.
Proof.
  revert names; induction attrs as [|a attrs IH]; intros names H n Hn.
  - injection H as <-. destruct Hn.
  - cbn [MainBase.filter_names] in H.
    destruct (Str.contains "__" a) eqn:D.
    + destruct (IH _ H n Hn) as (I & P). split; [right; exact I|exact P].
    + apply MonadFacts.bind_ok in H as [b [Hb H]].
      apply MonadFacts.bind_ok in H as [rest [Hr H]].
      injection H as <-. destruct b.
      * destruct (IH _ Hr n Hn) as (I & P). split; [right; exact I|exact P].
      * destruct Hn as [<-|Hn].
        -- split; [left; reflexivity|]. split; assumption.
        -- destruct (IH _ Hr n Hn) as (I & P).
           split; [right; exact I|exact P].
Qed.

Lemma filter_names_complete (reserved : rattr) (attrs names : list string) :
  MainBase.filter_names reserved attrs = Ok names ->
  forall n, In n attrs -> Str.contains "__" n = false ->
            MainBase.rattr_contains reserved n = Ok false -> In n names.
Proof.
  revert names; induction attrs as [|a attrs IH]; intros names H n I D R;
    [destruct I|].
  cbn [MainBase.filter_names] in H.
  destruct (Str.contains "__" a) eqn:Da.
  - destruct I as [->|I]; [congruence|]. exact (IH _ H n I D R).
  - apply MonadFacts.bind_ok in H as [b [Hb H]].
    apply MonadFacts.bind_ok in H as [rest [Hr H]]. injection H as <-.
    destruct I as [->|I].
    + rewrite R in Hb. injection Hb as <-. left. reflexivity.
    + destruct b; [|right]; exact (IH _ Hr n I D R).
Qed.

(** No method of [MainBase] or of [object] passes the filter of
    [__set_defaults] with the reserved names of the class: the attributes
    that are called are those of the instance dictionary. *)
Lemma methods_not_called :
  forallb (fun k => Str.contains "__" k
                    || Str.mem k MainBase.reserved_attributes)
    (MainBase.class_names ++ object_names) = true.
Proof. vm_compute; reflexivity. Qed.

(** What [__set_defaults] leaves for a name that held a subconfig
    class. *)
Lemma realize_class (cfgs : list string) (r r' : root) (n : string)
    (c : BaseConfig.cls) :
  MainBase.realize r cfgs = Ok r' -> In n cfgs ->
  MainBase.getattr r n = Some (RClass c) ->
  exists o,
    BaseConfig.instantiate c = Ok o /\
    MainBase.getattr r' n
    = Some (RObj (dict_set "locked" (AVal (VBool true)) o)).
Proof.
  intros H Hn G.
  destruct (DefaultsFacts.realize_spec _ _ _ H) as [A _].
  destruct (A n Hn) as (c' & o & Gc & Hi & Gr).
  rewrite G in Gc. injection Gc as <-. exists o. split; assumption.
Qed.

End DefaultsFacts.

(** X17. The defaults realised.  Whenever [__set_defaults] returns, the
    names it recorded as subconfigs are exactly the names of [dir()] of
    the root without a double underscore and outside
    [reserved_attributes], and every recorded name that held a subconfig
    class before the call holds afterwards the instance that calling this
    class gives, locked. *)
Theorem defaults_realised (r r1 : root) (names : list string) :
  MainBase.set_defaults r = Ok r1 ->
  MainBase.subconfigs r1 = Ok names ->
  (forall n,
     In n names <->
     In n (MainBase.dir_root r) /\ Str.contains "__" n = false /\
     (let* reserved := MainBase.get_or_raise r "reserved_attributes" in
      MainBase.rattr_contains reserved n) = Ok false) /\
  (forall n c,
     In n names -> MainBase.getattr r n = Some (RClass c) ->
     exists o,
       BaseConfig.instantiate c = Ok o /\
       MainBase.getattr r1 n
       = Some (RObj (dict_set "locked" (AVal (VBool true)) o)) /\
       BaseConfig.is_locked (dict_set "locked" (AVal (VBool true)) o) = true).
Proof.
  intros H S. unfold MainBase.set_defaults in H.
  apply MonadFacts.bind_ok in H as [reserved [Hres H]].
  apply MonadFacts.bind_ok in H as [names0 [Hf H]].
  apply MonadFacts.bind_ok in H as [r0 [S0 H]].
  apply MonadFacts.bind_ok in H as [cfgs [Hc H]].
  apply (RootFacts.setattr_ok r r0 "_MainBase__subconfigs" _ eq_refl) in S0.
  subst r0.
  unfold MainBase.subconfigs, MainBase.get_or_raise in Hc.
  rewrite RootFacts.root_get_set_same in Hc. injection Hc as <-.
  destruct (DefaultsFacts.realize_spec _ _ _ H) as [_ B].
  assert (P := DefaultsFacts.filter_names_plain _ _ _ Hf).
  assert (K : ~ In "_MainBase__subconfigs" names0).
  { intro I. destruct (P _ I) as (_ & D & _). discriminate D. }
  assert (E : names = names0).
  { unfold MainBase.subconfigs, MainBase.get_or_raise in S.
    rewrite (B _ K), RootFacts.root_get_set_same in S.
    injection S as <-. reflexivity. }
  subst names0. split.
  - intro n. rewrite Hres. cbn [bind]. split.
    + apply P.
    + intros (I & D & R).
      exact (DefaultsFacts.filter_names_complete _ _ _ Hf n I D R).
  - intros n c Hn G.
    destruct (DefaultsFacts.realize_class names _ r1 n c H Hn)
      as (o & Hi & Gr).
    + rewrite RootFacts.root_get_set_other; [exact G|].
      intro E. subst n. destruct (P _ Hn) as (_ & D & _). discriminate D.
    + exists o. split; [exact Hi|]. split; [exact Gr|].
      apply DefaultsFacts.locked_after.
Qed.

(** X17, for the subconfig [model]. *)
Lemma defaults_realised_witness :
  (In "model" ["model"] <->
   In "model" (MainBase.dir_root Example.model_r0) /\
   Str.contains "__" "model" = false /\
   (let* reserved := MainBase.get_or_raise Example.model_r0
                       "reserved_attributes" in
    MainBase.rattr_contains reserved "model") = Ok false) /\
  exists o,
    BaseConfig.instantiate Example.ModelConfig = Ok o /\
    MainBase.getattr Example.model_r1 "model"
    = Some (RObj (dict_set "locked" (AVal (VBool true)) o)) /\
    BaseConfig.is_locked (dict_set "locked" (AVal (VBool true)) o) = true.
Proof.
  assert (H1 : MainBase.set_defaults Example.model_r0 = Ok Example.model_r1).
  { apply FreezeFacts.ok_default. vm_compute; reflexivity. }
  assert (H2 : MainBase.subconfigs Example.model_r1 = Ok ["model"])
    by (vm_compute; reflexivity).
  split.
  - exact (proj1 (defaults_realised Example.model_r0 Example.model_r1
                    ["model"] H1 H2) "model").
  - apply (proj2 (defaults_realised Example.model_r0 Example.model_r1
                    ["model"] H1 H2) "model" Example.ModelConfig).
    + left; reflexivity.
    + reflexivity.
Defined.

Module ExportFacts.





End ExportFacts.



(** ** A file-based value and the default *)

Module FileFacts.

Section Items.
Variable foreign_dir : rattr -> list string.

Lemma override_one_inv (r r' : root) (sc k : string) (x : value) :
  BaseConfig.runtime_slot k = false ->
  MainBase.override_one foreign_dir r sc true k x = Ok r' ->
  exists o t validation v,
    MainBase.getattr r sc = Some (RObj o) /\
    BaseConfig.descriptor o k = Some (EDesc t validation) /\
    construct t x = Some v /\
    MainBase.check validation v = Ok v /\
    r' = MainBase.update_obj r sc (dict_set k (AVal v) o).
Proof.
  intros Sl H. unfold MainBase.override_one in H.
  apply MonadFacts.bind_ok in H as [subcfg [G H]].
  destruct (negb _); [discriminate|].
  apply MonadFacts.bind_ok in H as [v [V H]].
  apply MonadFacts.bind_ok in H as [o [O H]].
  apply MonadFacts.bind_ok in H as [o' [S H]]. injection H as <-.
  destruct subcfg; try discriminate. injection O as ->.
  destruct (PrecedenceFacts.validate_ok _ _ _ _ V)
    as (t & validation & D & C & K).
  apply (RootFacts.obj_setattr_ok _ _ _ _ Sl) in S. subst o'.
  unfold MainBase.get_or_raise in G.
  destruct (MainBase.getattr r sc) as [a|] eqn:E; [|discriminate].
  injection G as ->.
  exists o, t, validation, v. repeat split; assumption.
Qed.

Lemma items_preserve (items : list (string * value)) (r r' : root)
    (sc arg : string) (o : obj) :
  MainBase.override_items foreign_dir r sc true items = Ok r' ->
  ~ In arg (dict_keys items) ->
  (forall k, In k (dict_keys items) ->
     Str.mem k BaseConfig.reserved_attributes = false /\
     BaseConfig.runtime_slot k = false) ->
  MainBase.getattr r sc = Some (RObj o) ->
  exists ofin,
    MainBase.getattr r' sc = Some (RObj ofin) /\
    BaseConfig.getattr ofin arg = BaseConfig.getattr o arg /\
    BaseConfig.getattr ofin "arg_dict" = BaseConfig.getattr o "arg_dict".
Proof.
  revert r o; induction items as [|[k x] items IH]; intros r o H N P G.
  - injection H as <-. exists o. repeat split; assumption.
  - cbn [MainBase.override_items] in H.
    apply MonadFacts.bind_ok in H as [r1 [H1 H]].
    destruct (P k (or_introl eq_refl)) as [Pr Ps].
    destruct (override_one_inv _ _ _ _ _ Ps H1)
      as (o1 & t & validation & v & G1 & _ & _ & _ & ->).
    rewrite G in G1. injection G1 as <-.
    destruct (IH _ (dict_set k (AVal v) o) H) as (ofin & Gf & Ga & Gd).
    + intro I. apply N. right. exact I.
    + intros k' I. apply P. right. exact I.
    + unfold MainBase.update_obj. apply RootFacts.root_get_set_same.
    + exists ofin. split; [exact Gf|]. split.
      * rewrite Ga. apply StoreFacts.getattr_set_other.
        intro E. apply N. left. symmetry. exact E.
      * rewrite Gd. apply StoreFacts.getattr_set_other.
        intro E. subst k. discriminate Pr.
Qed.

Lemma items_entry (items : list (string * value)) (r r' : root)
    (sc arg : string) (raw : value) :
  MainBase.override_items foreign_dir r sc true items = Ok r' ->
  NoDup (dict_keys items) -> In (arg, raw) items ->
  (forall k, In k (dict_keys items) ->
     Str.mem k BaseConfig.reserved_attributes = false /\
     BaseConfig.runtime_slot k = false) ->
  exists o t validation v ofin,
    MainBase.getattr r sc = Some (RObj o) /\
    BaseConfig.descriptor o arg = Some (EDesc t validation) /\
    construct t raw = Some v /\
    MainBase.check validation v = Ok v /\
    MainBase.getattr r' sc = Some (RObj ofin) /\
    BaseConfig.getattr ofin arg = Some (AVal v) /\
    BaseConfig.getattr ofin "arg_dict" = BaseConfig.getattr o "arg_dict".
Proof.
  revert r; induction items as [|[k x] items IH]; intros r H D I P;
    [destruct I|].
  cbn [MainBase.override_items] in H.
  apply MonadFacts.bind_ok in H as [r1 [H1 H]].
  destruct (P k (or_introl eq_refl)) as [Pr Ps].
  destruct (override_one_inv _ _ _ _ _ Ps H1)
    as (o & t & validation & v & G & Dk & C & K & ->).
  cbn [dict_keys map fst] in D. inversion D as [|? ? Nk D']. subst.
  assert (P' : forall k', In k' (dict_keys items) ->
            Str.mem k' BaseConfig.reserved_attributes = false /\
            BaseConfig.runtime_slot k' = false).
  { intros k' I'. apply P. right. exact I'. }
  assert (G1 : MainBase.getattr
                 (MainBase.update_obj r sc (dict_set k (AVal v) o)) sc
               = Some (RObj (dict_set k (AVal v) o))).
  { unfold MainBase.update_obj. apply RootFacts.root_get_set_same. }
  assert (Nad : "arg_dict" <> k).
  { intro E. subst k. discriminate Pr. }
  destruct I as [E|I].
  - injection E as -> ->.
    destruct (items_preserve _ _ _ _ arg _ H Nk P' G1)
      as (ofin & Gf & Ga & Gd).
    exists o, t, validation, v, ofin.
    split; [exact G|]. split; [exact Dk|]. split; [exact C|].
    split; [exact K|]. split; [exact Gf|]. split.
    + rewrite Ga. apply StoreFacts.getattr_set_same.
    + rewrite Gd. apply StoreFacts.getattr_set_other. exact Nad.
  - destruct (IH _ H D' I P')
      as (o1 & t1 & val1 & v1 & ofin & G1' & D1 & C1 & K1 & Gf & Ga & Gd).
    rewrite G1 in G1'. injection G1' as <-.
    assert (Ead : BaseConfig.getattr (dict_set k (AVal v) o) "arg_dict"
                  = BaseConfig.getattr o "arg_dict")
      by (apply StoreFacts.getattr_set_other; exact Nad).
    exists o, t1, val1, v1, ofin.
    split; [exact G|]. split.
    + rewrite <- (TailFacts.descriptor_same _ _ arg Ead). exact D1.
    + split; [exact C1|]. split; [exact K1|]. split; [exact Gf|].
      split; [exact Ga|]. rewrite Gd. exact Ead.
Qed.

Lemma individual_at (r r' : root) (k sc : string) (v : value) (b : bool) :
  MainBase.override_individual_subconfig foreign_dir r k v b = Ok r' ->
  sc <> k -> MainBase.getattr r' sc = MainBase.getattr r sc.
Proof.
  intros H N. destruct v; try discriminate.
  exact (CheckpointFacts.override_items_at foreign_dir _ _ _ _ _ H sc N).
Qed.

Lemma filebased_entry (config : list (string * value)) (r r' : root)
    (sc : string) (items : list (string * value)) :
  MainBase.override_with_filebased_args foreign_dir r config true = Ok r' ->
  NoDup (dict_keys config) -> In (sc, VDict items) config ->
  exists ra rb,
    MainBase.getattr ra sc = MainBase.getattr r sc /\
    MainBase.override_items foreign_dir ra sc true items = Ok rb /\
    MainBase.getattr r' sc = MainBase.getattr rb sc.
Proof.
  revert r; induction config as [|[k v] config IH]; intros r H D I;
    [destruct I|].
  cbn [MainBase.override_with_filebased_args] in H.
  apply MonadFacts.bind_ok in H as [r1 [H1 H]].
  cbn [dict_keys map fst] in D. inversion D as [|? ? Nk D']. subst.
  destruct I as [E|I].
  - injection E as -> ->. exists r, r1. split; [reflexivity|].
    split; [exact H1|].
    exact (CheckpointFacts.filebased_at foreign_dir _ _ _ _ H sc Nk).
  - assert (N : sc <> k).
    { intro E. subst k. apply Nk. apply (in_map fst) in I. exact I. }
    destruct (IH _ H D' I) as (ra & rb & Ga & Hi & Gr).
    exists ra, rb. split; [|split; assumption].
    rewrite Ga. exact (individual_at _ _ _ _ _ _ H1 N).
Qed.

End Items.

End FileFacts.

(** X19. A file-based value over the default.  On a root whose defaults
    are realised, for a file-based config with distinct top-level keys
    whose entry for a declared subconfig (other than [frozen] and
    [save_dir]) is, once nested references are loaded, a dictionary with
    distinct keys that are neither reserved names nor slots of the
    runtime: when no token of the working list assigns into that
    subconfig and [build] returns, every argument the file names in that
    entry resolves to the value of the file, converted by the declared
    type and accepted by the declared validation, whatever its default
    was. *)
Theorem file_value_over_default (fs : string -> option value)
    (foreign_dir : rattr -> list string) (today : string)
    (allocate : string -> string -> string)
    (r r0 r1 r' : root) (subs argv args : list string)
    (d items : list (string * value)) (sc arg : string) (entry raw : value)
    (dont_save : bool) :
  MainBase.setattr r "_MainBase__dont_save" (RVal (VBool dont_save)) = Ok r0 ->
  MainBase.set_defaults r0 = Ok r1 ->
  MainBase.subconfigs r1 = Ok subs ->
  In sc subs -> sc <> "frozen" -> sc <> "save_dir" ->
  snd (MainBase.display_help r1 (MainBase.remaining today argv)) = Ok args ->
  MainBase.determine_config_path args <> "" ->
  fs (MainBase.determine_config_path args) = Some (VDict d) ->
  NoDup (dict_keys d) -> In (sc, entry) d ->
  MainBase.resolve_path fs entry = VDict items ->
  NoDup (dict_keys items) -> In (arg, raw) items ->
  (forall k, In k (dict_keys items) ->
     Str.mem k BaseConfig.reserved_attributes = false /\
     BaseConfig.runtime_slot k = false) ->
  (forall tok, In tok args -> MainBase.target tok <> Some sc) ->
  snd (MainBase.build fs foreign_dir today allocate r argv dont_save)
  = Ok r' ->
  exists o t validation v,
    MainBase.getattr r' sc = Some (RObj o) /\
    BaseConfig.descriptor o arg = Some (EDesc t validation) /\
    construct t raw = Some v /\
    MainBase.check validation v = Ok v /\
    MainBase.resolved r' sc arg = Some (AVal v).
Proof.
  intros H0 H1 Hs Hin Nf Nsd Hd Hp Hfs Dd Ie Hr Di Ia P Htok H.
  destruct (P arg (in_map fst _ _ Ia)) as [Pr Ps].
  assert (Na : arg <> "frozen").
  { intro E. subst arg. discriminate Pr. }
  apply BuildFacts.build_inv in H
    as [r0' [r1' [args' [r2 [r3 [r4 [r5 [x
         [E0 [E1 [Ed [Eo [Ec [Ef [Esd Efz]]]]]]]]]]]]]]].
  rewrite H0 in E0. inversion E0; subst r0'. clear E0.
  rewrite H1 in E1. inversion E1; subst r1'. clear E1.
  rewrite Hd in Ed. inversion Ed; subst args'. clear Ed.
  rewrite OverrideFacts.override_defaults_result in Eo.
  apply MonadFacts.bind_ok in Eo as [rf [Efile Ecmd]].
  assert (Sf : MainBase.subconfigs rf = Ok subs)
    by exact (FrameFacts.file_stage_stable fs foreign_dir _ r1 rf _
                (CheckpointFacts.names_stable subs) Efile Hs).
  assert (S2 : MainBase.subconfigs r2 = Ok subs)
    by exact (FrameFacts.cmdline_stable fs foreign_dir _ rf r2 _
                (CheckpointFacts.names_stable subs) Ecmd Sf).
  unfold MainBase.file_stage in Efile.
  apply String.eqb_neq in Hp. rewrite Hp in Efile.
  unfold MainBase.load_json in Efile at 1. rewrite Hfs in Efile.
  cbn [bind] in Efile.
  unfold MainBase.load_subconfigs_from_filepath in Efile.
  rewrite (LoadFacts.fold_fresh (MainBase.resolve_path fs) d []) in Efile
    by exact Dd.
  cbn [bind app] in Efile.
  apply MonadFacts.bind_ok in Efile as [u [_ Efile]].
  set (config := map (fun kv => (fst kv, MainBase.resolve_path fs (snd kv)))
                   d) in *.
  assert (Dc : NoDup (dict_keys config)).
  { unfold config, dict_keys. rewrite map_map. exact Dd. }
  assert (Ic : In (sc, VDict items) config).
  { unfold config. rewrite <- Hr.
    exact (in_map (fun kv => (fst kv, MainBase.resolve_path fs (snd kv)))
             _ _ Ie). }
  destruct (FileFacts.filebased_entry foreign_dir _ _ _ _ _ Efile Dc Ic)
    as (ra & rb & Ga & Hitems & Gf).
  destruct (FileFacts.items_entry foreign_dir _ _ _ _ _ _ Hitems Di Ia P)
    as (o & t & validation & v & ofin & Go & D & C & K & Gb & Gv & Gad).
  assert (G2 : MainBase.getattr r2 sc = Some (RObj ofin)).
  { rewrite (LaterTokens.cmdline_other fs foreign_dir rf r2 args sc Ecmd
               Htok).
    rewrite Gf. exact Gb. }
  assert (T : forall a, a <> "frozen" ->
                        MainBase.resolved r' sc a = BaseConfig.getattr ofin a).
  { intros a Ha.
    rewrite (TailFacts.tail_preserves fs foreign_dir r2 r3 r4 r5 r' x subs
               sc a ofin Ec Ef Esd Efz S2 Hin G2 Nf Nsd Ha).
    unfold MainBase.resolved. now rewrite G2. }
  pose proof (T arg Na) as Targ.
  pose proof (T "arg_dict" ltac:(discriminate)) as Tad.
  unfold MainBase.resolved in Targ, Tad.
  destruct (MainBase.getattr r' sc) as [[c|olast|w|l|]|] eqn:G;
    try (rewrite Gv in Targ; discriminate).
  exists olast, t, validation, v.
  split; [reflexivity|].
  split.
  - rewrite (TailFacts.descriptor_same olast o arg);
      [exact D|rewrite Tad; exact Gad].
  - split; [exact C|]. split; [exact K|].
    unfold MainBase.resolved. rewrite G, Targ. exact Gv.
Qed.

(** X19, for a file that sets [training.dataset_to_use] and a command
    line without a token for [training]. *)
Lemma file_value_over_default_witness :
  exists o t validation v,
    MainBase.getattr Example.built_file "training" = Some (RObj o) /\
    BaseConfig.descriptor o "dataset_to_use" = Some (EDesc t validation) /\
    construct t (VStr "rayleigh_dataset") = Some v /\
    MainBase.check validation v = Ok v /\
    MainBase.resolved Example.built_file "training" "dataset_to_use"
    = Some (AVal v).
Proof.
  apply (file_value_over_default Example.file_fs Example.no_dir
           Example.a_day Example.run_dir Example.main_root Example.main_r0
           Example.main_r1 Example.built_file ["model"; "training"]
           ["config=f.json"; "model.model_type=patch"]
           ["config=f.json"; "model.model_type=patch"]
           [("training", VDict [("dataset_to_use", VStr "rayleigh_dataset")])]
           [("dataset_to_use", VStr "rayleigh_dataset")]
           "training" "dataset_to_use"
           (VDict [("dataset_to_use", VStr "rayleigh_dataset")])
           (VStr "rayleigh_dataset") true).
  - apply FreezeFacts.ok_default. vm_compute; reflexivity.
  - apply FreezeFacts.ok_default. vm_compute; reflexivity.
  - vm_compute; reflexivity.
  - right; left; reflexivity.
  - discriminate.
  - discriminate.
  - vm_compute; reflexivity.
  - vm_compute; discriminate.
  - vm_compute; reflexivity.
  - repeat constructor. intros [].
  - left; reflexivity.
  - reflexivity.
  - repeat constructor. intros [].
  - left; reflexivity.
  - intros k [<-|[]]. split; reflexivity.
  - intros tok [<-|[<-|[]]]; vm_compute; discriminate.
  - apply (FreezeFacts.ok_default
             (snd (MainBase.build Example.file_fs Example.no_dir
                     Example.a_day Example.run_dir Example.main_root
                     ["config=f.json"; "model.model_type=patch"] true)) []).
    vm_compute; reflexivity.
Defined.

(** ** The export of the root and of a merged subconfig *)

Module RootExportFacts.

Lemma export_args_spec (o : obj) (ks : list string)
    (acc d : list (string * attr)) :
  MainBase.export_args o ks acc = Ok d ->
  (forall k a, dict_get k acc = Some a -> BaseConfig.getattr o k = Some a) ->
  (forall k, In k (dict_keys d) <-> In k ks \/ In k (dict_keys acc)) /\
  (forall k a, dict_get k d = Some a -> BaseConfig.getattr o k = Some a).
Proof.
  revert acc; induction ks as [|k ks IH]; intros acc H I.
  - injection H as <-. split; [|exact I].
    intro k. split; [intro H; right; exact H|intros [[]|H]; exact H].
  - cbn [MainBase.export_args] in H.
    apply MonadFacts.bind_ok in H as [v [G H]].
    unfold BaseConfig.get_or_raise in G.
    destruct (BaseConfig.getattr o k) as [a0|] eqn:Gk; [|discriminate].
    injection G as <-.
    destruct (IH _ H) as [A B].
    + intros k' a Hk. destruct (string_dec k' k) as [->|N].
      * rewrite DictFacts.get_set_same in Hk. injection Hk as <-. exact Gk.
      * rewrite DictFacts.get_set_other in Hk by exact N. exact (I k' a Hk).
    + split; [|exact B]. intro k'. rewrite A, DictFacts.keys_dict_set.
      cbn [In]. split.
      * intros [H1|[H1|H1]]; [left; right; exact H1|
                              left; left; symmetry; exact H1|right; exact H1].
      * intros [[H1|H1]|H1]; [right; left; symmetry; exact H1|
                              left; exact H1|right; right; exact H1].
Qed.

(** What the export holds for one subconfig. *)
Lemma export_subconfigs_spec (r : root) (cfgs : list string)
    (acc E : export) (P : string -> list (string * attr) -> Prop) :
  (forall cfg o hd ks d,
     MainBase.getattr r cfg = Some (RObj o) ->
     BaseConfig.getattr o "help_dict" = Some hd -> attr_keys hd = Ok ks ->
     MainBase.export_args o ks [] = Ok d -> P cfg d) ->
  MainBase.export_subconfigs r cfgs acc = Ok E ->
  (forall cfg d, dict_get cfg acc = Some d -> P cfg d) ->
  (forall cfg, In cfg (dict_keys E) <-> In cfg cfgs \/ In cfg (dict_keys acc))
  /\ (forall cfg d, dict_get cfg E = Some d -> P cfg d).
Proof.
  intro HP. revert acc; induction cfgs as [|cfg cfgs IH]; intros acc H I.
  - injection H as <-. split; [|exact I].
    intro k. split; [intro H; right; exact H|intros [[]|H]; exact H].
  - cbn [MainBase.export_subconfigs] in H.
    apply MonadFacts.bind_ok in H as [val [G H]].
    apply MonadFacts.bind_ok in H as [o [O H]].
    apply MonadFacts.bind_ok in H as [hd [Gh H]].
    apply MonadFacts.bind_ok in H as [ks [K H]].
    apply MonadFacts.bind_ok in H as [d [X H]].
    assert (Go := FrameFacts.get_obj r cfg val o G O).
    unfold BaseConfig.get_or_raise in Gh.
    destruct (BaseConfig.getattr o "help_dict") as [h|] eqn:Gh';
      [|discriminate].
    injection Gh as <-.
    destruct (IH _ H) as [A B].
    + intros c d' Hc. destruct (string_dec c cfg) as [->|N].
      * rewrite DictFacts.get_set_same in Hc. injection Hc as <-.
        exact (HP cfg o h ks d Go Gh' K X).
      * rewrite DictFacts.get_set_other in Hc by exact N. exact (I c d' Hc).
    + split; [|exact B]. intro c. rewrite A, DictFacts.keys_dict_set.
      cbn [In]. split.
      * intros [H1|[H1|H1]]; [left; right; exact H1|
                              left; left; symmetry; exact H1|right; exact H1].
      * intros [[H1|H1]|H1]; [right; left; symmetry; exact H1|
                              left; exact H1|right; right; exact H1].
Qed.

End RootExportFacts.

(** X20. What the root exports.  Whenever [MainBase.to_dict] returns, the
    export has one entry for each name of [__subconfigs] and no other;
    each name holds a subconfig instance, and its entry lists exactly the
    keys of the [help_dict] of that instance, each with the current
    value of the attribute of that name: the export reads [help_dict],
    not [arg_dict]. *)
Theorem root_export_by_help_dict (r : root) (subs : list string)
    (E : export) :
  MainBase.subconfigs r = Ok subs ->
  MainBase.to_dict r = Ok E ->
  (forall sc, In sc (dict_keys E) <-> In sc subs) /\
  (forall sc d, dict_get sc E = Some d ->
     exists o hd ks,
       MainBase.getattr r sc = Some (RObj o) /\
       BaseConfig.getattr o "help_dict" = Some hd /\
       attr_keys hd = Ok ks /\
       (forall k, In k (dict_keys d) <-> In k ks) /\
       (forall k a, dict_get k d = Some a ->
                    MainBase.resolved r sc k = Some a)).
Proof.
  intros S H. unfold MainBase.to_dict in H. rewrite S in H. cbn [bind] in H.
  destruct (RootExportFacts.export_subconfigs_spec r subs [] E
              (fun sc d =>
                 exists o hd ks,
                   MainBase.getattr r sc = Some (RObj o) /\
                   BaseConfig.getattr o "help_dict" = Some hd /\
                   attr_keys hd = Ok ks /\
                   (forall k, In k (dict_keys d) <-> In k ks) /\
                   (forall k a, dict_get k d = Some a ->
                                MainBase.resolved r sc k = Some a)))
    as [A B].
  - intros cfg o hd ks d G Gh K X. exists o, hd, ks.
    split; [exact G|]. split; [exact Gh|]. split; [exact K|].
    destruct (RootExportFacts.export_args_spec o ks [] d X) as [A B].
    + intros k a Hk. discriminate Hk.
    + split.
      * intro k. rewrite A. cbn [dict_keys map In]. tauto.
      * intros k a Hk. unfold MainBase.resolved. rewrite G. exact (B k a Hk).
  - exact H.
  - intros cfg d Hc. discriminate Hc.
  - split; [|exact B]. intro sc. rewrite A. cbn [dict_keys map In]. tauto.
Qed.

(** X20, for the export of a built root with the subconfig [model] alone. *)
Lemma root_export_by_help_dict_witness :
  (forall sc, In sc (dict_keys [("model",
                                 [("model_type", AVal (VStr "retinanet"))])])
              <-> In sc ["model"]) /\
  (forall sc d,
     dict_get sc [("model", [("model_type", AVal (VStr "retinanet"))])]
     = Some d ->
     exists o hd ks,
       MainBase.getattr Example.built_model sc = Some (RObj o) /\
       BaseConfig.getattr o "help_dict" = Some hd /\
       attr_keys hd = Ok ks /\
       (forall k, In k (dict_keys d) <-> In k ks) /\
       (forall k a, dict_get k d = Some a ->
                    MainBase.resolved Example.built_model sc k = Some a)).
Proof.
  apply (root_export_by_help_dict Example.built_model ["model"]
           [("model", [("model_type", AVal (VStr "retinanet"))])]).
  - vm_compute; reflexivity.
  - vm_compute; reflexivity.
Defined.



(** ** The argument listing *)

Module ColumnFacts.

Lemma length_app (a b : string) :
  String.length (a ++ b) = String.length a + String.length b.
Proof. induction a as [|c a IH]; cbn; [reflexivity|now rewrite IH]. Qed.

Lemma concat_repeat (m : nat) :
  String.length (String.concat "" (List.repeat MainBase.space m)) = m.
Proof.
  induction m as [|m IH]; [reflexivity|].
  cbn [List.repeat String.concat]. destruct m as [|m']; [reflexivity|].
  cbn [List.repeat] in *. rewrite !length_app. cbn [String.length Nat.add].
  rewrite IH. reflexivity.
Qed.

Lemma pad_length (n : Z) :
  String.length (Str.repeat_str MainBase.space n) = Z.to_nat n.
Proof. unfold Str.repeat_str. apply concat_repeat. Qed.

Lemma pad_none (n : Z) : (n <= 0)%Z -> Str.repeat_str MainBase.space n = "".
Proof.
  intro H. unfold Str.repeat_str.
  replace (Z.to_nat n) with 0 by lia. reflexivity.
Qed.

End ColumnFacts.

(** X22. The columns of the argument listing.  For every line that
    [__display_help] prints for an argument: when the dotted name has at
    most 35 characters and the text of the type at most 20, the type
    starts after 41 characters and the description 27 characters
    further; when the name
    has 35 characters or more and the type 20 or more, the three parts
    are separated by one blank; nothing is ever cut. *)
Theorem help_line_columns (cfg k type v : string) :
  (String.length (cfg ++ "." ++ k) <= 35 -> String.length type <= 20 ->
   exists pad1 pad2,
     MainBase.arg_line cfg k type v
     = ("arg: " ++ cfg ++ "." ++ k) ++ pad1 ++ ("type: " ++ type) ++ pad2
       ++ "description: " ++ v /\
     String.length (("arg: " ++ cfg ++ "." ++ k) ++ pad1) = 41 /\
     String.length (("type: " ++ type) ++ pad2) = 27) /\
  (35 <= String.length (cfg ++ "." ++ k) -> 20 <= String.length type ->
   MainBase.arg_line cfg k type v
   = ("arg: " ++ cfg ++ "." ++ k) ++ " " ++ ("type: " ++ type) ++ " "
     ++ "description: " ++ v).
Proof.
  split.
  - intros Hn Ht.
    exists (" " ++ Str.repeat_str MainBase.space
                     (35 - Z.of_nat (String.length (cfg ++ "." ++ k)))),
           (" " ++ Str.repeat_str MainBase.space
                     (20 - Z.of_nat (String.length type))).
    split.
    + unfold MainBase.arg_line. rewrite !StrFacts.append_assoc. reflexivity.
    + rewrite !ColumnFacts.length_app, !ColumnFacts.pad_length.
      rewrite !ColumnFacts.length_app in *.
      cbn [String.length] in *. split; lia.
  - intros Hn Ht. unfold MainBase.arg_line.
    rewrite !ColumnFacts.pad_none by lia.
    rewrite !StrFacts.append_assoc. reflexivity.
Qed.

(** ** A second [build] *)

Module OneShotFacts.

Lemma in_insert_sorted (x y : string) (l : list string) :
  In y (Str.insert_sorted x l) <-> y = x \/ In y l.
Proof.
  induction l as [|z l IH]; cbn [Str.insert_sorted In].
  - split; [intros [H|[]]; left; symmetry; exact H|
            intros [H|[]]; left; symmetry; exact H].
  - destruct (String.leb x z); cbn [In]; [|rewrite IH];
      intuition congruence.
Qed.

Lemma in_sort (y : string) (l : list string) : In y (Str.sort l) <-> In y l.
Proof.
  unfold Str.sort. induction l as [|x l IH]; cbn [fold_right In];
    [reflexivity|].
  rewrite in_insert_sorted, IH. intuition congruence.
Qed.

Lemma in_dedup (y : string) (l : list string) : In y (Str.dedup l) <-> In y l.
Proof.
  induction l as [|x l IH]; cbn [Str.dedup In]; [reflexivity|].
  destruct (Str.mem x l) eqn:M.
  - apply DictFacts.mem_true in M. rewrite IH.
    split; [intro H; right; exact H|].
    intros [<-|H]; assumption.
  - cbn [In]. rewrite IH. reflexivity.
Qed.

Lemma key_in_dir (r : root) (n : string) :
  In n (dict_keys r) -> In n (MainBase.dir_root r).
Proof.
  intro H. unfold MainBase.dir_root. apply in_sort, in_dedup.
  apply in_or_app. left. exact H.
Qed.

Lemma set_key {V : Type} (k : string) (v : V) (d : list (string * V)) :
  In k (dict_keys (dict_set k v d)).
Proof. apply DictFacts.keys_dict_set. left. reflexivity. Qed.

Lemma set_defaults_classes (r r1 : root) (n : string) (reserved : rattr) :
  MainBase.set_defaults r = Ok r1 ->
  In n (dict_keys r) -> Str.contains "__" n = false ->
  MainBase.get_or_raise r "reserved_attributes" = Ok reserved ->
  MainBase.rattr_contains reserved n = Ok false ->
  exists c, MainBase.getattr r n = Some (RClass c).
Proof.
  intros H I D Hres R. unfold MainBase.set_defaults in H. rewrite Hres in H.
  cbn [bind] in H.
  apply MonadFacts.bind_ok in H as [names [Hf H]].
  apply MonadFacts.bind_ok in H as [r0 [S0 H]].
  apply MonadFacts.bind_ok in H as [cfgs [Hc H]].
  apply (RootFacts.setattr_ok r r0 "_MainBase__subconfigs" _ eq_refl) in S0.
  subst r0.
  unfold MainBase.subconfigs, MainBase.get_or_raise in Hc.
  rewrite RootFacts.root_get_set_same in Hc. injection Hc as <-.
  assert (Hn := DefaultsFacts.filter_names_complete _ _ _ Hf n
                (key_in_dir r n I) D R).
  destruct (DefaultsFacts.realize_spec _ _ _ H) as [A _].
  destruct (A n Hn) as (c & o & Gc & _).
  exists c. rewrite RootFacts.root_get_set_other in Gc; [exact Gc|].
  intro E. subst n. discriminate D.
Qed.

End OneShotFacts.

(** X23. A root is built once.  Whenever [build] returns a root on which
    the name [frozen] is not among [reserved_attributes] (it is not
    among those of [MainBase]), a second [build] on that root never
    returns, whatever its command line and its environment: the
    attribute [frozen] that the first call stored is taken for a
    subconfig class when the defaults are realised, and is none. *)
Theorem build_is_one_shot (fs fs' : string -> option value)
    (foreign_dir foreign_dir' : rattr -> list string) (today today' : string)
    (allocate allocate' : string -> string -> string) (r r' : root)
    (argv argv' : list string) (dont_save dont_save' : bool) :
  snd (MainBase.build fs foreign_dir today allocate r argv dont_save)
  = Ok r' ->
  (let* reserved := MainBase.get_or_raise r' "reserved_attributes" in
   MainBase.rattr_contains reserved "frozen") = Ok false ->
  is_ok (snd (MainBase.build fs' foreign_dir' today' allocate' r' argv'
                dont_save')) = false.
Proof.
  intros H R.
  apply BuildFacts.build_inv in H
    as [r0 [r1 [args [r2 [r3 [r4 [r5 [x
         [_ [_ [_ [_ [_ [_ [_ Efz]]]]]]]]]]]]]]].
  apply (RootFacts.setattr_ok r5 r' "frozen" _ eq_refl) in Efz. subst r'.
  rewrite PipelineFacts.build_unfold.
  rewrite MonadFacts.snd_io_bind, MonadFacts.snd_lift.
  destruct (MainBase.setattr (dict_set "frozen" (RVal (VBool true)) r5)
              "_MainBase__dont_save" (RVal (VBool dont_save')))
    as [r0'|e] eqn:S0; [|reflexivity].
  cbn [bind]. rewrite MonadFacts.snd_io_bind, MonadFacts.snd_lift.
  destruct (MainBase.set_defaults r0') as [r1'|e] eqn:S1; [|reflexivity].
  exfalso.
  apply (RootFacts.setattr_ok _ r0' "_MainBase__dont_save" _ eq_refl) in S0.
  subst r0'.
  apply MonadFacts.bind_ok in R as [reserved [Hres R]].
  destruct (OneShotFacts.set_defaults_classes _ _ "frozen" reserved S1)
    as [c G].
  - apply DictFacts.keys_dict_set. right. apply OneShotFacts.set_key.
  - reflexivity.
  - unfold MainBase.get_or_raise in *.
    rewrite RootFacts.root_get_set_other by discriminate. exact Hres.
  - exact R.
  - rewrite RootFacts.root_get_set_other in G by discriminate.
    rewrite RootFacts.root_get_set_same in G. discriminate G.
Qed.

(** X23, for a second build of a built root. *)
Lemma build_is_one_shot_witness :
  is_ok (snd (MainBase.build Example.no_file Example.no_dir Example.a_day
                Example.run_dir Example.built_model [] true)) = false.
Proof.
  apply (build_is_one_shot Example.no_file Example.no_file Example.no_dir
           Example.no_dir Example.a_day Example.a_day Example.run_dir
           Example.run_dir Example.model_root Example.built_model [] []
           true true).
  - apply (FreezeFacts.ok_default (snd Example.build_model) []).
    vm_compute; reflexivity.
  - vm_compute; reflexivity.
Defined.

(** X24. The file system and the root.  The root that [build] returns
    depends on the file system through the directory that
    [__create_save_dir] returns only: whenever [build], with
    [SessionSaver] run on a file system, returns a root, [build] with the
    call of [__create_save_dir] replaced by that directory returns the
    same root. *)
Theorem saver_result_suffices (world : Type)
    (path_exists : world -> string -> bool)
    (makedirs : world -> string -> res world)
    (walk : world -> string -> list string)
    (fs : string -> option value) (foreign_dir : rattr -> list string)
    (today : string) (w w' : world) (r r' : root)
    (argv : list string) (dont_save : bool) :
  snd (Persist.build world path_exists makedirs walk fs foreign_dir today
         w r argv dont_save) = Ok (w', r') ->
  snd (MainBase.build fs foreign_dir today
         (Persist.allocated world path_exists makedirs walk w)
         r argv dont_save) = Ok r'.
Proof.
  intro H.
  destruct (PersistFacts.persist_inv world path_exists makedirs walk fs
              foreign_dir today w w' r r' argv dont_save H)
    as (r0 & r1 & args & r2 & r3 & ev & r4 & flag & r5 & H0 & H1 & Ha & H2
        & H3 & He & H4 & Hf & Hz & C).
  cbv zeta in C.
  rewrite PipelineFacts.build_unfold.
  rewrite MonadFacts.snd_io_bind, MonadFacts.snd_lift, H0. cbn [bind].
  rewrite MonadFacts.snd_io_bind, MonadFacts.snd_lift, H1. cbn [bind].
  rewrite MonadFacts.snd_io_bind, Ha. cbn [bind].
  unfold MainBase.finish.
  rewrite MonadFacts.snd_io_bind, H2. cbn [bind].
  rewrite MonadFacts.snd_io_bind, MonadFacts.snd_lift, H3. cbn [bind].
  rewrite MonadFacts.snd_io_bind, MonadFacts.snd_lift, He. cbn [bind].
  rewrite MonadFacts.snd_io_bind, MonadFacts.snd_lift, H4. cbn [bind].
  rewrite MonadFacts.snd_io_bind, MonadFacts.snd_lift, Hf. cbn [bind].
  rewrite MonadFacts.snd_io_bind.
  destruct C as [(T & _ & Hs & _)
                 | (T & p & E & lines & Hc & _ & Hu & Hs & _)];
    rewrite T; cbn [negb].
  - rewrite MonadFacts.snd_lift, Hs. cbn [bind]. exact Hz.
  - unfold Persist.allocated. rewrite Hc.
    rewrite MonadFacts.snd_io_bind, Hu. cbn [bind].
    rewrite MonadFacts.snd_lift, Hs. cbn [bind]. exact Hz.
Qed.

(** X24, for the saved build of the root with the subconfig [model]
    alone. *)
Lemma saver_result_suffices_witness :
  snd (MainBase.build Example.no_file Example.no_dir Example.a_day
         (Persist.allocated Example.dirs Example.dir_exists Example.make_dir
            Example.walk_dirs [])
         Example.model_root ["save_dir=out"] false)
  = Ok Example.saved_on_empty.
Proof.
  apply (saver_result_suffices Example.dirs Example.dir_exists
           Example.make_dir Example.walk_dirs Example.no_file Example.no_dir
           Example.a_day [] ["out/2024-01-31"; "out/2024-01-31/1"]
           Example.model_root Example.saved_on_empty ["save_dir=out"] false).
  exact PersistFacts.build_on_empty.
Defined.

(** * Samples *)

(** ** The functions on text *)

Example contains_ex : Str.contains "save_dir" "training.x=save_dir_v2" = true.
Proof. reflexivity. Qed.

Example split_once_ex :
  Str.split_once "=" "training.lr=1e-8=x" = Some ("training.lr", "1e-8=x").
Proof. reflexivity. Qed.

Example split_ex : Str.split "." "a.b.c" = ["a"; "b"; "c"].
Proof. reflexivity. Qed.

Example after_last_ex : Str.after_last "=" "save_dir=a=b" = "b".
Proof. reflexivity. Qed.

Example before_last_ex : Str.before_last "/" "a/b/ckpt.pt" = "a/b".
Proof. reflexivity. Qed.

Example after_last_sub_ex :
  Str.after_last_sub "config=" "config=a/config=b.json" = "b.json".
Proof. reflexivity. Qed.

Example last_n_ex : Str.last_n 5 "model_2.json" = ".json".
Proof. reflexivity. Qed.

Example sort_ex : Str.sort ["training"; "model"] = ["model"; "training"].
Proof. reflexivity. Qed.

Example repr_ex :
  py_repr (VDict [("a", VList [VInt (-12); VInt 0; VStr "it's"; VNone])])
  = String.concat "" ["{'a': [-12, 0, "; String dquote "it's";
                      String dquote ", None]}"].
Proof. reflexivity. Qed.

(** ** The scenarios of [tests/test.py] *)

(** [test_no_filebased_config] *)
Example no_filebased_config :
  match snd (MainBase.build Example.no_file Example.no_dir Example.a_day
               Example.run_dir Example.main_root [] true) with
  | Ok c =>
      MainBase.resolved c "model" "model_type"
      = Some (AVal (VStr "retinanet")) /\
      MainBase.resolved c "training" "dataset_to_use"
      = Some (AVal (VStr "default")) /\
      MainBase.resolved c "training" "use_mlflow_logger"
      = Some (AVal (VBool false)) /\
      MainBase.resolved c "training" "lr" = Some (AVal (VFloat "0.001"))
  | Err _ => False
  end.
Proof. vm_compute. repeat split. Qed.

(** [test_invalid_cmdline_override_2] *)
Example invalid_cmdline_override :
  snd (MainBase.build Example.file_fs Example.no_dir Example.a_day
         Example.run_dir Example.main_root
         ["config=f.json"; "model.model_type=bad_model_type"] true)
  = Err ValidationFailed.
Proof. vm_compute. reflexivity. Qed.

(** [test_configs_immutable] *)
Example configs_immutable :
  match MainBase.getattr Example.built_model "model" with
  | Some (RObj o) =>
      BaseConfig.setattr o "model_type" (VStr "different_model_type")
      = Err FrozenConfig
  | _ => False
  end.
Proof. vm_compute. reflexivity. Qed.

(** [test_main_config_to_dict] *)
Example main_config_to_dict :
  option_map (map fst)
    (match MainBase.to_dict Example.built_main with
     | Ok d => Some d
     | Err _ => None
     end)
  = Some ["model"; "training"].
Proof. vm_compute. reflexivity. Qed.

(** [test_help_message]: the listing is printed and [build] returns. *)
Example help_message :
  fst (MainBase.build Example.no_file Example.no_dir Example.a_day
         Example.run_dir Example.model_root ["--h"] true)
  = (MainBase.usage "train.sh"
     ++ [Print (MainBase.arg_line "model" "model_type" "<class 'str'>"
                  "The type of model to use");
         Print MainBase.no_file_message])%list /\
  is_ok (snd (MainBase.build Example.no_file Example.no_dir Example.a_day
                Example.run_dir Example.model_root ["--h"] true)) = true.
Proof. split; vm_compute; reflexivity. Qed.

(** With persistence: the export is written to [config.json] in the
    allocated run directory, which the root records. *)
Example persisted_run :
  fst (MainBase.build Example.no_file Example.no_dir Example.a_day
         Example.run_dir Example.model_root ["save_dir=out"] false)
  = [Print MainBase.no_file_message;
     SaveJson "out/2024-01-31/1/config.json"
       [("model", [("model_type", AVal (VStr "retinanet"))])]] /\
  match snd (MainBase.build Example.no_file Example.no_dir Example.a_day
               Example.run_dir Example.model_root ["save_dir=out"] false) with
  | Ok c => MainBase.getattr c "save_dir"
            = Some (RVal (VStr "out/2024-01-31/1"))
  | Err _ => False
  end.
Proof. split; vm_compute; reflexivity. Qed.

(** ** The allocation of a run directory *)

(** The next run of an experiment with the runs 1 and 2: the directory
    [7] inside the second run counts, so the run is 8; the lines are
    printed before the directory is made. *)
Example next_run :
  Example.configure_run Example.two_runs "results" "exp"
  = ([Print SessionSaver.stars;
      Print "Setting save path for run 8";
      Print SessionSaver.stars;
      Print "Save path = results/exp/8";
      Print SessionSaver.stars],
     Ok ((Example.two_runs ++ ["results/exp/8"])%list,
         ("results/exp/8", 8%Z))).
Proof. vm_compute. reflexivity. Qed.

(** The first run of an experiment. *)
Example first_run :
  Example.configure_run [] "results" "exp"
  = ([Print "Experiment directory empty, starting run_id 1"],
     Ok (["results/exp"; "results/exp/1"], ("results/exp/1", 1%Z))).
Proof. vm_compute. reflexivity. Qed.

(** An exception of [SessionSaver] is the exception of [build]: on a
    file system whose experiment directory holds a directory named by a
    superscript two, [int()] raises and nothing is written. *)
Example persist_saver_raises :
  snd (Example.build_on Example.no_file
         ["out"; "out/2024-01-31"; "out/2024-01-31/1";
          "out/2024-01-31/" ++ String (ascii_of_nat 178) ""]
         Example.model_root ["save_dir=out"] false)
  = Err PyValueError /\
  fst (Example.build_on Example.no_file
         ["out"; "out/2024-01-31"; "out/2024-01-31/1";
          "out/2024-01-31/" ++ String (ascii_of_nat 178) ""]
         Example.model_root ["save_dir=out"] false)
  = [Print MainBase.no_file_message].
Proof. split; vm_compute; reflexivity. Qed.
